(** * Flake8 lint worker ([lint.py]): model and verified properties

    The worker glues third-party checkers together: it translates a
    settings mapping into checker invocations, merges the diagnostics and
    sorts them ([lint]); it re-invokes itself as a child process and parses
    the child's output ([lint_external]); and it extracts a few options
    from a parsed configuration file ([load_flake8_config]).

    Python values are modelled by the sum type [PyVal]; text is a [string]
    (a sequence of bytes, UTF-8 encoded where it stands for a Python [str]);
    the third-party checkers, the compiler and the child process are
    parameters gathered in records; the interpreter-wide state touched by
    [lint] is threaded explicitly, together with a log of the library calls
    made.

    Scope of the model.  The built-ins follow Python 3 ([str] is Unicode
    text, [bytes] are decoded explicitly); the characters that count as
    whitespace and as decimal digits are those of Unicode 14, and the
    limit on the number of digits in a conversion between integers and
    text is the default one.  Settings and positions are [None],
    booleans, integers, floats, text or lists of text.  The checkers and
    the compiler are taken to return: an exception raised inside a
    checker, which [lint] lets through, is not modelled, nor is an
    exception of [compile] other than the two kinds [lint] catches.  The
    configuration files are modelled by what the parser holds once it has
    read them, paths follow [posixpath], and the program starts from the
    namespace [argparse] returns.  The console to which [lint_external]
    prints takes any text; the standard output of the program is a
    parameter and may refuse a text. *)

From Stdlib Require Import ZArith NArith Ascii String List Lia.
From stdpp Require Import gmap strings sorting.

Open Scope string_scope.
Open Scope list_scope.

#[local] Set Warnings "-clear-no-such-hyp".

(** ** Python values and exceptions *)

(** A [float]: the finite value [(-1)^s * m * 2^e] (zero when [m] is),
    an infinity or a NaN. *)
Inductive PyFloat : Type :=
| Finite (negative : bool) (mantissa : N) (exponent : Z)
| Infinity (negative : bool)
| NaN.

(** A float is held with the text [repr] gives for it (the shortest
    decimal that reads back as the same float): finding that text is the
    interpreter's business, and nothing below depends on what it is. *)
Inductive PyVal : Type :=
| PNone
| PBool (b : bool)
| PInt (n : Z)
| PFloat (x : PyFloat) (text : string)
| PStr (s : string)
| PList (l : list string).

(** Truth value of an object, as tested by [if v:]. *)
Definition truthy (v : PyVal) : bool :=
  match v with
  | PNone => false
  | PBool b => b
  | PInt n => negb (n =? 0)%Z
  | PFloat (Finite _ m _) _ => negb (m =? 0)%N
  | PFloat _ _ => true
  | PStr s => negb (String.eqb s "")
  | PList l => match l with [] => false | _ => true end
  end.

Inductive Exc : Type :=
| TypeError
| ValueError
| OverflowError
| UnicodeDecodeError
| UnicodeEncodeError
| NoSectionError
| NoOptionError.

Inductive Result (A : Type) : Type :=
| Ok (a : A)
| Raise (e : Exc).
Arguments Ok {A} a.
Arguments Raise {A} e.

Definition rbind {A B} (r : Result A) (k : A → Result B) : Result B :=
  match r with
  | Ok a => k a
  | Raise e => Raise e
  end.

Fixpoint rmapM {A B} (f : A → Result B) (l : list A) : Result (list B) :=
  match l with
  | [] => Ok []
  | x :: l' =>
      rbind (f x) (λ y, rbind (rmapM f l') (λ ys, Ok (y :: ys)))
  end.

(** ** Decimal text of integers *)

Definition digit_char (d : N) : ascii := ascii_of_N (48 + d).

(** Digits of [n], most significant first, pushed in front of [acc]. *)
Fixpoint dec_digits (fuel : nat) (n : N) (acc : string) : string :=
  match fuel with
  | O => acc
  | S f =>
      let acc' := String (digit_char (n mod 10)) acc in
      if (n / 10 =? 0)%N then acc' else dec_digits f (n / 10)%N acc'
  end.

(** The decimal digits of a non-negative integer. *)
Definition str_of_N (n : N) : string :=
  dec_digits (S (N.to_nat (N.log2 n))) n "".

(** The decimal text of an integer. *)
Definition str_of_Z (n : Z) : string :=
  if (n <? 0)%Z then String "-" (str_of_N (Z.abs_N n)) else str_of_N (Z.abs_N n).

(** The interpreter refuses to convert between an integer and a decimal
    text of more than [sys.get_int_max_str_digits()] digits: 4300, unless
    it is configured otherwise.  The sign does not count. *)
Definition int_max_str_digits : N := 4300.

Definition too_many_digits (digits : nat) : bool :=
  (int_max_str_digits <? N.of_nat digits)%N.

(** [str(n)] for an integer. *)
Definition str_of_int (n : Z) : Result string :=
  if too_many_digits (String.length (str_of_N (Z.abs_N n))) then Raise ValueError
  else Ok (str_of_Z n).

Fixpoint zeros (k : nat) (s : string) : string :=
  match k with
  | O => s
  | S k' => String "0" (zeros k' s)
  end.

(** ['{:09d}'.format(n)] for an integer: sign-aware zero padding to a
    total width of nine characters, never truncating. *)
Definition format_09d_Z (n : Z) : string :=
  let digits := str_of_N (Z.abs_N n) in
  if (n <? 0)%Z
  then String "-" (zeros (8 - String.length digits) digits)
  else zeros (9 - String.length digits) digits.

(** The same on an arbitrary object: [None] and lists have no ['d']
    format (TypeError), strings and floats reject it (ValueError), as
    does an integer of too many digits; [bool] is an [int]. *)
Definition format_09d (v : PyVal) : Result string :=
  match v with
  | PInt n => rbind (str_of_int n) (λ _, Ok (format_09d_Z n))
  | PBool b => Ok (format_09d_Z (if b then 1 else 0))
  | PStr _ | PFloat _ _ => Raise ValueError
  | PNone | PList _ => Raise TypeError
  end.

(** ** [sorted(l, key=...)]

    Python computes every key first, then sorts stably comparing keys
    with [<].  A stable sort is determined by the order on keys, so
    insertion sort describes the result. *)

Section Sorted.
Context {A K : Type} (lt : K → K → bool).

Fixpoint insert_keyed (x : K * A) (l : list (K * A)) : list (K * A) :=
  match l with
  | [] => [x]
  | y :: l' =>
      if lt (fst y) (fst x) then y :: insert_keyed x l' else x :: y :: l'
  end.

Fixpoint sort_keyed (l : list (K * A)) : list (K * A) :=
  match l with
  | [] => []
  | x :: l' => insert_keyed x (sort_keyed l')
  end.

Definition py_sorted (key : A → Result K) (l : list A) : Result (list A) :=
  rbind (rmapM (λ a, rbind (key a) (λ k, Ok (k, a))) l)
        (λ keyed, Ok (snd <$> sort_keyed keyed)).
End Sorted.

(** ** Diagnostics *)

(** A diagnostic is the tuple [(line, column, message)]; checkers are
    free to put any object in the first two positions. *)
Definition Diag : Type := PyVal * PyVal * string.

Definition diag_line (d : Diag) : PyVal := d.1.1.
Definition diag_col (d : Diag) : PyVal := d.1.2.
Definition diag_msg (d : Diag) : string := d.2.

(** [lambda e: '{0:09d}{1:09d}'.format(e[0], e[1])] *)
Definition sort_key (e : Diag) : Result string :=
  rbind (format_09d (diag_line e)) (λ l,
  rbind (format_09d (diag_col e)) (λ c, Ok (l +:+ c))).

(** The [return] statement of [lint]. *)
Definition sort_warnings (warnings : list Diag) : Result (list Diag) :=
  py_sorted String.ltb sort_key warnings.

(** ** Text operations

    A [str] is held as its UTF-8 bytes; [bytes] objects are held as they
    are. *)

Definition byte_in (lo hi : N) (c : ascii) : bool :=
  let n := N_of_ascii c in ((lo <=? n) && (n <=? hi))%N.

Definition bytes_of (l : list N) : string :=
  foldr (λ n s, String (ascii_of_N n) s) "" l.

(** [bytes.decode('utf-8')]: strict decoding succeeds exactly on
    well-formed UTF-8 (no overlong forms, no surrogates, nothing above
    U+10FFFF). *)
Fixpoint utf8_valid (s : string) : bool :=
  match s with
  | "" => true
  | String b0 s1 =>
      if byte_in 0 127 b0 then utf8_valid s1
      else
        match s1 with
        | "" => false
        | String b1 s2 =>
            if byte_in 194 223 b0 then byte_in 128 191 b1 && utf8_valid s2
            else
              match s2 with
              | "" => false
              | String b2 s3 =>
                  if byte_in 224 239 b0 then
                    (if byte_in 224 224 b0 then byte_in 160 191 b1
                     else if byte_in 237 237 b0 then byte_in 128 159 b1
                     else byte_in 128 191 b1)
                    && byte_in 128 191 b2 && utf8_valid s3
                  else
                    match s3 with
                    | "" => false
                    | String b3 s4 =>
                        byte_in 240 244 b0
                        && (if byte_in 240 240 b0 then byte_in 144 191 b1
                            else if byte_in 244 244 b0 then byte_in 128 143 b1
                            else byte_in 128 191 b1)
                        && byte_in 128 191 b2 && byte_in 128 191 b3
                        && utf8_valid s4
                    end
              end
        end
  end.

Definition decode_utf8 (b : string) : Result string :=
  if utf8_valid b then Ok b else Raise UnicodeDecodeError.

(** Characters for which [str.isspace()] holds: the ASCII ones are single
    bytes, the others are listed by their UTF-8 encodings (U+0085, U+00A0,
    U+1680, U+2000..U+200A, U+2028, U+2029, U+202F, U+205F, U+3000). *)
Definition is_space_byte (c : ascii) : bool :=
  byte_in 9 13 c || byte_in 28 32 c.

Definition wide_spaces : list string :=
  bytes_of <$>
    [[194; 133]; [194; 160]; [225; 154; 128];
     [226; 128; 128]; [226; 128; 129]; [226; 128; 130]; [226; 128; 131];
     [226; 128; 132]; [226; 128; 133]; [226; 128; 134]; [226; 128; 135];
     [226; 128; 136]; [226; 128; 137]; [226; 128; 138];
     [226; 128; 168]; [226; 128; 169]; [226; 128; 175];
     [226; 129; 159]; [227; 128; 128]]%N.

Fixpoint drop_prefix (p s : string) : option string :=
  match p, s with
  | "", _ => Some s
  | String a p', String b s' => if Ascii.eqb a b then drop_prefix p' s' else None
  | String _ _, "" => None
  end.

Fixpoint drop_first_prefix (ps : list string) (s : string) : option string :=
  match ps with
  | [] => None
  | p :: ps' =>
      match drop_prefix p s with
      | Some r => Some r
      | None => drop_first_prefix ps' s
      end
  end.

(** Removes one leading whitespace character, if there is one. *)
Definition drop_space (wide : list string) (s : string) : option string :=
  match s with
  | "" => None
  | String c s' => if is_space_byte c then Some s' else drop_first_prefix wide s
  end.

Fixpoint lstrip_with (wide : list string) (fuel : nat) (s : string) : string :=
  match fuel with
  | O => s
  | S f =>
      match drop_space wide s with
      | Some s' => lstrip_with wide f s'
      | None => s
      end
  end.

Definition lstrip (s : string) : string :=
  lstrip_with wide_spaces (String.length s) s.

(** Trailing whitespace is leading whitespace of the reversed text, each
    character's bytes being reversed too. *)
Definition rstrip (s : string) : string :=
  let r := String.rev s in
  String.rev (lstrip_with (String.rev <$> wide_spaces) (String.length r) r).

(** [s.strip()] *)
Definition strip (s : string) : string := rstrip (lstrip s).

(** [s.split(sep)] for a one-character separator. *)
Fixpoint split_on (sep : ascii) (s : string) : list string :=
  match s with
  | "" => [""]
  | String c s' =>
      let r := split_on sep s' in
      if Ascii.eqb c sep then "" :: r
      else
        match r with
        | h :: t => String c h :: t
        | [] => [String c ""]
        end
  end.

(** Cuts [s] at its first [sep]. *)
Fixpoint break_at (sep : ascii) (s : string) : option (string * string) :=
  match s with
  | "" => None
  | String c s' =>
      if Ascii.eqb c sep then Some ("", s')
      else
        match break_at sep s' with
        | Some (a, b) => Some (String c a, b)
        | None => None
        end
  end.

(** [s.split(sep, maxsplit)] *)
Fixpoint split_max (sep : ascii) (maxsplit : nat) (s : string) : list string :=
  match maxsplit with
  | O => [s]
  | S m =>
      match break_at sep s with
      | Some (a, rest) => a :: split_max sep m rest
      | None => [s]
      end
  end.

Definition LF : ascii := ascii_of_N 10.
Definition CR : ascii := ascii_of_N 13.

(** [bytes.splitlines()]: lines end at LF, CR or CR LF; the terminators
    are dropped and a final unterminated line is kept when non-empty.
    [cur] holds the current line, last byte first. *)
Fixpoint splitlines_from (cur : string) (s : string) : list string :=
  match s with
  | "" => match cur with "" => [] | _ => [String.rev cur] end
  | String c s' =>
      if Ascii.eqb c LF then String.rev cur :: splitlines_from "" s'
      else if Ascii.eqb c CR then
        String.rev cur ::
          match s' with
          | String c' s'' =>
              if Ascii.eqb c' LF then splitlines_from "" s'' else splitlines_from "" s'
          | "" => splitlines_from "" s'
          end
      else splitlines_from (String c cur) s'
  end.

Definition splitlines (s : string) : list string := splitlines_from "" s.

(** [sep.join(l)] *)
Fixpoint join (sep : string) (l : list string) : string :=
  match l with
  | [] => ""
  | [x] => x
  | x :: l' => x +:+ sep +:+ join sep l'
  end.

(** [s.replace(a, b)] for single characters. *)
Fixpoint replace_char (a b : ascii) (s : string) : string :=
  match s with
  | "" => ""
  | String c s' => String (if Ascii.eqb c a then b else c) (replace_char a b s')
  end.

(** The characters of a string, each as a one-character string. *)
Fixpoint chars (s : string) : list string :=
  match s with
  | "" => []
  | String c s' => String c "" :: chars s'
  end.

(** ** [int(...)] and [str(...)] *)

Definition is_digit (c : ascii) : bool := byte_in 48 57 c.

(** Digits with single underscores between them (the literal syntax
    [int] accepts); [prev] tells whether the previous character was a
    digit. *)
Fixpoint digits_value (s : string) (acc : N) (prev : bool) : option N :=
  match s with
  | "" => if prev then Some acc else None
  | String c s' =>
      if is_digit c then digits_value s' (10 * acc + (N_of_ascii c - 48))%N true
      else if Ascii.eqb c "_" then
        if prev then digits_value s' acc false else None
      else None
  end.

(** The code points of a text held in UTF-8.  (Where the bytes are not
    well formed, which happens in no [str], a byte that starts no
    character stands for itself.) *)
Definition low6 (c : ascii) : N := N.land (N_of_ascii c) 63.

Fixpoint code_points (s : string) : list N :=
  match s with
  | "" => []
  | String b0 s1 =>
      let n0 := N_of_ascii b0 in
      match s1 with
      | String b1 s2 =>
          if byte_in 192 223 b0 then ((n0 - 192) * 64 + low6 b1)%N :: code_points s2
          else
            match s2 with
            | String b2 s3 =>
                if byte_in 224 239 b0 then
                  ((n0 - 224) * 4096 + low6 b1 * 64 + low6 b2)%N :: code_points s3
                else
                  match s3 with
                  | String b3 s4 =>
                      if byte_in 240 247 b0 then
                        ((n0 - 240) * 262144 + low6 b1 * 4096 + low6 b2 * 64 + low6 b3)%N
                          :: code_points s4
                      else n0 :: code_points s1
                  | "" => n0 :: code_points s1
                  end
            | "" => n0 :: code_points s1
            end
      | "" => [n0]
      end
  end.

(** The whitespace characters beyond ASCII (those of [wide_spaces]). *)
Definition wide_space_points : list N :=
  [133; 160; 5760; 8192; 8193; 8194; 8195; 8196; 8197; 8198; 8199; 8200; 8201; 8202;
   8232; 8233; 8239; 8287; 12288]%N.

(** The characters with a decimal digit value come in runs of ten, zero
    to nine: these are the zeros (Unicode 14, U+0030 up to U+1FBF0). *)
Definition decimal_zeros : list N :=
  [48; 1632; 1776; 1984; 2406; 2534; 2662; 2790; 2918; 3046; 3174; 3302; 3430; 3558;
   3664; 3792; 3872; 4160; 4240; 6112; 6160; 6470; 6608; 6784; 6800; 6992; 7088; 7232;
   7248; 42528; 43216; 43264; 43472; 43504; 43600; 44016; 65296; 66720; 68912; 69734;
   69872; 69942; 70096; 70384; 70736; 70864; 71248; 71360; 71472; 71904; 72016; 72784;
   73040; 73120; 92768; 92864; 93008; 120782; 120792; 120802; 120812; 120822; 123200;
   123632; 125264; 130032]%N.

Definition decimal_value (cp : N) : option N :=
  match List.find (λ z, (z <=? cp) && (cp <=? z + 9))%N decimal_zeros with
  | Some z => Some (cp - z)%N
  | None => None
  end.

(** What [int] makes of a character before it reads the number: an ASCII
    character is kept, any other whitespace becomes a space, any other
    decimal digit the ASCII digit of its value, and anything else a
    question mark (at which the reading fails). *)
Definition int_char (cp : N) : ascii :=
  if (cp <? 127)%N then ascii_of_N cp
  else if bool_decide (cp ∈ wide_space_points) then " "%char
  else
    match decimal_value cp with
    | Some d => digit_char d
    | None => "?"%char
    end.

Definition int_text (s : string) : string :=
  foldr (λ cp t, String (int_char cp) t) "" (code_points s).

(** The whitespace the number may be surrounded with, once the text is
    ASCII: space, tab, line feed, vertical tab, form feed, carriage
    return. *)
Definition is_c_space (c : ascii) : bool := byte_in 9 13 c || Ascii.eqb c " ".

Fixpoint lstrip_c_spaces (s : string) : string :=
  match s with
  | "" => ""
  | String c s' => if is_c_space c then lstrip_c_spaces s' else s
  end.

Definition strip_c_spaces (s : string) : string :=
  String.rev (lstrip_c_spaces (String.rev (lstrip_c_spaces s))).

Fixpoint count_digits (s : string) : nat :=
  match s with
  | "" => 0
  | String c s' => (if is_digit c then 1 else 0) + count_digits s'
  end.

(** [int(s)] for text: surrounding whitespace is ignored, one sign is
    allowed, the rest is a base-ten literal of no more digits than the
    interpreter converts. *)
Definition int_of_str (s : string) : Result Z :=
  let body := strip_c_spaces (int_text s) in
  let '(neg, ds) :=
    match body with
    | String "-" r => (true, r)
    | String "+" r => (false, r)
    | _ => (false, body)
    end in
  match digits_value ds 0 false with
  | Some n =>
      if too_many_digits (count_digits ds) then Raise ValueError
      else Ok (if neg then - Z.of_N n else Z.of_N n)%Z
  | None => Raise ValueError
  end.

(** [int(x)] for a float: the value cut towards zero; an infinity
    raises OverflowError, a NaN ValueError. *)
Definition int_of_float (x : PyFloat) : Result Z :=
  match x with
  | Finite negative m e =>
      let magnitude := Z.shiftl (Z.of_N m) e in
      Ok (if negative then - magnitude else magnitude)%Z
  | Infinity _ => Raise OverflowError
  | NaN => Raise ValueError
  end.

(** [int(v)] *)
Definition py_int (v : PyVal) : Result Z :=
  match v with
  | PInt n => Ok n
  | PBool b => Ok (if b then 1 else 0)%Z
  | PFloat x _ => int_of_float x
  | PStr s => int_of_str s
  | PNone | PList _ => Raise TypeError
  end.

Definition DQUOTE : ascii := ascii_of_N 34.
Definition SQUOTE : ascii := ascii_of_N 39.
Definition BACKSLASH : ascii := ascii_of_N 92.

Fixpoint contains_char (c : ascii) (s : string) : bool :=
  match s with
  | "" => false
  | String a s' => Ascii.eqb a c || contains_char c s'
  end.

Definition hex_digit (n : N) : ascii :=
  if (n <? 10)%N then ascii_of_N (48 + n) else ascii_of_N (87 + n).

Fixpoint repr_body (quote : ascii) (s : string) : string :=
  match s with
  | "" => ""
  | String c s' =>
      let rest := repr_body quote s' in
      let n := N_of_ascii c in
      if Ascii.eqb c quote || Ascii.eqb c BACKSLASH then String BACKSLASH (String c rest)
      else if (n =? 9)%N then String BACKSLASH (String "t" rest)
      else if (n =? 10)%N then String BACKSLASH (String "n" rest)
      else if (n =? 13)%N then String BACKSLASH (String "r" rest)
      else if (n <? 32)%N || (n =? 127)%N then
        String BACKSLASH (String "x" (String (hex_digit (n / 16)) (String (hex_digit (n mod 16)) rest)))
      else String c rest
  end.

(** [repr(s)] for text; characters beyond ASCII are taken to be
    printable and are kept. *)
Definition repr_str (s : string) : string :=
  let quote :=
    if contains_char SQUOTE s && negb (contains_char DQUOTE s) then DQUOTE else SQUOTE in
  String quote (repr_body quote s +:+ String quote "").

(** [str(v)] *)
Definition py_str (v : PyVal) : Result string :=
  match v with
  | PNone => Ok "None"
  | PBool b => Ok (if b then "True" else "False")
  | PInt n => str_of_int n
  | PFloat _ text => Ok text
  | PStr s => Ok s
  | PList l => Ok ("[" +:+ join ", " (repr_str <$> l) +:+ "]")
  end.

(** ** Configuration files

    [RawConfigParser] after its [read] calls: the options of the
    [DEFAULT] section, which every section inherits, and the options of
    the named sections.  Option names are stored lower-cased, as the
    parser does. *)

Record ConfigParser : Type := {
  cp_defaults : gmap string string;
  cp_sections : gmap string (gmap string string)
}.

Definition has_section (p : ConfigParser) (section : string) : bool :=
  bool_decide (is_Some (cp_sections p !! section)).

Definition has_option (p : ConfigParser) (section name : string) : bool :=
  if String.eqb section "" || String.eqb section "DEFAULT"
  then bool_decide (is_Some (cp_defaults p !! name))
  else
    match cp_sections p !! section with
    | None => false
    | Some opts =>
        bool_decide (is_Some (opts !! name))
        || bool_decide (is_Some (cp_defaults p !! name))
    end.

(** [parser.get(section, name)] for a named section. *)
Definition cp_get (p : ConfigParser) (section name : string) : Result string :=
  match cp_sections p !! section with
  | None => Raise NoSectionError
  | Some opts =>
      match opts !! name with
      | Some v => Ok v
      | None =>
          match cp_defaults p !! name with
          | Some v => Ok v
          | None => Raise NoOptionError
          end
      end
  end.

(** [parser.getint(section, name)] *)
Definition cp_getint (p : ConfigParser) (section name : string) : Result Z :=
  rbind (cp_get p section name) int_of_str.

Inductive OptionType : Type := ListOption | IntOption.

(** The table of recognised options: name in the file, key in the
    result, type. *)
Definition options : list (string * string * OptionType) :=
  [("ignore", "ignore", ListOption);
   ("select", "select", ListOption);
   ("exclude", "ignore_files", ListOption);
   ("max_line_length", "pep8_max_line_length", IntOption)].

(** One round of the loop over [options]. *)
Definition load_option (parser : ConfigParser) (result : gmap string PyVal)
    (entry : string * string * OptionType) : Result (gmap string PyVal) :=
  let '(config, plugin, option_type) := entry in
  let config :=
    if has_option parser "flake8" config then config
    else replace_char "_" "-" config in
  if has_option parser "flake8" config then
    rbind (cp_get parser "flake8" config) (λ raw,
      let option_value := strip raw in
      if negb (String.eqb option_value "") then
        match option_type with
        | ListOption => Ok (<[plugin := PList (split_on "," option_value)]> result)
        | IntOption =>
            rbind (cp_getint parser "flake8" config) (λ n, Ok (<[plugin := PInt n]> result))
        end
      else Ok result)
  else Ok result.

Fixpoint load_options (parser : ConfigParser) (result : gmap string PyVal)
    (entries : list (string * string * OptionType)) : Result (gmap string PyVal) :=
  match entries with
  | [] => Ok result
  | entry :: rest =>
      rbind (load_option parser result entry) (λ result', load_options parser result' rest)
  end.

(** The second half of [load_flake8_config] (from [result = {}] on),
    given the parser as the file search of the first half left it. *)
Definition load_flake8_config (parser : ConfigParser) : Result (gmap string PyVal) :=
  if has_section parser "flake8" then load_options parser ∅ options else Ok ∅.

(** ** Settings *)

(** [settings.get(key, default)] *)
Definition settings_get (settings : gmap string PyVal) (key : string) (dflt : PyVal) : PyVal :=
  default dflt (settings !! key).

(** What iterating over a value yields, for values made of text. *)
Definition iter_strs (v : PyVal) : Result (list string) :=
  match v with
  | PList l => Ok l
  | PStr s => Ok (chars s)
  | PNone | PBool _ | PInt _ | PFloat _ _ => Raise TypeError
  end.

(** ** The wrapped libraries *)

(** A call of pep8's [BaseReport.error] as [Pep8Report.error] sees it:
    the report's [line_offset], the arguments, and the code the base class
    returns (nothing when the error is filtered out). *)
Record Pep8Error : Type := {
  pe_line_offset : Z;
  pe_line_number : Z;
  pe_offset : PyVal;
  pe_text : string;
  pe_code : PyVal
}.

(** A pyflakes message: [col] may be missing. *)
Record FlakeMsg : Type := {
  fm_lineno : Z;
  fm_col : option PyVal;
  fm_text : string
}.

(** A pydocstyle error: both attributes may be missing. *)
Record DocError : Type := {
  de_line : option PyVal;
  de_message : option string
}.

(** An import-order finding: the node's position, the code, the message. *)
Record OrderError : Type := {
  oe_lineno : PyVal;
  oe_col_offset : PyVal;
  oe_code : string;
  oe_message : string
}.

(** An exception caught around [compile]: [SyntaxError] (or a subclass)
    or [TypeError].  [exc_msg] is [args[0]]; [exc_details] is [args[1]]
    when there is one, the tuple [(filename, lineno, offset, text, ...)],
    held as its first two components and the remaining ones. *)
Record PyExc : Type := {
  exc_type_name : string;
  exc_msg : string;
  exc_details : option (PyVal * PyVal * list PyVal)
}.

Record Libs (Tree : Type) : Type := {
  (** [StyleGuide(reporter=Pep8Report, ignore=..., max_line_length=...)
      .input_file(filename=None, lines=lines.splitlines(True))]: the calls
      made to the report, given the [ignore] list, [max_line_length] and
      the source. *)
  pep8_input_file : list string → PyVal → string → list Pep8Error;
  (** [PEP257Checker().check_source(lines, '')] *)
  pydocstyle_check_source : string → list DocError;
  (** [compile(lines, '', 'exec', ast.PyCF_ONLY_AST, True)] *)
  py_compile : string → Tree + PyExc;
  (** [pyflakes_checker.Checker(tree).messages], given the class-wide
      [builtIns]. *)
  pyflakes_messages : gset string → Tree → list FlakeMsg;
  (** [NamingChecker(tree, None).run()], each error cut to three fields. *)
  naming_run : Tree → list Diag;
  (** [check_tree_for_debugger_statements(tree, [])], each warning read
      through its keys [line], [col] and [message]. *)
  debugger_check : Tree → list Diag;
  (** [ImportOrderChecker.check_order] on the linter built by
      [ImportOrderLinter(tree, None, lines, order_style)], given the order
      style and the source. *)
  import_order_check : PyVal → string → Tree → list OrderError;
  (** [McCabeChecker(tree, None).run()], given the class-wide
      [max_complexity], each error cut to three fields. *)
  mccabe_run : Z → Tree → list Diag
}.
Arguments pep8_input_file {Tree} _ _ _ _.
Arguments pydocstyle_check_source {Tree} _ _.
Arguments py_compile {Tree} _ _.
Arguments pyflakes_messages {Tree} _ _ _.
Arguments naming_run {Tree} _ _.
Arguments debugger_check {Tree} _ _.
Arguments import_order_check {Tree} _ _ _ _.
Arguments mccabe_run {Tree} _ _ _.

(** ** Interpreter-wide state *)

(** Library calls, logged as they are made. *)
Inductive Event : Type :=
| EvPep8 (ignore : list string) (max_line_length : PyVal)
| EvPydocstyle
| EvPyflakes (builtins : gset string)
| EvNaming
| EvDebugger
| EvImportOrder (order_style : PyVal)
| EvMccabe (threshold : Z).

(** The class attributes [lint] assigns, and the log. *)
Record Globals : Type := {
  builtIns : gset string;
  max_complexity : Z;
  calls : list Event
}.

Definition M (A : Type) : Type := Globals → Globals * Result A.

Definition ret {A} (a : A) : M A := λ g, (g, Ok a).

Definition bind {A B} (m : M A) (k : A → M B) : M B :=
  λ g, match m g with
       | (g', Ok a) => k a g'
       | (g', Raise e) => (g', Raise e)
       end.

Definition lift {A} (r : Result A) : M A := λ g, (g, r).

Definition log (ev : Event) : M unit :=
  λ g, ({| builtIns := builtIns g; max_complexity := max_complexity g;
           calls := calls g ++ [ev] |}, Ok tt).

Definition get_builtIns : M (gset string) := λ g, (g, Ok (builtIns g)).

Definition set_builtIns (s : gset string) : M unit :=
  λ g, ({| builtIns := s; max_complexity := max_complexity g; calls := calls g |}, Ok tt).

Definition get_max_complexity : M Z := λ g, (g, Ok (max_complexity g)).

Definition set_max_complexity (n : Z) : M unit :=
  λ g, ({| builtIns := builtIns g; max_complexity := n; calls := calls g |}, Ok tt).

Declare Scope lint_scope.
Delimit Scope lint_scope with lint.
Notation "x <- m ;; k" := (bind m (λ x, k))
  (at level 100, m at next level, right associativity) : lint_scope.
Notation "m ;; k" := (bind m (λ _, k))
  (at level 100, right associativity) : lint_scope.
Open Scope lint_scope.

(** ** The reporters and linter classes of the worker *)

(** [Pep8Report]: collects the calls for which the base class returned a
    code, as [(line_offset + line_number, offset, text)]. *)
Definition Pep8Report_errors (reported : list Pep8Error) : list Diag :=
  (λ e, (PInt (pe_line_offset e + pe_line_number e), pe_offset e, pe_text e))
    <$> List.filter (λ e, truthy (pe_code e)) reported.

(** [FlakesReporter.flake]: a missing [col] reads as 0. *)
Definition FlakesReporter_flake (msg : FlakeMsg) : Diag :=
  (PInt (fm_lineno msg), default (PInt 0) (fm_col msg), fm_text msg).

(** [ImportOrderLinter.error] *)
Definition ImportOrderLinter_error (e : OrderError) : Diag :=
  (oe_lineno e, oe_col_offset e, oe_code e +:+ " " +:+ oe_message e).

(** [list.sort(key=...)] with a key that cannot fail. *)
Definition sort_by {A K} (lt : K → K → bool) (key : A → K) (l : list A) : list A :=
  snd <$> sort_keyed lt ((λ a, (key a, a)) <$> l).

(** The diagnostic built in the [except (SyntaxError, TypeError)] branch. *)
Definition syntax_error_diag (exc : PyExc) : Diag :=
  let offset : PyVal * PyVal :=
    match exc_details exc with
    | Some (d0, d1, rest) =>
        match rest with
        | d2 :: _ => (d1, d2)
        | [] => (d0, d1)
        end
    | None => (PInt 1, PInt 0)
    end in
  (offset.1,
   if truthy offset.2 then offset.2 else PInt 0,
   "E901 " +:+ exc_type_name exc +:+ ": " +:+ exc_msg exc).

(** ** [lint]: the in-process runner *)

Section Lint.
Context {Tree : Type} (L : Libs Tree).

(** [int(settings.get('complexity', -1))] under its [try]: of the
    exceptions of the conversion, TypeError and ValueError are caught. *)
Definition complexity_setting (settings : gmap string PyVal) : M Z :=
  match py_int (settings_get settings "complexity" (PInt (-1))) with
  | Ok n => ret n
  | Raise TypeError | Raise ValueError => ret (-1)%Z
  | Raise e => lift (Raise e)
  end.

(** The [else] branch of the [try] around [compile]. *)
Definition lint_tree (lines : string) (settings : gmap string PyVal)
    (tree : Tree) (warnings : list Diag) : M (list Diag) :=
  warnings <-
    (if truthy (settings_get settings "pyflakes" (PBool true)) then
       let builtins := settings_get settings "builtins" PNone in
       (if truthy builtins then
          names <- lift (iter_strs builtins);;
          old <- get_builtIns;;
          set_builtIns (old ∪ list_to_set names)
        else ret tt);;
       current <- get_builtIns;;
       log (EvPyflakes current);;
       let messages := sort_by Z.ltb fm_lineno (pyflakes_messages L current tree) in
       ret (warnings ++ (FlakesReporter_flake <$> messages))
     else ret warnings);;
  warnings <-
    (if truthy (settings_get settings "naming" (PBool true)) then
       log EvNaming;;
       ret (warnings ++ naming_run L tree)
     else ret warnings);;
  warnings <-
    (if truthy (settings_get settings "debugger" (PBool true)) then
       log EvDebugger;;
       ret (warnings ++ debugger_check L tree)
     else ret warnings);;
  warnings <-
    (if truthy (settings_get settings "import_order" (PBool false)) then
       let order_style := settings_get settings "import_order_style" PNone in
       log (EvImportOrder order_style);;
       ret (warnings
              ++ (ImportOrderLinter_error <$> import_order_check L order_style lines tree))
     else ret warnings);;
  complexity <- complexity_setting settings;;
  (if (complexity >? -1)%Z then
     set_max_complexity complexity;;
     threshold <- get_max_complexity;;
     log (EvMccabe threshold);;
     ret (warnings ++ mccabe_run L threshold tree)
   else ret warnings).

(** Everything [lint] does before its [return]: the list [warnings]. *)
Definition collect (lines : string) (settings : gmap string PyVal) : M (list Diag) :=
  let warnings : list Diag := [] in
  warnings <-
    (if truthy (settings_get settings "pep8" (PBool true)) then
       let max_line_length := settings_get settings "pep8_max_line_length" PNone in
       log (EvPep8 ["DIRTY-HACK"] max_line_length);;
       ret (warnings
              ++ Pep8Report_errors
                   (pep8_input_file L ["DIRTY-HACK"] max_line_length lines))
     else ret warnings);;
  warnings <-
    (if truthy (settings_get settings "pydocstyle" (PBool false)) then
       log EvPydocstyle;;
       ret (warnings ++
              ((λ error, (default (PInt 0) (de_line error), PInt 0,
                          default "" (de_message error)))
                 <$> pydocstyle_check_source L lines))
     else ret warnings);;
  match py_compile L lines with
  | inr exc => ret (warnings ++ [syntax_error_diag exc])
  | inl tree => lint_tree lines settings tree warnings
  end.

Definition lint (lines : string) (settings : gmap string PyVal) : M (list Diag) :=
  warnings <- collect lines settings;;
  lift (sort_warnings warnings).
End Lint.

(** ** [lint_external]: the out-of-process runner *)

(** The command line of the child. *)
Definition build_arguments (settings : gmap string PyVal) (interpreter linter : string)
    : Result (list string) :=
  let arguments := [interpreter; linter] in
  rbind
    (if truthy (settings_get settings "pyflakes" (PBool true)) then
       let arguments := arguments ++ ["--pyflakes"] in
       let builtins := settings_get settings "builtins" PNone in
       if truthy builtins then
         rbind (iter_strs builtins) (λ names,
           Ok ((arguments ++ ["--builtins"]) ++ [join "," names]))
       else Ok arguments
     else Ok arguments)
    (λ arguments,
    rbind
      (if truthy (settings_get settings "pep8" (PBool true)) then
         let max_line_length := settings_get settings "pep8_max_line_length" (PInt 79) in
         rbind (py_str max_line_length) (λ text,
           Ok (((arguments ++ ["--pep8"]) ++ ["--pep8-max-line-length"]) ++ [text]))
       else Ok arguments)
    (λ arguments,
      let arguments :=
        if truthy (settings_get settings "pydocstyle" (PBool false))
        then arguments ++ ["--pydocstyle"] else arguments in
      let arguments :=
        if truthy (settings_get settings "naming" (PBool true))
        then arguments ++ ["--naming"] else arguments in
      let arguments :=
        if truthy (settings_get settings "debugger" (PBool true))
        then arguments ++ ["--debugger"] else arguments in
      let arguments :=
        if truthy (settings_get settings "import_order" (PBool false))
        then arguments ++ ["--import-order"] else arguments in
      let import_order_style := settings_get settings "import_order_style" PNone in
      let arguments :=
        match import_order_style with
        | PStr style =>
            if String.eqb style "cryptography" || String.eqb style "google"
            then arguments ++ ["--import-order-style"; style]
            else arguments ++ ["--import-order-style"; "cryptography"]
        | _ => arguments ++ ["--import-order-style"; "cryptography"]
        end in
      let complexity := settings_get settings "complexity" (PInt (-1)) in
      rbind (py_str complexity) (λ text,
        Ok (arguments ++ ["--complexity"; text])))).

(** What one round of the loop over the child's output lines does. *)
Inductive LineOutcome : Type :=
| Warning (d : Diag)
| Printed (text : string).

(** The body of the loop, after the line is decoded and stripped. *)
Definition parse_line (line : string) : LineOutcome :=
  let warning := split_max ":" 2 line in
  match warning with
  | [w0; w1; w2] =>
      match int_of_str w0, int_of_str w1 with
      | Ok a, Ok b => Warning (PInt a, PInt b, w2)
      | _, _ => Printed ("Flake8Lint ERROR: " +:+ line)
      end
  | _ => Printed ("Flake8Lint ERROR: " +:+ line)
  end.

(** The loop over [result.splitlines()]: the lines printed so far and
    either the list [warnings] or the exception that ended the loop. *)
Fixpoint parse_output (output : list string) (warnings : list Diag)
    (console : list string) : list string * Result (list Diag) :=
  match output with
  | [] => (console, Ok warnings)
  | line :: rest =>
      match decode_utf8 line with
      | Raise e => (console, Raise e)
      | Ok text =>
          match parse_line (strip text) with
          | Warning d => parse_output rest (warnings ++ [d]) console
          | Printed msg => parse_output rest warnings (console ++ [msg])
          end
      end
  end.

Section External.
(** The child process, as [subprocess.Popen(arguments, ...)] followed by
    [communicate(input=lines.encode('utf-8'))] sees it: command line and
    standard input to the bytes of the combined standard output and
    error.  (The window flags set on Windows play no part.) *)
Context (run_child : list string → string → string).

Definition lint_external (lines : string) (settings : gmap string PyVal)
    (interpreter linter : string) : list string * Result (list Diag) :=
  match build_arguments settings interpreter linter with
  | Raise e => ([], Raise e)
  | Ok arguments =>
      let result := run_child arguments lines in
      parse_output (splitlines result) [] []
  end.
End External.

(** ** Notions used in the statements *)

(** The [k] low-order decimal digits of [n], most significant first,
    pushed in front of [acc]: the zero-padded text of width [k]. *)
Fixpoint fixed_digits (k : nat) (n : N) (acc : string) : string :=
  match k with
  | O => acc
  | S k' => fixed_digits k' (n / 10)%N (String (digit_char (n mod 10)) acc)
  end.

(** Line and column of a diagnostic are natural numbers below 10^9. *)
Definition in_range (d : Diag) : Prop :=
  ∃ l c : Z, diag_line d = PInt l ∧ diag_col d = PInt c
             ∧ (0 ≤ l < 10 ^ 9)%Z ∧ (0 ≤ c < 10 ^ 9)%Z.

(** Order by line, then by column. *)
Definition diag_le (d1 d2 : Diag) : Prop :=
  ∃ l1 c1 l2 c2 : Z,
    diag_line d1 = PInt l1 ∧ diag_col d1 = PInt c1
    ∧ diag_line d2 = PInt l2 ∧ diag_col d2 = PInt c2
    ∧ ((l1 < l2)%Z ∨ (l1 = l2 ∧ (c1 ≤ c2)%Z)).

(** The key [sort_key] computes on a diagnostic in range: nine digits
    for the line, nine for the column. *)
Definition padded_key (d : Diag) : string :=
  match diag_line d, diag_col d with
  | PInt l, PInt c => fixed_digits 9 (Z.to_N l) "" +:+ fixed_digits 9 (Z.to_N c) ""
  | _, _ => ""
  end.

(** Order of keyed items that a sort with [lt] establishes. *)
Definition key_le {A K : Type} (lt : K → K → bool) (x y : K * A) : Prop :=
  lt (fst y) (fst x) = false.

(** [l] when [c] holds, nothing otherwise. *)
Definition flag {A : Type} (c : bool) (l : list A) : list A := if c then l else [].

(** The state after the calls [evs] are logged. *)
Definition add_calls (g : Globals) (evs : list Event) : Globals :=
  {| builtIns := builtIns g; max_complexity := max_complexity g;
     calls := calls g ++ evs |}.

(** Whether the setting [key], which defaults to [dflt], enables its
    checker. *)
Definition enabled (settings : gmap string PyVal) (key : string) (dflt : bool) : bool :=
  truthy (settings_get settings key (PBool dflt)).

(** The extra built-in names a run of the bug finder installs: those of a
    true [builtins] setting when the bug finder is enabled. *)
Definition extra_builtins (settings : gmap string PyVal) : Result (list string) :=
  if enabled settings "pyflakes" true && truthy (settings_get settings "builtins" PNone)
  then iter_strs (settings_get settings "builtins" PNone)
  else Ok [].

(** The [builtins] setting, when true, can be iterated over and yields
    text (the settings of the data model: a list of names). *)
Definition builtins_ok (settings : gmap string PyVal) : Prop :=
  ∃ names, extra_builtins settings = Ok names.

(** What the conversion of the [complexity] setting comes to: the
    integer, -1 for the two exceptions [lint] catches, or the exception
    it lets through. *)
Definition complexity_threshold (settings : gmap string PyVal) : Result Z :=
  match py_int (settings_get settings "complexity" (PInt (-1))) with
  | Ok n => Ok n
  | Raise TypeError | Raise ValueError => Ok (-1)%Z
  | Raise e => Raise e
  end.

(** The settings that [lint_external] writes on the command line with
    [str] can be written: none is an integer of too many digits. *)
Definition texts_ok (settings : gmap string PyVal) : Prop :=
  (enabled settings "pep8" true = true →
   ∃ text, py_str (settings_get settings "pep8_max_line_length" (PInt 79)) = Ok text)
  ∧ ∃ text, py_str (settings_get settings "complexity" (PInt (-1))) = Ok text.

(** The complexity threshold [lint] works with (-1, as for a check that
    is not run, when the conversion raises). *)
Definition complexity_value (settings : gmap string PyVal) : Z :=
  match py_int (settings_get settings "complexity" (PInt (-1))) with
  | Ok n => n
  | Raise _ => -1
  end.

(** The calls [lint] makes before it compiles the source. *)
Definition text_calls (settings : gmap string PyVal) : list Event :=
  flag (enabled settings "pep8" true)
       [EvPep8 ["DIRTY-HACK"] (settings_get settings "pep8_max_line_length" PNone)]
  ++ flag (enabled settings "pydocstyle" false) [EvPydocstyle].

(** The calls [lint] makes on a syntax tree, the bug finder seeing the
    built-in names [b]. *)
Definition tree_calls (settings : gmap string PyVal) (b : gset string) : list Event :=
  flag (enabled settings "pyflakes" true) [EvPyflakes b]
  ++ flag (enabled settings "naming" true) [EvNaming]
  ++ flag (enabled settings "debugger" true) [EvDebugger]
  ++ flag (enabled settings "import_order" false)
          [EvImportOrder (settings_get settings "import_order_style" PNone)]
  ++ flag (complexity_value settings >? -1)%Z [EvMccabe (complexity_value settings)].

(** The diagnostics of the checkers that read the text. *)
Definition text_warnings {Tree : Type} (L : Libs Tree) (lines : string)
    (settings : gmap string PyVal) : list Diag :=
  flag (enabled settings "pep8" true)
       (Pep8Report_errors
          (pep8_input_file L ["DIRTY-HACK"]
             (settings_get settings "pep8_max_line_length" PNone) lines))
  ++ flag (enabled settings "pydocstyle" false)
          ((λ error, (default (PInt 0) (de_line error), PInt 0,
                      default "" (de_message error)))
             <$> pydocstyle_check_source L lines).

(** The diagnostics of the checkers that read the tree. *)
Definition tree_warnings {Tree : Type} (L : Libs Tree) (lines : string)
    (settings : gmap string PyVal) (b : gset string) (tree : Tree) : list Diag :=
  flag (enabled settings "pyflakes" true)
       (FlakesReporter_flake <$> sort_by Z.ltb fm_lineno (pyflakes_messages L b tree))
  ++ flag (enabled settings "naming" true) (naming_run L tree)
  ++ flag (enabled settings "debugger" true) (debugger_check L tree)
  ++ flag (enabled settings "import_order" false)
          (ImportOrderLinter_error
             <$> import_order_check L (settings_get settings "import_order_style" PNone)
                   lines tree)
  ++ flag (complexity_value settings >? -1)%Z
          (mccabe_run L (complexity_value settings) tree).


(** The calls made since the state [g], in the later state [g']. *)
Definition new_calls (g g' : Globals) : list Event :=
  drop (length (calls g)) (calls g').

(** A sequence of [lint] calls in one interpreter: each starts in the
    state the previous one left, whether it returned or raised. *)
Definition run_lints {Tree : Type} (L : Libs Tree)
    (jobs : list (string * gmap string PyVal)) (g : Globals) : Globals :=
  foldl (λ g job, (lint L job.1 job.2 g).1) g jobs.

(** The built-in names of the bug finder after a call of [lint]: they
    grow when the source compiles and the extra names can be read. *)
Definition builtIns_after {Tree : Type} (L : Libs Tree) (lines : string)
    (settings : gmap string PyVal) (g : Globals) : gset string :=
  match py_compile L lines, extra_builtins settings with
  | inl _, Ok names => builtIns g ∪ list_to_set names
  | _, _ => builtIns g
  end.

(** The library calls of one call of [lint]. *)
Definition lint_calls {Tree : Type} (L : Libs Tree) (lines : string)
    (settings : gmap string PyVal) (g : Globals) : list Event :=
  text_calls settings
  ++ match py_compile L lines, extra_builtins settings with
     | inl _, Ok _ => tree_calls settings (builtIns_after L lines settings g)
     | _, _ => []
     end.

(** What a decoded, stripped line contributes to the returned list. *)
Definition line_warning (text : string) : option Diag :=
  match parse_line text with
  | Warning d => Some d
  | Printed _ => None
  end.

(** Number of occurrences of a character. *)
Fixpoint count_char (c : ascii) (s : string) : nat :=
  match s with
  | "" => 0
  | String a s' => (if Ascii.eqb a c then 1 else 0) + count_char c s'
  end.

(** A child that prints two diagnostics, the later line first. *)
Definition demo_child : list string → string → string :=
  λ _ _, "2:0:W291 trailing whitespace" +:+ String LF "1:4:E225 missing whitespace".

(** The value the parser holds for an option of the [flake8] section:
    the section's own, else the one inherited from [DEFAULT]. *)
Definition option_value (p : ConfigParser) (name : string) : option string :=
  match cp_sections p !! "flake8" with
  | None => None
  | Some opts =>
      match opts !! name with
      | Some v => Some v
      | None => cp_defaults p !! name
      end
  end.

(** A value, unless it is blank. *)
Definition nonblank (raw : string) : option string :=
  if String.eqb (strip raw) "" then None else Some raw.

(** What a list-valued option contributes to the result. *)
Definition list_setting (p : ConfigParser) (name : string) : option PyVal :=
  raw ← option_value p name;
  raw ← nonblank raw;
  Some (PList (split_on "," (strip raw))).

(** The text converted for the line length: the value of
    [max_line_length] when the parser holds one, else the value of
    [max-line-length]; nothing when that value is blank. *)
Definition max_line_length_raw (p : ConfigParser) : option string :=
  match option_value p "max_line_length" with
  | Some raw => nonblank raw
  | None => option_value p "max-line-length" ≫= nonblank
  end.

(** The list-valued keys of a result are as the parser's options say, and
    there is no key beyond the four known ones. *)
Definition config_lists (p : ConfigParser) (result : gmap string PyVal) : Prop :=
  result !! "ignore" = list_setting p "ignore"
  ∧ result !! "select" = list_setting p "select"
  ∧ result !! "ignore_files" = list_setting p "exclude"
  ∧ ∀ k : string,
      k ≠ "ignore" → k ≠ "select" → k ≠ "ignore_files" → k ≠ "pep8_max_line_length" →
      result !! k = None.

(** The parser after reading a file made of the lines [[flake8]] and
    [ignore = E501,E302]. *)
Definition demo_parser : ConfigParser :=
  {| cp_defaults := ∅;
     cp_sections := {[ "flake8" := {[ "ignore" := "E501,E302" ]} ]} |}.

(** The parser after reading a file made of the lines [[flake8]] and
    [ignore =]. *)
Definition blank_parser : ConfigParser :=
  {| cp_defaults := ∅;
     cp_sections := {[ "flake8" := {[ "ignore" := "" ]} ]} |}.

(** The parser after reading a file made of the lines [[DEFAULT]],
    [ignore = E501] and [[flake8]]: the section has no option of its
    own. *)
Definition inherited_parser : ConfigParser :=
  {| cp_defaults := {[ "ignore" := "E501" ]};
     cp_sections := {[ "flake8" := ∅ ]} |}.

(** The parser after reading a file made of the lines [[flake8]] and
    [max_line_length = abc]. *)
Definition wordy_parser : ConfigParser :=
  {| cp_defaults := ∅;
     cp_sections := {[ "flake8" := {[ "max_line_length" := "abc" ]} ]} |}.

(** ** A small instance of the libraries

    Enough to run the worker on concrete inputs: the compiler rejects the
    source ["("] and accepts every other one, taking the source itself as
    its tree; the bug finder reports the tree as an undefined name unless
    it is a built-in; the complexity checker reports when the threshold is
    below 2. *)

Definition demo_libs : Libs string := {|
  pep8_input_file := λ _ _ _,
    [ {| pe_line_offset := 0; pe_line_number := 2; pe_offset := PInt 79;
         pe_text := "E501 line too long (80 > 79 characters)"; pe_code := PStr "E501" |};
      {| pe_line_offset := 0; pe_line_number := 1; pe_offset := PInt 0;
         pe_text := "W191 indentation contains tabs"; pe_code := PNone |} ];
  pydocstyle_check_source := λ _,
    [ {| de_line := Some (PInt 1); de_message := Some "D100: Missing docstring in public module" |} ];
  py_compile := λ lines,
    if String.eqb lines "("
    then inr {| exc_type_name := "SyntaxError";
                exc_msg := "unexpected EOF while parsing";
                exc_details := Some (PStr "", PInt 1, [PInt 1; PStr "("]) |}
    else inl lines;
  pyflakes_messages := λ builtins tree,
    if bool_decide (tree ∈ builtins) then []
    else [ {| fm_lineno := 1; fm_col := None;
              fm_text := "F821 undefined name '" +:+ tree +:+ "'" |} ];
  naming_run := λ _, [];
  debugger_check := λ _, [];
  import_order_check := λ _ _ _, [];
  mccabe_run := λ threshold _,
    if (threshold <? 2)%Z then [(PInt 1, PInt 0, "C901 'f' is too complex (2)")] else []
|}.

(** The state of a fresh interpreter, as far as the instance goes. *)
Definition fresh : Globals :=
  {| builtIns := {["print"]}; max_complexity := -1; calls := [] |}.

(** ** Further notions

    Used to state what the worker does beyond the behaviour singled out
    above. *)

Global Instance Exc_eq_dec : EqDecision Exc.
Proof. solve_decision. Defined.

Global Instance PyFloat_eq_dec : EqDecision PyFloat.
Proof. solve_decision. Defined.

Global Instance PyVal_eq_dec : EqDecision PyVal.
Proof. solve_decision. Defined.

(** The objects the ['d'] format accepts. *)
Definition formattable (v : PyVal) : bool :=
  match v with
  | PInt n => negb (too_many_digits (String.length (str_of_N (Z.abs_N n))))
  | PBool _ => true
  | PNone | PFloat _ _ | PStr _ | PList _ => false
  end.

(** Both positions of a diagnostic can be formatted. *)
Definition well_positioned (d : Diag) : Prop :=
  formattable (diag_line d) = true ∧ formattable (diag_col d) = true.

(** The diagnostic sits at line [l], column [c]. *)
Definition at_position (l c : PyVal) (d : Diag) : Prop :=
  diag_line d = l ∧ diag_col d = c.

(** Every checker is turned off and no complexity threshold is set. *)
Definition all_disabled (settings : gmap string PyVal) : Prop :=
  enabled settings "pep8" true = false
  ∧ enabled settings "pydocstyle" false = false
  ∧ enabled settings "pyflakes" true = false
  ∧ enabled settings "naming" true = false
  ∧ enabled settings "debugger" true = false
  ∧ enabled settings "import_order" false = false
  ∧ ∃ n, complexity_threshold settings = Ok n ∧ (n ≤ -1)%Z.

Global Instance Result_eq_dec {A : Type} `{EqDecision A} : EqDecision (Result A).
Proof. solve_decision. Defined.

Global Instance at_position_dec (l c : PyVal) (d : Diag) : Decision (at_position l c d).
Proof. unfold at_position. apply _. Defined.

(** The calls [lint] can make, in the order it makes them. *)
Definition call_sequence {Tree : Type} (L : Libs Tree) (lines : string)
    (settings : gmap string PyVal) (g : Globals) : list Event :=
  [EvPep8 ["DIRTY-HACK"] (settings_get settings "pep8_max_line_length" PNone);
   EvPydocstyle;
   EvPyflakes (builtIns_after L lines settings g);
   EvNaming;
   EvDebugger;
   EvImportOrder (settings_get settings "import_order_style" PNone);
   EvMccabe (complexity_value settings)].

(** The libraries of [demo_libs], with a debug-statement checker whose
    warning has no [line] and no [col]. *)
Definition lineless_libs : Libs string := {|
  pep8_input_file := pep8_input_file demo_libs;
  pydocstyle_check_source := pydocstyle_check_source demo_libs;
  py_compile := py_compile demo_libs;
  pyflakes_messages := pyflakes_messages demo_libs;
  naming_run := naming_run demo_libs;
  debugger_check := λ _, [(PNone, PNone, "T002 trace found: set_trace used")];
  import_order_check := import_order_check demo_libs;
  mccabe_run := mccabe_run demo_libs
|}.

(** What a decoded, stripped line makes [lint_external] print. *)
Definition line_printed (text : string) : option string :=
  match parse_line text with
  | Warning _ => None
  | Printed msg => Some msg
  end.

(** ** The worker as a program

    The block run under [if __name__ == "__main__"]: the options parsed
    from the command line become the settings, the source is read from
    the standard input, and the diagnostics [lint] returns are printed one
    per line. *)

(** The namespace [parse_args()] returns for the declared options: a
    [store_true] option is a boolean, an option with [type=int] an integer
    (or [None] when it has no default and is not given), any other option
    the text given (or [None]). *)
Record Namespace : Type := {
  ns_pyflakes : bool;
  ns_builtins : option string;
  ns_pep8 : bool;
  ns_pydocstyle : bool;
  ns_naming : bool;
  ns_debugger : bool;
  ns_import_order : bool;
  ns_import_order_style : option string;
  ns_complexity : option Z;
  ns_pep8_max_line_length : Z
}.

(** The namespace argparse builds when no option is given. *)
Definition no_options : Namespace :=
  {| ns_pyflakes := false; ns_builtins := None; ns_pep8 := false;
     ns_pydocstyle := false; ns_naming := false; ns_debugger := false;
     ns_import_order := false; ns_import_order_style := None;
     ns_complexity := None; ns_pep8_max_line_length := 79 |}.

(** [parse_args().__dict__]: every destination is a key. *)
Definition namespace_dict (ns : Namespace) : gmap string PyVal :=
  list_to_map
    [("pyflakes", PBool (ns_pyflakes ns));
     ("builtins", from_option PStr PNone (ns_builtins ns));
     ("pep8", PBool (ns_pep8 ns));
     ("pydocstyle", PBool (ns_pydocstyle ns));
     ("naming", PBool (ns_naming ns));
     ("debugger", PBool (ns_debugger ns));
     ("import_order", PBool (ns_import_order ns));
     ("import_order_style", from_option PStr PNone (ns_import_order_style ns));
     ("complexity", from_option PInt PNone (ns_complexity ns));
     ("pep8_max_line_length", PInt (ns_pep8_max_line_length ns))].

(** The settings after [lint_settings['builtins']] is split at commas
    (the value argparse stored is text or [None]). *)
Definition main_settings (ns : Namespace) : gmap string PyVal :=
  let lint_settings := namespace_dict ns in
  let builtins := settings_get lint_settings "builtins" PNone in
  if truthy builtins then
    match builtins with
    | PStr s => <["builtins" := PList (split_on "," s)]> lint_settings
    | _ => lint_settings
    end
  else lint_settings.

(** ['%d' % v]: a float is cut to an integer first. *)
Definition percent_d (v : PyVal) : Result string :=
  match v with
  | PInt n => str_of_int n
  | PBool b => Ok (if b then "1" else "0")
  | PFloat x _ => rbind (int_of_float x) str_of_int
  | PNone | PStr _ | PList _ => Raise TypeError
  end.

(** [repr(v)] *)
Definition py_repr (v : PyVal) : Result string :=
  match v with
  | PStr s => Ok (repr_str s)
  | _ => py_str v
  end.

(** ["%d:%d:%s" % lint_warning] *)
Definition percent_format (lint_warning : Diag) : Result string :=
  rbind (percent_d (diag_line lint_warning)) (λ l,
  rbind (percent_d (diag_col lint_warning)) (λ c,
    Ok (l +:+ ":" +:+ c +:+ ":" +:+ diag_msg lint_warning))).

(** [str(lint_warning)]: the tuple as [print] shows it. *)
Definition tuple_text (lint_warning : Diag) : Result string :=
  rbind (py_repr (diag_line lint_warning)) (λ l,
  rbind (py_repr (diag_col lint_warning)) (λ c,
    Ok ("(" +:+ l +:+ ", " +:+ c +:+ ", " +:+ repr_str (diag_msg lint_warning) +:+ ")"))).

Section Program.
(** [sys.stdout.write(text)]: the bytes the stream takes for the text,
    or the exception raised (UnicodeEncodeError when the encoding of the
    stream cannot express a character). *)
Context (stdout_write : string → Result string).

(** [print(text)]: the text is written, then a line feed; [written]
    holds the bytes written so far. *)
Definition print (text : string) (written : string) : string * Result unit :=
  match stdout_write text with
  | Raise e => (written, Raise e)
  | Ok bytes =>
      match stdout_write (String LF "") with
      | Raise e => (written +:+ bytes, Raise e)
      | Ok newline => (written +:+ bytes +:+ newline, Ok tt)
      end
  end.

(** [print(lint_warning)] *)
Definition print_tuple (lint_warning : Diag) (written : string) : string * Result unit :=
  match tuple_text lint_warning with
  | Ok text => print text written
  | Raise e => (written, Raise e)
  end.

(** The body of the loop: [print("%d:%d:%s" % lint_warning)] and, when
    the formatting or the printing raises, [print(lint_warning)]. *)
Definition print_warning (lint_warning : Diag) (written : string)
    : string * Result unit :=
  match percent_format lint_warning with
  | Raise _ => print_tuple lint_warning written
  | Ok text =>
      match print text written with
      | (written', Ok _) => (written', Ok tt)
      | (written', Raise _) => print_tuple lint_warning written'
      end
  end.

(** The loop over the diagnostics: it ends with the first exception
    that [print(lint_warning)] raises.  ([sys.stdout.flush()] moves the
    bytes on and is taken to succeed.) *)
Fixpoint print_warnings (lint_warnings : list Diag) (written : string)
    : string * Result unit :=
  match lint_warnings with
  | [] => (written, Ok tt)
  | lint_warning :: rest =>
      match print_warning lint_warning written with
      | (written', Ok _) => print_warnings rest written'
      | (written', Raise e) => (written', Raise e)
      end
  end.

(** The program: the state of the interpreter, the bytes written to the
    standard output, and how the program ends. *)
Definition main {Tree : Type} (L : Libs Tree) (ns : Namespace) (stdin_lines : string)
    (g : Globals) : Globals * (string * Result unit) :=
  match lint L stdin_lines (main_settings ns) g with
  | (g', Ok lint_warnings) => (g', print_warnings lint_warnings "")
  | (g', Raise e) => (g', ("", Raise e))
  end.
End Program.

(** A standard output in UTF-8 that writes [eol] for a line feed: the
    text being held in UTF-8, the bytes are the text but for the line
    ends. *)
Fixpoint utf8_stream (eol : string) (text : string) : string :=
  match text with
  | "" => ""
  | String c text' =>
      if Ascii.eqb c LF then eol +:+ utf8_stream eol text'
      else String c (utf8_stream eol text')
  end.

(** The lines [printed], each followed by the line terminator [eol]. *)
Fixpoint stdout_bytes (eol : string) (printed : list string) : string :=
  match printed with
  | [] => ""
  | line :: rest => line +:+ eol +:+ stdout_bytes eol rest
  end.

(** The integer a position stands for when it is formatted. *)
Definition int_value (v : PyVal) : option Z :=
  match v with
  | PInt n => Some n
  | PBool b => Some (if b then 1 else 0)%Z
  | PNone | PFloat _ _ | PStr _ | PList _ => None
  end.

Fixpoint last_byte (s : string) : option ascii :=
  match s with
  | "" => None
  | String c s' =>
      match last_byte s' with
      | Some c' => Some c'
      | None => Some c
      end
  end.

(** A diagnostic that survives the trip from the child to the parent as
    it is: integer positions (that can be formatted), and a message in
    UTF-8 that holds no line break and does not end with whitespace. *)
Definition wire_safe (d : Diag) : Prop :=
  ∃ l c : Z,
    diag_line d = PInt l ∧ diag_col d = PInt c
    ∧ well_positioned d
    ∧ utf8_valid (diag_msg d) = true
    ∧ contains_char LF (diag_msg d) = false
    ∧ contains_char CR (diag_msg d) = false
    ∧ rstrip (diag_msg d) = diag_msg d.

(** Every byte of the text satisfies [P]. *)
Fixpoint all_bytes (P : ascii → bool) (s : string) : bool :=
  match s with
  | "" => true
  | String c s' => P c && all_bytes P s'
  end.

(** The text starts with a byte of the upper half. *)
Definition high_start (p : string) : Prop :=
  match p with
  | "" => False
  | String a _ => byte_in 128 255 a = true
  end.

(** The line printed for a diagnostic with integer positions. *)
Definition wire_line (l c : Z) (msg : string) : string :=
  str_of_Z l +:+ ":" +:+ str_of_Z c +:+ ":" +:+ msg.

Definition wire_text (d : Diag) : string :=
  match int_value (diag_line d), int_value (diag_col d) with
  | Some l, Some c => wire_line l c (diag_msg d)
  | _, _ => ""
  end.

(** A standard output in UTF-8 whose line ends are [eol]. *)
Definition utf8_stdout (eol : string) (text : string) : Result string :=
  Ok (utf8_stream eol text).

(** ** Finding the configuration files

    The first half of [load_flake8_config].  Paths follow [posixpath]. *)

(** Cuts a path after its last slash, if it has one. *)
Fixpoint split_last_slash (p : string) : option (string * string) :=
  match p with
  | "" => None
  | String c p' =>
      match split_last_slash p' with
      | Some (head, tail) => Some (String c head, tail)
      | None => if Ascii.eqb c "/" then Some (String c "", p') else None
      end
  end.

(** [s.rstrip('/')] *)
Fixpoint rstrip_slashes (s : string) : string :=
  match s with
  | "" => ""
  | String c s' =>
      let r := rstrip_slashes s' in
      if String.eqb r "" && Ascii.eqb c "/" then "" else String c r
  end.

(** [os.path.split(p)]: the head loses its trailing slashes unless it
    consists of slashes only. *)
Definition path_split (p : string) : string * string :=
  match split_last_slash p with
  | None => ("", p)
  | Some (head, tail) =>
      (if String.eqb (rstrip_slashes head) "" then head else rstrip_slashes head, tail)
  end.

(** [os.path.join(a, b)] *)
Definition path_join (a b : string) : string :=
  match b with
  | String "/" _ => b
  | _ =>
      if String.eqb a "" then a +:+ b
      else
        match last_byte a with
        | Some "/"%char => a +:+ b
        | _ => a +:+ "/" +:+ b
        end
  end.

Definition CONFIG_FILES : list string := ["setup.cfg"; "tox.ini"; ".pep8"].

(** What opening and parsing a file gives: the file cannot be opened (the
    parser skips it), it is not a well-formed configuration (the parser
    raises), or it holds sections and options. *)
Inductive FileState : Type :=
| Missing
| Broken
| Holds (content : ConfigParser).

(** The surroundings of the loader: [os.path.abspath], [os.path.isfile],
    the files, and the constant [DEFAULT_CONFIG_FILE] computed when the
    module is loaded. *)
Record ConfigEnv : Type := {
  env_abspath : string → string;
  env_isfile : string → bool;
  env_file : string → FileState;
  DEFAULT_CONFIG_FILE : string
}.

(** What reading a file does to the parser: the options of the file
    replace the options of the same name, section by section. *)
Definition merge_config (parser file : ConfigParser) : ConfigParser :=
  {| cp_defaults := cp_defaults file ∪ cp_defaults parser;
     cp_sections :=
       union_with (λ new old, Some (new ∪ old)) (cp_sections file) (cp_sections parser) |}.

(** [parser.read(filenames)]: the parser afterwards and the names of the
    files read, or nothing when a file makes the parser raise. *)
Fixpoint read_files (env : ConfigEnv) (parser : ConfigParser) (filenames : list string)
    : option (ConfigParser * list string) :=
  match filenames with
  | [] => Some (parser, [])
  | filename :: rest =>
      match env_file env filename with
      | Missing => read_files env parser rest
      | Broken => None
      | Holds content =>
          match read_files env (merge_config parser content) rest with
          | Some (parser', read_ok) => Some (parser', filename :: read_ok)
          | None => None
          end
      end
  end.

Inductive Searched : Type :=
| OutOfFuel
| ReadError
| Found (parser : ConfigParser).

(** The loop [while tail: ...] that walks from the file up to the root
    and stops at the first directory where a configuration file is
    read. *)
Fixpoint search_config (env : ConfigEnv) (fuel : nat) (parser : ConfigParser)
    (parent tail : string) : Searched :=
  match fuel with
  | O => OutOfFuel
  | S fuel' =>
      if String.eqb tail "" then Found parser
      else
        match read_files env parser (path_join parent <$> CONFIG_FILES) with
        | None => ReadError
        | Some (parser', read_ok) =>
            match read_ok with
            | _ :: _ => Found parser'
            | [] =>
                let '(parent', tail') := path_split parent in
                search_config env fuel' parser' parent' tail'
            end
        end
  end.

Inductive ConfigOutcome : Type :=
| ConfigOutOfFuel
| ConfigError
| ConfigResult (result : Result (gmap string PyVal)).

(** [load_flake8_config(filename, global_config, project_config)] in
    full: the search, then the extraction of the options. *)
Definition load_flake8_config_files (env : ConfigEnv) (filename : string)
    (global_config project_config : bool) : ConfigOutcome :=
  let parser := {| cp_defaults := ∅; cp_sections := ∅ |} in
  match
    (if global_config && env_isfile env (DEFAULT_CONFIG_FILE env)
     then read_files env parser [DEFAULT_CONFIG_FILE env]
     else Some (parser, []))
  with
  | None => ConfigError
  | Some (parser, _) =>
      match
        (if project_config then
           let start := env_abspath env filename in
           search_config env (String.length start + 2) parser start start
         else Found parser)
      with
      | OutOfFuel => ConfigOutOfFuel
      | ReadError => ConfigError
      | Found parser => ConfigResult (load_flake8_config parser)
      end
  end.

(** The directory reached and the last component cut off after [k]
    rounds of the loop. *)
Fixpoint climb (k : nat) (start : string) : string * string :=
  match k with
  | O => (start, start)
  | S k' => path_split (climb k' start).1
  end.

(** The value a parser or a file holds for an option in a section of
    its own (inherited defaults aside). *)
Definition section_option (p : ConfigParser) (section name : string) : option string :=
  cp_sections p !! section ≫= λ opts, opts !! name.

(** A file that leaves the option [name] of [section] as it is: whatever
    it holds, it does not set the option. *)
Definition leaves_option (env : ConfigEnv) (section name : string) (filename : string)
    : Prop :=
  ∀ content, env_file env filename = Holds content →
    section_option content section name = None.

(** The parser after the global configuration of [demo_env] is read. *)
Definition demo_global : ConfigParser :=
  merge_config {| cp_defaults := ∅; cp_sections := ∅ |}
    {| cp_defaults := ∅;
       cp_sections := {[ "flake8" := {[ "max-line-length" := "120";
                                        "select" := "E,W" ]} ]} |}.

(** A project with a [tox.ini] next to the sources and another
    configuration two directories up. *)
Definition demo_env : ConfigEnv := {|
  env_abspath := λ p, p;
  env_isfile := λ p, String.eqb p "/home/me/.config/flake8";
  env_file := λ p,
    if String.eqb p "/work/proj/tox.ini" then
      Holds {| cp_defaults := ∅;
               cp_sections := {[ "flake8" := {[ "max-line-length" := "100" ]} ]} |}
    else if String.eqb p "/work/setup.cfg" then
      Holds {| cp_defaults := ∅;
               cp_sections := {[ "flake8" := {[ "ignore" := "E501" ]} ]} |}
    else if String.eqb p "/home/me/.config/flake8" then
      Holds {| cp_defaults := ∅;
               cp_sections := {[ "flake8" := {[ "max-line-length" := "120";
                                                "select" := "E,W" ]} ]} |}
    else Missing;
  DEFAULT_CONFIG_FILE := "/home/me/.config/flake8"
|}.

(** * Properties *)

(** ** Decimal text *)

Lemma N_of_digit_char d : (d < 10)%N → N_of_ascii (digit_char d) = (48 + d)%N.
Proof. intros Hd. unfold digit_char. apply N_ascii_embedding. lia. Qed.

Lemma digit_char_compare x y :
  (x < 10)%N → (y < 10)%N →
  Ascii.compare (digit_char x) (digit_char y) = (x ?= y)%N.
Proof.
  intros Hx Hy. unfold Ascii.compare.
  rewrite !N_of_digit_char by done.
  destruct (N.compare_spec x y) as [->|H|H].
  - apply N.compare_refl.
  - apply N.compare_lt_iff. lia.
  - apply N.compare_gt_iff. lia.
Qed.

Lemma zeros_cons k s : zeros k (String "0" s) = String "0" (zeros k s).
Proof. induction k as [|k IH]; simpl; [done|]. by rewrite IH. Qed.

Lemma length_zeros k s : String.length (zeros k s) = k + String.length s.
Proof. induction k as [|k IH]; simpl; [done|]. by rewrite IH. Qed.

Lemma fixed_digits_zero k acc : fixed_digits k 0 acc = zeros k acc.
Proof.
  revert acc. induction k as [|k IH]; intros acc; simpl; [done|].
  change (0 / 10)%N with 0%N. change (0 mod 10)%N with 0%N.
  rewrite IH. apply zeros_cons.
Qed.

Lemma string_app_assoc (s t u : string) : (s +:+ t) +:+ u = s +:+ (t +:+ u).
Proof.
  induction s as [|c s IH]; [done|].
  change (String c ((s +:+ t) +:+ u) = String c (s +:+ (t +:+ u))).
  by rewrite IH.
Qed.

Lemma fixed_digits_app k n acc : fixed_digits k n acc = fixed_digits k n "" +:+ acc.
Proof.
  revert n acc. induction k as [|k IH]; intros n acc; simpl; [done|].
  rewrite IH, (IH _ (String _ "")).
  by rewrite string_app_assoc.
Qed.

Lemma pow10_succ k : (10 ^ N.of_nat (S k) = 10 * 10 ^ N.of_nat k)%N.
Proof. rewrite Nat2N.inj_succ. apply N.pow_succ_r'. Qed.

Lemma div10_lt k n : (n < 10 ^ N.of_nat (S k))%N → (n / 10 < 10 ^ N.of_nat k)%N.
Proof.
  rewrite pow10_succ. intros H.
  apply N.Div0.div_lt_upper_bound. lia.
Qed.

(** The digits [str] produces are the fixed-width digits without their
    leading zeros. *)
Lemma dec_digits_fixed (k : nat) :
  ∀ (f : nat) (n : N) (acc : string),
    (1 ≤ k)%nat → (1 ≤ f)%nat →
    (n < 10 ^ N.of_nat k)%N → (n < 10 ^ N.of_nat f)%N →
    ∃ j, fixed_digits k n acc = zeros j (dec_digits f n acc)
         ∧ String.length (dec_digits f n acc) + j = k + String.length acc.
Proof.
  induction k as [|k IH]; intros f n acc Hk Hf Hnk Hnf; [lia|].
  destruct f as [|f]; [lia|]. simpl.
  destruct (N.eqb_spec (n / 10) 0%N) as [Hz|Hz].
  - exists k. rewrite Hz, fixed_digits_zero. split; [done|]. simpl. lia.
  - assert (10 ≤ n)%N as Hn10.
    { destruct (N.lt_ge_cases n 10%N) as [Hlt|]; [|done].
      by apply N.div_small in Hlt. }
    assert (1 ≤ k)%nat as Hk1.
    { destruct k; [|lia]. simpl in Hnk. lia. }
    assert (1 ≤ f)%nat as Hf1.
    { destruct f; [|lia]. simpl in Hnf. lia. }
    destruct (IH f (n / 10)%N (String (digit_char (n mod 10)) acc))
      as (j & Hj & Hlen); [done|done|by apply div10_lt|by apply div10_lt|].
    exists j. split; [done|]. rewrite Hlen. simpl. lia.
Qed.

Lemma str_of_N_fuel n : (n < 10 ^ N.of_nat (S (N.to_nat (N.log2 n))))%N.
Proof.
  rewrite Nat2N.inj_succ, N2Nat.id.
  destruct (N.eq_dec n 0%N) as [->|Hn]; [done|].
  assert (n < 2 ^ N.succ (N.log2 n))%N as H by (apply N.log2_spec; lia).
  eapply N.lt_le_trans; [exact H|].
  apply N.pow_le_mono_l. lia.
Qed.

Lemma format_09d_fixed n :
  (0 ≤ n < 10 ^ 9)%Z → format_09d_Z n = fixed_digits 9 (Z.to_N n) "".
Proof.
  intros Hn. unfold format_09d_Z, str_of_N.
  destruct (Z.ltb_spec n 0) as [|_]; [lia|].
  replace (Z.abs_N n) with (Z.to_N n) by lia.
  assert (Z.to_N n < 10 ^ N.of_nat 9)%N as Hm.
  { change (10 ^ N.of_nat 9)%N with 1000000000%N.
    change (10 ^ 9)%Z with 1000000000%Z in Hn. lia. }
  set (m := Z.to_N n) in *. set (f := S (N.to_nat (N.log2 m))).
  destruct (dec_digits_fixed 9 f m "") as (j & Hj & Hlen).
  - lia.
  - unfold f. lia.
  - exact Hm.
  - apply str_of_N_fuel.
  - rewrite Hj. f_equal. change (String.length "") with 0 in Hlen.
    clearbody f m. lia.
Qed.

Lemma str_of_N_short (k : nat) (n : N) :
  (1 ≤ k)%nat → (n < 10 ^ N.of_nat k)%N → (String.length (str_of_N n) ≤ k)%nat.
Proof.
  intros Hk Hn. unfold str_of_N.
  destruct (dec_digits_fixed k (S (N.to_nat (N.log2 n))) n "") as (j & _ & Hlen);
    [done|lia|done|apply str_of_N_fuel|].
  change (String.length "") with 0%nat in Hlen. lia.
Qed.

Lemma too_many_digits_short (d : nat) : (d ≤ 4300)%nat → too_many_digits d = false.
Proof. intros Hd. unfold too_many_digits, int_max_str_digits. apply N.ltb_ge. lia. Qed.

Lemma str_of_int_in_range (n : Z) : (0 ≤ n < 10 ^ 9)%Z → str_of_int n = Ok (str_of_Z n).
Proof.
  intros Hn. unfold str_of_int. rewrite too_many_digits_short; [done|].
  assert (String.length (str_of_N (Z.abs_N n)) ≤ 9)%nat; [|lia].
  apply str_of_N_short; [lia|].
  change (10 ^ N.of_nat 9)%N with 1000000000%N.
  change (10 ^ 9)%Z with 1000000000%Z in Hn. lia.
Qed.

Lemma N_compare_div10 (a b : N) :
  (a ?= b)%N
  = match (a / 10 ?= b / 10)%N with
    | Eq => (a mod 10 ?= b mod 10)%N
    | c => c
    end.
Proof.
  pose proof (N.div_mod a 10%N ltac:(lia)) as Ea.
  pose proof (N.div_mod b 10%N ltac:(lia)) as Eb.
  pose proof (N.mod_lt a 10%N ltac:(lia)) as La.
  pose proof (N.mod_lt b 10%N ltac:(lia)) as Lb.
  set (qa := (a / 10)%N) in *. set (qb := (b / 10)%N) in *.
  set (ra := (a mod 10)%N) in *. set (rb := (b mod 10)%N) in *.
  clearbody qa qb ra rb.
  destruct (N.compare_spec qa qb) as [Hq|Hq|Hq].
  - destruct (N.compare_spec ra rb) as [Hr|Hr|Hr].
    + apply N.compare_eq_iff. lia.
    + apply N.compare_lt_iff. lia.
    + apply N.compare_gt_iff. lia.
  - apply N.compare_lt_iff. lia.
  - apply N.compare_gt_iff. lia.
Qed.

(** Fixed-width decimal text compares as the numbers do. *)
Lemma fixed_digits_compare (k : nat) :
  ∀ (a b : N) (s t : string),
    (a < 10 ^ N.of_nat k)%N → (b < 10 ^ N.of_nat k)%N →
    String.compare (fixed_digits k a s) (fixed_digits k b t)
    = match (a ?= b)%N with Eq => String.compare s t | c => c end.
Proof.
  induction k as [|k IH]; intros a b s t Ha Hb.
  - simpl in *. assert (a = 0%N) as -> by lia. assert (b = 0%N) as -> by lia. done.
  - simpl. rewrite IH by (by apply div10_lt). simpl.
    rewrite digit_char_compare by (apply N.mod_lt; lia).
    rewrite (N_compare_div10 a b).
    by destruct (a / 10 ?= b / 10)%N.
Qed.

(** ** Sorting *)

Section SortedFacts.
Context {A K : Type} (lt : K → K → bool).
Hypothesis lt_asym : ∀ a b, lt a b = true → lt b a = false.

Lemma insert_keyed_perm (x : K * A) l : insert_keyed lt x l ≡ₚ x :: l.
Proof.
  induction l as [|y l IH]; simpl; [done|].
  destruct (lt y.1 x.1); [|done].
  rewrite IH. apply Permutation_swap.
Qed.

Lemma sort_keyed_perm (l : list (K * A)) : sort_keyed lt l ≡ₚ l.
Proof.
  induction l as [|x l IH]; simpl; [done|].
  by rewrite insert_keyed_perm, IH.
Qed.

Lemma insert_keyed_sorted (x : K * A) l :
  Sorted (key_le lt) l → Sorted (key_le lt) (insert_keyed lt x l).
Proof.
  induction 1 as [|y l Hl IH Hhd]; simpl.
  - repeat constructor.
  - destruct (lt y.1 x.1) eqn:Hyx.
    + constructor; [done|].
      destruct Hhd as [|z l' Hyz]; simpl.
      * constructor. unfold key_le. by apply lt_asym.
      * destruct (lt z.1 x.1); constructor; [done|].
        unfold key_le. by apply lt_asym.
    + constructor; [by constructor|]. by constructor.
Qed.

Lemma sort_keyed_sorted (l : list (K * A)) : Sorted (key_le lt) (sort_keyed lt l).
Proof.
  induction l as [|x l IH]; simpl; [constructor|].
  by apply insert_keyed_sorted.
Qed.
End SortedFacts.

Lemma Sorted_fmap_strong {A B} (R : relation A) (R' : relation B) (P : A → Prop)
    (f : A → B) (l : list A) :
  (∀ x y, P x → P y → R x y → R' (f x) (f y)) →
  Forall P l → Sorted R l → Sorted R' (f <$> l).
Proof.
  intros HR HP Hs. induction Hs as [|x l Hl IH Hhd]; simpl; [constructor|].
  apply Forall_cons in HP as [Hx HP].
  constructor; [by apply IH|].
  destruct Hhd as [|y l' Hxy]; simpl; constructor.
  apply Forall_cons in HP as [Hy _]. by apply HR.
Qed.

Lemma ltb_asym (s t : string) : String.ltb s t = true → String.ltb t s = false.
Proof.
  unfold String.ltb. rewrite (String.compare_antisym s t).
  by destruct (String.compare t s).
Qed.

Lemma sort_key_in_range (d : Diag) : in_range d → sort_key d = Ok (padded_key d).
Proof.
  intros (l & c & Hl & Hc & Hlr & Hcr).
  unfold sort_key, padded_key. rewrite Hl, Hc. cbn [format_09d].
  rewrite !str_of_int_in_range by done. cbn [rbind].
  by rewrite !format_09d_fixed.
Qed.

Lemma rmapM_sort_key (l : list Diag) :
  Forall in_range l →
  rmapM (λ a, rbind (sort_key a) (λ k, Ok (k, a))) l
  = Ok ((λ d, (padded_key d, d)) <$> l).
Proof.
  induction 1 as [|d l Hd Hl IH]; simpl; [done|].
  by rewrite sort_key_in_range, IH.
Qed.

Lemma Z_to_N_range (n : Z) : (0 ≤ n < 10 ^ 9)%Z → (Z.to_N n < 10 ^ N.of_nat 9)%N.
Proof.
  intros Hn. change (10 ^ N.of_nat 9)%N with 1000000000%N.
  change (10 ^ 9)%Z with 1000000000%Z in Hn. lia.
Qed.

(** On diagnostics in range, the key order is the order by line, then
    column. *)
Lemma padded_key_le (d1 d2 : Diag) :
  in_range d1 → in_range d2 →
  String.ltb (padded_key d2) (padded_key d1) = false → diag_le d1 d2.
Proof.
  intros (l1 & c1 & Hl1 & Hc1 & Hlr1 & Hcr1) (l2 & c2 & Hl2 & Hc2 & Hlr2 & Hcr2).
  unfold padded_key. rewrite Hl1, Hc1, Hl2, Hc2.
  rewrite <- !fixed_digits_app. unfold String.ltb.
  rewrite !fixed_digits_compare by (by apply Z_to_N_range).
  intros Hlt. exists l1, c1, l2, c2. repeat split; try done.
  destruct (N.compare_spec (Z.to_N l2) (Z.to_N l1)) as [Hq|Hq|Hq]; [|done|left; lia].
  right. split; [lia|].
  destruct (N.compare_spec (Z.to_N c2) (Z.to_N c1)) as [Hr|Hr|Hr]; [lia|done|lia].
Qed.

Global Instance diag_le_trans : Transitive diag_le.
Proof.
  intros d1 d2 d3 (l1 & c1 & l2 & c2 & H1 & H2 & H3 & H4 & H12)
    (l2' & c2' & l3 & c3 & H3' & H4' & H5 & H6 & H23).
  rewrite H3 in H3'. rewrite H4 in H4'.
  injection H3' as <-. injection H4' as <-.
  exists l1, c1, l3, c3. repeat split; try done. lia.
Qed.

(** The [return] statement of [lint] on diagnostics in range. *)
Lemma sort_warnings_spec (warnings : list Diag) :
  Forall in_range warnings →
  ∃ sorted, sort_warnings warnings = Ok sorted
            ∧ sorted ≡ₚ warnings
            ∧ StronglySorted diag_le sorted.
Proof.
  intros Hr. unfold sort_warnings, py_sorted.
  rewrite rmapM_sort_key by done. simpl.
  set (keyed := (λ d, (padded_key d, d)) <$> warnings).
  assert (snd <$> keyed = warnings) as Hsnd.
  { unfold keyed. rewrite <- list_fmap_compose. apply list_fmap_id. }
  eexists. split; [done|]. split.
  - rewrite sort_keyed_perm. by rewrite Hsnd.
  - apply Sorted_StronglySorted; [apply _|].
    eapply (Sorted_fmap_strong (key_le String.ltb) diag_le
              (λ p, p.1 = padded_key p.2 ∧ in_range p.2)).
    + intros [k1 d1] [k2 d2] [Hk1 Hd1] [Hk2 Hd2] Hle. unfold key_le in Hle.
      simpl in Hk1, Hk2, Hd1, Hd2, Hle |- *. rewrite Hk1, Hk2 in Hle.
      by apply padded_key_le.
    + rewrite (sort_keyed_perm String.ltb keyed). unfold keyed.
      rewrite Forall_fmap. eapply Forall_impl; [exact Hr|]. by intros d Hd.
    + apply sort_keyed_sorted, ltb_asym.
Qed.

(** ** The result of [lint] is the collected list, sorted *)

(** C1.  When the diagnostics collected by [lint] all have a line and a
    column that are natural numbers below 10^9, [lint] returns a
    permutation of the collected list (nothing is dropped or merged) that
    is sorted by line and, for equal lines, by column; the key of each
    diagnostic is the nine-digit zero-padded line followed by the
    nine-digit zero-padded column. *)
Theorem lint_sorts_collected {Tree : Type} (L : Libs Tree) (lines : string)
    (settings : gmap string PyVal) (g g' : Globals) (warnings : list Diag) :
  collect L lines settings g = (g', Ok warnings) →
  Forall in_range warnings →
  ∃ sorted,
    lint L lines settings g = (g', Ok sorted)
    ∧ sorted ≡ₚ warnings
    ∧ StronglySorted diag_le sorted
    ∧ Forall (λ d, ∃ l c : Z,
                diag_line d = PInt l ∧ diag_col d = PInt c
                ∧ sort_key d
                  = Ok (fixed_digits 9 (Z.to_N l) "" +:+ fixed_digits 9 (Z.to_N c) ""))
             warnings.
Proof.
  intros Hc Hr.
  destruct (sort_warnings_spec warnings Hr) as (sorted & Hs & Hp & Hsorted).
  exists sorted. repeat split; try done.
  - unfold lint, bind. rewrite Hc. unfold lift. by rewrite Hs.
  - eapply Forall_impl; [exact Hr|]. intros d Hd.
    pose proof (sort_key_in_range d Hd) as Hk.
    destruct Hd as (l & c & Hl & Hcol & _).
    exists l, c. repeat split; try done.
    rewrite Hk. unfold padded_key. by rewrite Hl, Hcol.
Qed.

Lemma lint_sorts_collected_witness :
  ∃ sorted,
    lint demo_libs "spam" ∅ fresh
    = ({| builtIns := {["print"]}; max_complexity := -1;
          calls := [EvPep8 ["DIRTY-HACK"] PNone; EvPyflakes {["print"]}; EvNaming;
                    EvDebugger] |},
       Ok sorted)
    ∧ sorted ≡ₚ [(PInt 2, PInt 79, "E501 line too long (80 > 79 characters)");
                 (PInt 1, PInt 0, "F821 undefined name 'spam'")]
    ∧ StronglySorted diag_le sorted
    ∧ Forall (λ d, ∃ l c : Z,
                diag_line d = PInt l ∧ diag_col d = PInt c
                ∧ sort_key d
                  = Ok (fixed_digits 9 (Z.to_N l) "" +:+ fixed_digits 9 (Z.to_N c) ""))
             [(PInt 2, PInt 79, "E501 line too long (80 > 79 characters)");
              (PInt 1, PInt 0, "F821 undefined name 'spam'")].
Proof.
  apply (lint_sorts_collected demo_libs "spam" ∅ fresh).
  - reflexivity.
  - repeat constructor.
    + exists 2%Z, 79%Z. repeat split; reflexivity || (intros H; discriminate H).
    + exists 1%Z, 0%Z. repeat split; reflexivity || (intros H; discriminate H).
Defined.

(** ** Running the stages of [lint] *)

Lemma add_calls_nil (g : Globals) : add_calls g [] = g.
Proof. destruct g. unfold add_calls. simpl. by rewrite app_nil_r. Qed.

Lemma add_calls_app (g : Globals) (e1 e2 : list Event) :
  add_calls (add_calls g e1) e2 = add_calls g (e1 ++ e2).
Proof. unfold add_calls. simpl. by rewrite app_assoc. Qed.

(** A stage of the form "if enabled, call the checker and extend the
    list". *)
Lemma bind_stage {A B : Type} (c : bool) (ev : Event) (ws x : list A)
    (k : list A → M B) (g : Globals) :
  bind (if c then (log ev;; ret (ws ++ x)) else ret ws) k g
  = k (ws ++ flag c x) (add_calls g (flag c [ev])).
Proof.
  destruct c; unfold bind, log, ret; simpl.
  - done.
  - by rewrite app_nil_r, add_calls_nil.
Qed.

Lemma stage_run {A : Type} (c : bool) (ev : Event) (ws x : list A) (g : Globals) :
  (if c then (log ev;; ret (ws ++ x)) else ret ws) g
  = (add_calls g (flag c [ev]), Ok (ws ++ flag c x)).
Proof.
  destruct c; unfold bind, log, ret; simpl.
  - done.
  - by rewrite app_nil_r, add_calls_nil.
Qed.

Lemma int_of_str_raises (s : string) (e : Exc) : int_of_str s = Raise e → e = ValueError.
Proof.
  unfold int_of_str.
  destruct (match strip_c_spaces (int_text s) with
            | String "-" r => (true, r)
            | String "+" r => (false, r)
            | _ => (false, strip_c_spaces (int_text s))
            end) as [neg ds].
  destruct (digits_value ds 0 false); [|by intros [= <-]].
  destruct (too_many_digits (count_digits ds)); [by intros [= <-]|done].
Qed.

Lemma py_int_raises (v : PyVal) (e : Exc) :
  py_int v = Raise e → e = TypeError ∨ e = ValueError ∨ e = OverflowError.
Proof.
  destruct v as [| | |[| |]| |]; simpl; try (intros [= <-]; tauto); try done.
  intros H. right. left. by eapply int_of_str_raises.
Qed.

Lemma complexity_setting_run (settings : gmap string PyVal) (g : Globals) :
  complexity_setting settings g = (g, complexity_threshold settings).
Proof.
  unfold complexity_setting, complexity_threshold.
  destruct (py_int _) as [n|e] eqn:He; [done|].
  by destruct (py_int_raises _ _ He) as [-> | [-> | ->]].
Qed.

(** The threshold and the value agree as long as the conversion raises
    nothing that [lint] lets through. *)
Lemma complexity_threshold_value (settings : gmap string PyVal) :
  complexity_threshold settings = Ok (complexity_value settings)
  ∨ (complexity_threshold settings = Raise OverflowError
     ∧ py_int (settings_get settings "complexity" (PInt (-1))) = Raise OverflowError
     ∧ complexity_value settings = (-1)%Z).
Proof.
  unfold complexity_threshold, complexity_value.
  destruct (py_int _) as [n|e] eqn:He; [by left|].
  destruct (py_int_raises _ _ He) as [-> | [-> | ->]]; auto.
Qed.

Section LintRuns.
Context {Tree : Type} (L : Libs Tree).

(** The tree stage, when the [builtins] setting can be read. *)
Lemma lint_tree_run (lines : string) (settings : gmap string PyVal) (tree : Tree)
    (ws : list Diag) (g : Globals) (names : list string) :
  extra_builtins settings = Ok names →
  lint_tree L lines settings tree ws g
  = ({| builtIns := builtIns g ∪ list_to_set names;
        max_complexity :=
          if (complexity_value settings >? -1)%Z then complexity_value settings
          else max_complexity g;
        calls := calls g ++ tree_calls settings (builtIns g ∪ list_to_set names) |},
     rbind (complexity_threshold settings) (λ _,
       Ok (ws ++ tree_warnings L lines settings (builtIns g ∪ list_to_set names) tree))).
Proof.
  intros Hnames. unfold lint_tree, tree_calls, tree_warnings.
  unfold extra_builtins in Hnames. unfold enabled in *.
  set (pyflakes := truthy (settings_get settings "pyflakes" (PBool true))) in *.
  set (b := builtIns g ∪ list_to_set names).
  assert (∀ (k : list Diag → M (list Diag)),
    bind (if pyflakes then
            let builtins := settings_get settings "builtins" PNone in
            (if truthy builtins then
               names <- lift (iter_strs builtins);;
               old <- get_builtIns;;
               set_builtIns (old ∪ list_to_set names)
             else ret ());;
            current <- get_builtIns;;
            log (EvPyflakes current);;
            let messages := sort_by Z.ltb fm_lineno (pyflakes_messages L current tree) in
            ret (ws ++ (FlakesReporter_flake <$> messages))
          else ret ws) k g
    = k (ws ++ flag pyflakes
                 (FlakesReporter_flake
                    <$> sort_by Z.ltb fm_lineno (pyflakes_messages L b tree)))
        {| builtIns := b; max_complexity := max_complexity g;
           calls := calls g ++ flag pyflakes [EvPyflakes b] |}) as Hstage.
  { intros k. unfold b. destruct pyflakes; simpl in Hnames |- *.
    - destruct (truthy (settings_get settings "builtins" PNone)).
      + unfold bind, lift, get_builtIns, set_builtIns, log, ret. simpl.
        by rewrite Hnames.
      + injection Hnames as <-. simpl.
        rewrite (right_id_L ∅ (∪) (builtIns g)).
        by unfold bind, lift, get_builtIns, set_builtIns, log, ret.
    - injection Hnames as <-. simpl.
      rewrite (right_id_L ∅ (∪) (builtIns g)). unfold bind, ret. simpl.
      rewrite !app_nil_r. by destruct g. }
  rewrite Hstage. rewrite !bind_stage.
  unfold bind at 1. rewrite complexity_setting_run.
  destruct (complexity_threshold_value settings) as [-> | (-> & _ & ->)]; simpl.
  - destruct (complexity_value settings >? -1)%Z; simpl.
    + unfold bind, set_max_complexity, get_max_complexity, log, ret, add_calls. simpl.
      by rewrite <- !app_assoc.
    + unfold ret, add_calls. simpl. rewrite !app_nil_r.
      by rewrite <- !app_assoc.
  - unfold add_calls. simpl. rewrite !app_nil_r. by rewrite <- !app_assoc.
Qed.

(** The tree stage, when the [builtins] setting cannot be read. *)
Lemma lint_tree_raise (lines : string) (settings : gmap string PyVal) (tree : Tree)
    (ws : list Diag) (g : Globals) (e : Exc) :
  extra_builtins settings = Raise e →
  lint_tree L lines settings tree ws g = (g, Raise e).
Proof.
  unfold extra_builtins, enabled, lint_tree. intros Hraise.
  destruct (truthy (settings_get settings "pyflakes" (PBool true))); [|done].
  simpl in Hraise.
  destruct (truthy (settings_get settings "builtins" PNone)); [|done].
  unfold bind, lift. simpl. by rewrite Hraise.
Qed.

(** The stages before the tree. *)
Lemma collect_run (lines : string) (settings : gmap string PyVal) (g : Globals) :
  collect L lines settings g
  = match py_compile L lines with
    | inr exc =>
        (add_calls g (text_calls settings),
         Ok (text_warnings L lines settings ++ [syntax_error_diag exc]))
    | inl tree =>
        lint_tree L lines settings tree (text_warnings L lines settings)
          (add_calls g (text_calls settings))
    end.
Proof.
  unfold collect, text_calls, text_warnings, enabled.
  rewrite !bind_stage, !add_calls_app. simpl.
  by destruct (py_compile L lines).
Qed.
End LintRuns.

(** ** Syntax errors *)

Lemma lint_state {Tree : Type} (L : Libs Tree) (lines : string)
    (settings : gmap string PyVal) (g : Globals) :
  (lint L lines settings g).1 = (collect L lines settings g).1.
Proof.
  unfold lint, bind. by destruct (collect L lines settings g) as [g' [ws|e]].
Qed.






(** ** Which checkers a call of [lint] runs *)

Section LintCalls.
Context {Tree : Type} (L : Libs Tree).

Lemma collect_state (lines : string) (settings : gmap string PyVal) (g : Globals) :
  calls (collect L lines settings g).1 = calls g ++ lint_calls L lines settings g
  ∧ builtIns (collect L lines settings g).1 = builtIns_after L lines settings g.
Proof.
  rewrite collect_run. unfold lint_calls, builtIns_after.
  destruct (py_compile L lines) as [tree|exc]; simpl.
  - destruct (extra_builtins settings) as [names|e] eqn:Hx.
    + rewrite (lint_tree_run L lines settings tree _ _ names Hx). simpl.
      by rewrite app_assoc.
    + rewrite (lint_tree_raise L lines settings tree _ _ e Hx). simpl.
      by rewrite app_nil_r.
  - by rewrite app_nil_r.
Qed.

Lemma lint_new_calls (lines : string) (settings : gmap string PyVal) (g : Globals) :
  new_calls g (lint L lines settings g).1 = lint_calls L lines settings g.
Proof.
  unfold new_calls. rewrite lint_state.
  destruct (collect_state lines settings g) as [-> _].
  by rewrite drop_app_length.
Qed.

Lemma lint_builtIns (lines : string) (settings : gmap string PyVal) (g : Globals) :
  builtIns (lint L lines settings g).1 = builtIns_after L lines settings g.
Proof. rewrite lint_state. apply collect_state. Qed.

End LintCalls.

Lemma elem_of_flag {A : Type} (c : bool) (l : list A) (x : A) :
  x ∈ flag c l ↔ c = true ∧ x ∈ l.
Proof. destruct c; simpl; [naive_solver|]. split; [by intros ?%elem_of_nil|naive_solver]. Qed.

Lemma elem_of_flag1 {A : Type} (c : bool) (y x : A) :
  x ∈ flag c [y] ↔ c = true ∧ x = y.
Proof. by rewrite elem_of_flag, list_elem_of_singleton. Qed.

(** ** The complexity check *)









(** ** Settings [lint] does not read *)

(** C9.  Two settings mappings that agree on every key other than
    [ignore], [select] and [ignore_files] make [lint] behave the same:
    same result (or exception) and same final state, from any source and
    any initial state; and whenever the style checker is called, its
    ignore list is the fixed [['DIRTY-HACK']]. *)
Theorem lint_ignores_filter_settings {Tree : Type} (L : Libs Tree) (lines : string)
    (s1 s2 : gmap string PyVal) (g : Globals) :
  (∀ k : string, k ≠ "ignore" → k ≠ "select" → k ≠ "ignore_files" → s1 !! k = s2 !! k) →
  lint L lines s1 g = lint L lines s2 g
  ∧ ∀ ig m, EvPep8 ig m ∈ new_calls g (lint L lines s1 g).1 → ig = ["DIRTY-HACK"].
Proof.
  intros H. split.
  - pose proof (H "pep8" ltac:(done) ltac:(done) ltac:(done)) as E1.
    pose proof (H "pep8_max_line_length" ltac:(done) ltac:(done) ltac:(done)) as E2.
    pose proof (H "pydocstyle" ltac:(done) ltac:(done) ltac:(done)) as E3.
    pose proof (H "pyflakes" ltac:(done) ltac:(done) ltac:(done)) as E4.
    pose proof (H "builtins" ltac:(done) ltac:(done) ltac:(done)) as E5.
    pose proof (H "naming" ltac:(done) ltac:(done) ltac:(done)) as E6.
    pose proof (H "debugger" ltac:(done) ltac:(done) ltac:(done)) as E7.
    pose proof (H "import_order" ltac:(done) ltac:(done) ltac:(done)) as E8.
    pose proof (H "import_order_style" ltac:(done) ltac:(done) ltac:(done)) as E9.
    pose proof (H "complexity" ltac:(done) ltac:(done) ltac:(done)) as E10.
    unfold lint, collect, lint_tree, complexity_setting, settings_get.
    by rewrite E1, E2, E3, E4, E5, E6, E7, E8, E9, E10.
  - intros ig m. rewrite lint_new_calls. unfold lint_calls, text_calls, tree_calls.
    destruct (py_compile L lines), (extra_builtins s1);
      rewrite ?elem_of_app, ?elem_of_flag1, ?elem_of_nil; naive_solver.
Qed.

Lemma lint_ignores_filter_settings_witness :
  lint demo_libs "spam" {[ "ignore" := PList ["E501"; "F821"] ]} fresh
  = lint demo_libs "spam" {[ "select" := PList ["W"]; "ignore_files" := PList ["*.pyc"] ]}
      fresh
  ∧ ∀ ig m,
      EvPep8 ig m
        ∈ new_calls fresh (lint demo_libs "spam" {[ "ignore" := PList ["E501"; "F821"] ]}
                             fresh).1
      → ig = ["DIRTY-HACK"].
Proof.
  apply (lint_ignores_filter_settings demo_libs "spam"
           {[ "ignore" := PList ["E501"; "F821"] ]}
           {[ "select" := PList ["W"]; "ignore_files" := PList ["*.pyc"] ]} fresh).
  intros k H1 H2 H3.
  rewrite lookup_singleton_ne by done.
  rewrite lookup_insert_ne by done.
  by rewrite lookup_singleton_ne.
Defined.

(** ** Checkers enabled and disabled by default *)

(** With no setting at all, a source that does not compile is only
    seen by the style checker: the bug finder, the naming checker and
    the debug-statement checker are not called although their keys are
    absent. *)
Lemma default_checkers_counterexample :
  (∅ : gmap string PyVal) !! "pyflakes" = None
  ∧ (∅ : gmap string PyVal) !! "naming" = None
  ∧ (∅ : gmap string PyVal) !! "debugger" = None
  ∧ new_calls fresh (lint demo_libs "(" ∅ fresh).1 = [EvPep8 ["DIRTY-HACK"] PNone]
  ∧ (∀ b, EvPyflakes b ∉ new_calls fresh (lint demo_libs "(" ∅ fresh).1)
  ∧ (EvNaming ∉ new_calls fresh (lint demo_libs "(" ∅ fresh).1)
  ∧ (EvDebugger ∉ new_calls fresh (lint demo_libs "(" ∅ fresh).1).
Proof.
  assert (new_calls fresh (lint demo_libs "(" ∅ fresh).1 = [EvPep8 ["DIRTY-HACK"] PNone])
    as Hcalls by reflexivity.
  rewrite Hcalls. repeat split; try done.
  - intros b Hb. by apply list_elem_of_singleton in Hb.
  - intros Hb. by apply list_elem_of_singleton in Hb.
  - intros Hb. by apply list_elem_of_singleton in Hb.
Qed.

Lemma enabled_absent (settings : gmap string PyVal) (key : string) (dflt : bool) :
  settings !! key = None → enabled settings key dflt = dflt.
Proof. intros H. unfold enabled, settings_get. by rewrite H. Qed.

Lemma enabled_off_by_default (settings : gmap string PyVal) (key : string) :
  enabled settings key false = true →
  ∃ v, settings !! key = Some v ∧ truthy v = true.
Proof.
  unfold enabled, settings_get. destruct (settings !! key) as [v|]; simpl; [|done].
  intros H. by exists v.
Qed.

(** C7, amended.  When the key of a checker is absent from the settings:
    the style checker is called; the bug finder, the naming checker and
    the debug-statement checker are called provided the source compiles
    (and a true [builtins] setting can be read); the docstring checker and
    the import-order checker are called only if their keys are present
    with a true value. *)
Theorem default_checkers {Tree : Type} (L : Libs Tree) (lines : string)
    (settings : gmap string PyVal) (g : Globals) :
  let made := new_calls g (lint L lines settings g).1 in
  (settings !! "pep8" = None → ∃ m, EvPep8 ["DIRTY-HACK"] m ∈ made)
  ∧ (∀ tree, py_compile L lines = inl tree → builtins_ok settings →
       (settings !! "pyflakes" = None → ∃ b, EvPyflakes b ∈ made)
       ∧ (settings !! "naming" = None → EvNaming ∈ made)
       ∧ (settings !! "debugger" = None → EvDebugger ∈ made))
  ∧ (EvPydocstyle ∈ made → ∃ v, settings !! "pydocstyle" = Some v ∧ truthy v = true)
  ∧ (∀ st, EvImportOrder st ∈ made →
       ∃ v, settings !! "import_order" = Some v ∧ truthy v = true).
Proof.
  intros made. unfold made. rewrite lint_new_calls. unfold lint_calls.
  split; [|split; [|split]].
  - intros Habs. eexists. apply elem_of_app. left. unfold text_calls.
    rewrite (enabled_absent _ _ _ Habs). apply elem_of_app. left. apply list_elem_of_here.
  - intros tree Hc [names Hx]. rewrite Hc, Hx. unfold tree_calls.
    split; [|split]; intros Habs; rewrite (enabled_absent _ _ _ Habs);
      [eexists|..]; rewrite !elem_of_app, !elem_of_flag1; naive_solver.
  - intros Hin. apply enabled_off_by_default.
    revert Hin. unfold text_calls, tree_calls.
    destruct (py_compile L lines), (extra_builtins settings);
      rewrite ?elem_of_app, ?elem_of_flag1, ?elem_of_nil; naive_solver.
  - intros st Hin. apply enabled_off_by_default.
    revert Hin. unfold text_calls, tree_calls.
    destruct (py_compile L lines), (extra_builtins settings);
      rewrite ?elem_of_app, ?elem_of_flag1, ?elem_of_nil; naive_solver.
Qed.

Lemma default_checkers_witness :
  (∃ m, EvPep8 ["DIRTY-HACK"] m ∈ new_calls fresh (lint demo_libs "spam" ∅ fresh).1)
  ∧ (∃ b, EvPyflakes b ∈ new_calls fresh (lint demo_libs "spam" ∅ fresh).1)
  ∧ EvNaming ∈ new_calls fresh (lint demo_libs "spam" ∅ fresh).1
  ∧ EvDebugger ∈ new_calls fresh (lint demo_libs "spam" ∅ fresh).1.
Proof.
  pose proof (default_checkers demo_libs "spam" ∅ fresh) as (Hpep8 & Htree & _).
  destruct (Htree "spam" eq_refl (ex_intro _ [] eq_refl)) as (Hflakes & Hnaming & Hdebugger).
  split; [exact (Hpep8 eq_refl)|].
  split; [exact (Hflakes eq_refl)|].
  split; [exact (Hnaming eq_refl)|exact (Hdebugger eq_refl)].
Defined.

(** ** The built-in names of the bug finder *)

(** A call of [lint] with extra built-in names but the bug finder turned
    off leaves the set of built-in names as it was, and the bug finder
    of the next call does not know the name. *)
Lemma builtins_extension_counterexample :
  let settings : gmap string PyVal :=
    {[ "builtins" := PList ["spam"]; "pyflakes" := PBool false ]} in
  let g1 := (lint demo_libs "spam" settings fresh).1 in
  truthy (settings_get settings "builtins" PNone) = true
  ∧ builtIns g1 = builtIns fresh
  ∧ builtIns g1 = {["print"]}
  ∧ new_calls g1 (lint demo_libs "spam" ∅ g1).1
    = [EvPep8 ["DIRTY-HACK"] PNone; EvPyflakes {["print"]}; EvNaming; EvDebugger]
  ∧ ("spam" ∉ ({["print"]} : gset string)).
Proof.
  repeat split; try reflexivity.
  intros H. by apply elem_of_singleton in H.
Qed.

Section BuiltinsPersist.
Context {Tree : Type} (L : Libs Tree).

Lemma builtIns_after_mono (lines : string) (settings : gmap string PyVal) (g : Globals) :
  builtIns g ⊆ builtIns_after L lines settings g.
Proof.
  unfold builtIns_after.
  destruct (py_compile L lines), (extra_builtins settings); set_solver.
Qed.

Lemma lint_pyflakes_sees (lines : string) (settings : gmap string PyVal) (g : Globals)
    (b : gset string) :
  EvPyflakes b ∈ lint_calls L lines settings g → builtIns g ⊆ b.
Proof.
  pose proof (builtIns_after_mono lines settings g) as Hmono.
  unfold lint_calls, text_calls, tree_calls.
  destruct (py_compile L lines), (extra_builtins settings);
    rewrite ?elem_of_app, ?elem_of_flag1, ?elem_of_nil; naive_solver.
Qed.

Lemma lint_calls_extend (lines : string) (settings : gmap string PyVal) (g : Globals) :
  calls (lint L lines settings g).1 = calls g ++ lint_calls L lines settings g.
Proof. rewrite lint_state. apply collect_state. Qed.

(** No sequence of calls removes a built-in name, and every run of the
    bug finder in it sees at least the names it started with. *)
Lemma run_lints_mono (jobs : list (string * gmap string PyVal)) (g : Globals) :
  builtIns g ⊆ builtIns (run_lints L jobs g)
  ∧ ∃ new, calls (run_lints L jobs g) = calls g ++ new
           ∧ ∀ b, EvPyflakes b ∈ new → builtIns g ⊆ b.
Proof.
  revert g. induction jobs as [|[lines settings] jobs IH]; intros g; simpl.
  - split; [done|]. exists []. split; [by rewrite app_nil_r|].
    intros b Hb. by apply elem_of_nil in Hb.
  - destruct (IH (lint L lines settings g).1) as (Hsub & new & Hcalls & Hsees).
    pose proof (builtIns_after_mono lines settings g) as Hmono.
    rewrite <- lint_builtIns in Hmono.
    split; [set_solver|].
    exists (lint_calls L lines settings g ++ new). split.
    + unfold run_lints in Hcalls |- *. simpl.
      by rewrite Hcalls, lint_calls_extend, app_assoc.
    + intros b [Hb|Hb]%elem_of_app.
      * by eapply lint_pyflakes_sees.
      * specialize (Hsees b Hb). set_solver.
Qed.
End BuiltinsPersist.

(** C8, amended.  When [lint] is called with a non-empty list of extra
    built-in names, the bug finder enabled and a source that compiles, the
    names are added to the process-wide set; no later call of [lint]
    removes them, whatever its settings, and every later run of the bug
    finder sees a set that contains them. *)
Theorem builtins_extension_persists {Tree : Type} (L : Libs Tree) (lines : string)
    (settings : gmap string PyVal) (g : Globals) (tree : Tree) (names : list string)
    (later : list (string * gmap string PyVal)) :
  py_compile L lines = inl tree →
  enabled settings "pyflakes" true = true →
  settings !! "builtins" = Some (PList names) →
  names ≠ [] →
  let g1 := (lint L lines settings g).1 in
  let g2 := run_lints L later g1 in
  builtIns g1 = builtIns g ∪ list_to_set names
  ∧ (∃ b, EvPyflakes b ∈ new_calls g g1 ∧ list_to_set names ⊆ b)
  ∧ builtIns g ∪ list_to_set names ⊆ builtIns g2
  ∧ ∀ b, EvPyflakes b ∈ new_calls g1 g2 → builtIns g ∪ list_to_set names ⊆ b.
Proof.
  intros Hc Hflakes Hb Hne g1 g2.
  assert (extra_builtins settings = Ok names) as Hx.
  { unfold extra_builtins, settings_get. rewrite Hflakes, Hb. simpl.
    by destruct names. }
  assert (builtIns g1 = builtIns g ∪ list_to_set names) as Hg1.
  { unfold g1. rewrite lint_builtIns. unfold builtIns_after. by rewrite Hc, Hx. }
  split; [done|]. split; [|split].
  - exists (builtIns g ∪ list_to_set names). split; [|set_solver].
    unfold g1. rewrite lint_new_calls. unfold lint_calls, builtIns_after.
    rewrite Hc, Hx. unfold tree_calls. rewrite Hflakes.
    rewrite !elem_of_app, !elem_of_flag1. naive_solver.
  - rewrite <- Hg1. apply run_lints_mono.
  - intros b Hin. rewrite <- Hg1.
    destruct (run_lints_mono L later g1) as (_ & new & Hcalls & Hsees).
    apply Hsees. unfold new_calls, g2 in Hin.
    by rewrite Hcalls, drop_app_length in Hin.
Qed.

Lemma builtins_extension_persists_witness :
  let settings : gmap string PyVal := {[ "builtins" := PList ["spam"] ]} in
  let g1 := (lint demo_libs "eggs" settings fresh).1 in
  let g2 := run_lints demo_libs [("spam", ∅)] g1 in
  builtIns g1 = builtIns fresh ∪ list_to_set ["spam"]
  ∧ (∃ b, EvPyflakes b ∈ new_calls fresh g1 ∧ list_to_set ["spam"] ⊆ b)
  ∧ builtIns fresh ∪ list_to_set ["spam"] ⊆ builtIns g2
  ∧ ∀ b, EvPyflakes b ∈ new_calls g1 g2 → builtIns fresh ∪ list_to_set ["spam"] ⊆ b.
Proof.
  apply (builtins_extension_persists demo_libs "eggs" {[ "builtins" := PList ["spam"] ]}
           fresh "eggs" ["spam"] [("spam", ∅)]).
  - reflexivity.
  - reflexivity.
  - reflexivity.
  - discriminate.
Defined.

(** ** The command line of the child *)

Lemma py_str_raises (v : PyVal) (e : Exc) : py_str v = Raise e → e = ValueError.
Proof.
  destruct v as [| |n| | |]; simpl; try done.
  unfold str_of_int. destruct (too_many_digits _); [|done]. by intros [= <-].
Qed.

Lemma iter_strs_raises (v : PyVal) (e : Exc) : iter_strs v = Raise e → e = TypeError.
Proof. destruct v; simpl; try done; by intros [= <-]. Qed.

(** C10.  Every command line [lint_external] builds ends with
    [--import-order-style], a style, [--complexity] and the complexity,
    whether or not the import-order check is enabled; the style is the
    configured [import_order_style] when that is the text [cryptography]
    or [google], and [cryptography] for any other value or none.  No
    command line is built, and [lint_external] raises, only when a true
    [builtins] setting cannot be joined (TypeError) or when [str] refuses
    the line length or the complexity (ValueError). *)
Theorem import_order_style_always_passed (settings : gmap string PyVal)
    (interpreter linter : string) :
  match build_arguments settings interpreter linter with
  | Ok arguments =>
      ∃ (before : list string) (style complexity : string),
        arguments = before ++ ["--import-order-style"; style; "--complexity"; complexity]
        ∧ py_str (settings_get settings "complexity" (PInt (-1))) = Ok complexity
        ∧ (∀ s, settings !! "import_order_style" = Some (PStr s) →
                s = "cryptography" ∨ s = "google" → style = s)
        ∧ ((∀ s, settings !! "import_order_style" = Some (PStr s) →
                 s ≠ "cryptography" ∧ s ≠ "google") → style = "cryptography")
  | Raise e =>
      (e = TypeError ∧ ¬ builtins_ok settings)
      ∨ (e = ValueError ∧ ¬ texts_ok settings)
  end.
Proof.
  unfold build_arguments.
  match goal with
  | |- context [rbind ?m _] => destruct m as [args|e] eqn:Hargs
  end; cbn [rbind].
  2: { left.
       destruct (truthy (settings_get settings "pyflakes" (PBool true))) eqn:Hp; [|done].
       cbn zeta in Hargs.
       destruct (truthy (settings_get settings "builtins" PNone)) eqn:Hb; [|done].
       destruct (iter_strs (settings_get settings "builtins" PNone)) as [names|e'] eqn:Hi;
         [done|].
       injection Hargs as <-. split; [by eapply iter_strs_raises|].
       intros [names Hx]. unfold extra_builtins, enabled in Hx.
       rewrite Hp, Hb, Hi in Hx. done. }
  match goal with
  | |- context [rbind ?m _] => destruct m as [a1|e] eqn:Ha1
  end; cbn [rbind].
  2: { right.
       destruct (truthy (settings_get settings "pep8" (PBool true))) eqn:Hp; [|done].
       cbn zeta in Ha1.
       destruct (py_str (settings_get settings "pep8_max_line_length" (PInt 79)))
         as [text|e'] eqn:Hs; [done|].
       injection Ha1 as <-. split; [by eapply py_str_raises|].
       intros [Hlength _]. unfold enabled in Hlength.
       destruct (Hlength Hp) as [text Ht]. rewrite Hs in Ht. done. }
  cbn zeta.
  destruct (py_str (settings_get settings "complexity" (PInt (-1))))
    as [complexity|e] eqn:Hcx; cbn [rbind].
  2: { right. split; [by eapply py_str_raises|].
       intros [_ [text Ht]]. rewrite Hcx in Ht. done. }
  set (a2 := if truthy (settings_get settings "pydocstyle" (PBool false)) then _ else a1).
  set (a3 := if truthy (settings_get settings "naming" (PBool true)) then _ else a2).
  set (a4 := if truthy (settings_get settings "debugger" (PBool true)) then _ else a3).
  set (a5 := if truthy (settings_get settings "import_order" (PBool false)) then _ else a4).
  unfold settings_get at 1.
  destruct (settings !! "import_order_style") as [v|] eqn:Hv; simpl.
  - destruct v as [| | | |style|];
      try (exists a5, "cryptography", complexity; split; [by rewrite <- app_assoc|];
           split; [done|]; split; [by intros s [=]|done]).
    destruct (String.eqb_spec style "cryptography") as [->|Hc]; simpl.
    + exists a5, "cryptography", complexity. split; [by rewrite <- app_assoc|].
      split; [done|]. split; [by intros s [= <-] _|done].
    + destruct (String.eqb_spec style "google") as [->|Hg]; simpl.
      * exists a5, "google", complexity. split; [by rewrite <- app_assoc|].
        split; [done|]. split; [by intros s [= <-] _|].
        intros H. by destruct (H "google" eq_refl).
      * exists a5, "cryptography", complexity. split; [by rewrite <- app_assoc|].
        split; [done|]. split; [|done].
        by intros s [= ->] [->| ->].
  - exists a5, "cryptography", complexity. split; [by rewrite <- app_assoc|].
    split; [done|]. split; [by intros s [=]|done].
Qed.

Lemma import_order_style_always_passed_witness :
  ∃ (before : list string) (style complexity : string),
    ["python"; "lint.py"; "--pyflakes"; "--pep8"; "--pep8-max-line-length"; "79";
     "--naming"; "--debugger"; "--import-order-style"; "google"; "--complexity"; "-1"]
    = before ++ ["--import-order-style"; style; "--complexity"; complexity]
    ∧ py_str (settings_get {[ "import_order_style" := PStr "google";
                              "import_order" := PBool false ]}
                "complexity" (PInt (-1))) = Ok complexity
    ∧ (∀ s, ({[ "import_order_style" := PStr "google";
                "import_order" := PBool false ]} : gmap string PyVal)
              !! "import_order_style" = Some (PStr s) →
            s = "cryptography" ∨ s = "google" → style = s)
    ∧ ((∀ s, ({[ "import_order_style" := PStr "google";
                 "import_order" := PBool false ]} : gmap string PyVal)
               !! "import_order_style" = Some (PStr s) →
             s ≠ "cryptography" ∧ s ≠ "google") → style = "cryptography").
Proof.
  exact (import_order_style_always_passed
           {[ "import_order_style" := PStr "google"; "import_order" := PBool false ]}
           "python" "lint.py").
Defined.

(** ** The output of the child *)

Lemma decode_utf8_ok (line text : string) : decode_utf8 line = Ok text → text = line.
Proof. unfold decode_utf8. destruct (utf8_valid line); [by intros [= <-]|done]. Qed.

(** The loop keeps the diagnostics in the order of the lines. *)
Lemma parse_output_result (output : list string) :
  ∀ (warnings : list Diag) (console : list string),
    (parse_output output warnings console).2
    = rbind (rmapM decode_utf8 output) (λ texts,
        Ok (warnings ++ omap (λ t, line_warning (strip t)) texts)).
Proof.
  induction output as [|line rest IH]; intros warnings console; simpl.
  - by rewrite app_nil_r.
  - destruct (decode_utf8 line) as [text|e]; simpl; [|done].
    destruct (parse_line (strip text)) as [d|msg] eqn:Hp; rewrite IH;
      (destruct (rmapM decode_utf8 rest) as [texts|e]; simpl; [|done]);
      unfold line_warning at 2; rewrite Hp.
    + by rewrite <- app_assoc.
    + done.
Qed.

(** C6.  [lint_external] returns the diagnostics parsed from the child's
    output lines in the order of the lines, one for each line that parses
    and none for the others, with no sorting (it raises when the command
    line cannot be built or a line cannot be decoded); a child that prints
    line 2 before line 1 gets its diagnostics back in that order. *)
Theorem lint_external_keeps_child_order (run_child : list string → string → string)
    (lines : string) (settings : gmap string PyVal) (interpreter linter : string) :
  (lint_external run_child lines settings interpreter linter).2
  = rbind (build_arguments settings interpreter linter) (λ arguments,
      rbind (rmapM decode_utf8 (splitlines (run_child arguments lines))) (λ texts,
        Ok (omap (λ t, line_warning (strip t)) texts)))
  ∧ (lint_external demo_child "" ∅ "python" "lint.py").2
    = Ok [(PInt 2, PInt 0, "W291 trailing whitespace");
          (PInt 1, PInt 4, "E225 missing whitespace")].
Proof.
  split; [|reflexivity].
  unfold lint_external.
  destruct (build_arguments settings interpreter linter) as [arguments|e]; simpl; [|done].
  by rewrite parse_output_result.
Qed.

(** ** Parsing one line of the child's output *)

Lemma append_cons (c : ascii) (s t : string) : String c s +:+ t = String c (s +:+ t).
Proof. reflexivity. Qed.

Lemma break_at_app (sep : ascii) (a r : string) :
  contains_char sep a = false → break_at sep (a +:+ String sep r) = Some (a, r).
Proof.
  induction a as [|c a IH]; intros Ha.
  - change ("" +:+ String sep r) with (String sep r). simpl.
    by rewrite Ascii.eqb_refl.
  - rewrite append_cons. simpl in Ha |- *.
    apply orb_false_iff in Ha as [Hc Ha]. by rewrite Hc, IH.
Qed.

Lemma break_at_count (sep : ascii) (s : string) :
  ∀ a r, break_at sep s = Some (a, r) → count_char sep s = S (count_char sep r).
Proof.
  induction s as [|c s IH]; intros a r; simpl; [done|].
  destruct (Ascii.eqb c sep).
  - by intros [= <- <-].
  - destruct (break_at sep s) as [[a' r']|]; [|done].
    intros [= <- <-]. by rewrite (IH a' r').
Qed.

Lemma break_at_none (sep : ascii) (s : string) :
  count_char sep s = 0 → break_at sep s = None.
Proof.
  induction s as [|c s IH]; simpl; [done|].
  destruct (Ascii.eqb c sep); [done|]. intros H. by rewrite IH.
Qed.

Lemma split_max_fields (a b rest : string) :
  contains_char ":" a = false → contains_char ":" b = false →
  split_max ":" 2 (a +:+ ":" +:+ b +:+ ":" +:+ rest) = [a; b; rest].
Proof.
  intros Ha Hb. simpl.
  change (a +:+ ":" +:+ b +:+ ":" +:+ rest)
    with (a +:+ String ":" (b +:+ String ":" rest)).
  by rewrite (break_at_app _ _ _ Ha), (break_at_app _ _ _ Hb).
Qed.

Lemma parse_line_few_colons (text : string) :
  count_char ":" text < 2 → parse_line text = Printed ("Flake8Lint ERROR: " +:+ text).
Proof.
  intros Hn. unfold parse_line. simpl.
  destruct (break_at ":" text) as [[a r]|] eqn:Ha; [|done].
  apply break_at_count in Ha.
  rewrite break_at_none; [done|lia].
Qed.

(** What counts as an integer is what [int] takes: digits of any
    script, but no separator character next to them. *)
Lemma int_of_str_examples :
  int_of_str (bytes_of [217; 163]%N) = Ok 3%Z
  ∧ int_of_str (" -" +:+ bytes_of [239; 188; 145; 50; 95; 51; 194; 160]%N) = Ok (-123)%Z
  ∧ int_of_str (bytes_of [51; 28]%N) = Raise ValueError
  ∧ strip (bytes_of [51; 28]%N) = "3"
  ∧ int_of_str "1__0" = Raise ValueError
  ∧ int_of_str "" = Raise ValueError
  ∧ parse_output [bytes_of [217; 163; 58; 217; 165; 58; 120]%N] [] []
    = ([], Ok [(PInt 3, PInt 5, "x")])
  ∧ parse_output [bytes_of [51; 28; 58; 53; 58; 120]%N] [] []
    = (["Flake8Lint ERROR: " +:+ bytes_of [51; 28; 58; 53; 58; 120]%N], Ok []).
Proof. repeat split; reflexivity. Qed.

(** A line of bytes that is not UTF-8 and has no colon ends the loop with
    an exception, so that the diagnostic of the next line is lost and
    nothing is printed; and the whitespace that ends a line is not part of
    the message. *)
Lemma child_line_parsing_counterexample :
  count_char ":" (bytes_of [255%N]) = 0
  ∧ parse_output [bytes_of [255%N]; "1:2:E225 missing whitespace"] [] []
    = ([], Raise UnicodeDecodeError)
  ∧ contains_char ":" "3" = false
  ∧ contains_char ":" "5" = false
  ∧ int_of_str "3" = Ok 3%Z
  ∧ int_of_str "5" = Ok 5%Z
  ∧ parse_output ["3" +:+ ":" +:+ "5" +:+ ":" +:+ "E111 "] [] []
    = ([], Ok [(PInt 3, PInt 5, "E111")]).
Proof. repeat split; reflexivity. Qed.

(** C3, amended.  For every line of the child's output that is well-formed
    UTF-8, with its surrounding whitespace removed: the loop goes on to
    the next line, either with one more diagnostic or with one more
    printed message; a line [a:b:rest] whose first two fields hold no
    colon and convert to integers gives the diagnostic [(a, b, rest)],
    colons in [rest] included; if a field does not convert, or if the
    line has fewer than two colons, the line is printed and gives no
    diagnostic. *)
Theorem child_line_parsing (line : string) (more : list string)
    (warnings : list Diag) (console : list string) :
  utf8_valid line = true →
  let text := strip line in
  parse_output (line :: more) warnings console
  = match parse_line text with
    | Warning d => parse_output more (warnings ++ [d]) console
    | Printed msg => parse_output more warnings (console ++ [msg])
    end
  ∧ (∀ a b rest : string,
       text = a +:+ ":" +:+ b +:+ ":" +:+ rest →
       contains_char ":" a = false → contains_char ":" b = false →
       match int_of_str a, int_of_str b with
       | Ok x, Ok y => parse_line text = Warning (PInt x, PInt y, rest)
       | _, _ => parse_line text = Printed ("Flake8Lint ERROR: " +:+ text)
       end)
  ∧ (count_char ":" text < 2 →
     parse_line text = Printed ("Flake8Lint ERROR: " +:+ text)).
Proof.
  intros Hvalid text. split; [|split].
  - simpl. unfold decode_utf8. by rewrite Hvalid.
  - clearbody text. intros a b rest -> Ha Hb. unfold parse_line.
    rewrite (split_max_fields a b rest Ha Hb).
    by destruct (int_of_str a), (int_of_str b).
  - apply parse_line_few_colons.
Qed.

Lemma child_line_parsing_witness :
  parse_output ["3:5:E111 indentation is not a multiple of four"] [] []
  = ([], Ok [(PInt 3, PInt 5, "E111 indentation is not a multiple of four")]).
Proof.
  pose proof (child_line_parsing "3:5:E111 indentation is not a multiple of four" [] [] []
                eq_refl) as (Hloop & Hfields & _).
  specialize (Hfields "3" "5" "E111 indentation is not a multiple of four"
                eq_refl eq_refl eq_refl).
  simpl in Hfields. rewrite Hloop.
  change (strip "3:5:E111 indentation is not a multiple of four")
    with "3:5:E111 indentation is not a multiple of four" in Hfields |- *.
  rewrite Hfields. reflexivity.
Defined.

(** ** The options read from a configuration *)

Lemma has_option_value (p : ConfigParser) (name : string) :
  has_option p "flake8" name = bool_decide (is_Some (option_value p name)).
Proof.
  unfold has_option, option_value. simpl.
  destruct (cp_sections p !! "flake8") as [opts|]; [|done].
  by destruct (opts !! name) as [v|].
Qed.

Lemma cp_get_value (p : ConfigParser) (name raw : string) :
  option_value p name = Some raw → cp_get p "flake8" name = Ok raw.
Proof.
  unfold option_value, cp_get.
  destruct (cp_sections p !! "flake8") as [opts|]; [|done].
  destruct (opts !! name) as [v|]; [by intros [= ->]|].
  by intros ->.
Qed.

(** A round of the loop for a list-valued option whose name has no
    underscore. *)
Lemma load_list_option (p : ConfigParser) (result : gmap string PyVal)
    (name key : string) :
  replace_char "_" "-" name = name →
  load_option p result (name, key, ListOption)
  = Ok (match list_setting p name with
        | Some v => <[key := v]> result
        | None => result
        end).
Proof.
  intros Hname. unfold load_option, list_setting, nonblank. rewrite Hname.
  replace (if has_option p "flake8" name then name else name) with name
    by (by destruct (has_option p "flake8" name)).
  rewrite has_option_value.
  destruct (option_value p name) as [raw|] eqn:Hv; simpl.
  - rewrite (cp_get_value _ _ _ Hv). simpl.
    by destruct (String.eqb (strip raw) "").
  - done.
Qed.

(** The round of the loop for the line length. *)
Lemma load_int_option (p : ConfigParser) (result : gmap string PyVal) :
  load_option p result ("max_line_length", "pep8_max_line_length", IntOption)
  = match max_line_length_raw p with
    | Some raw =>
        rbind (int_of_str raw) (λ n, Ok (<["pep8_max_line_length" := PInt n]> result))
    | None => Ok result
    end.
Proof.
  unfold load_option, max_line_length_raw, nonblank, cp_getint.
  rewrite (has_option_value p "max_line_length").
  destruct (option_value p "max_line_length") as [raw|] eqn:Hu; simpl.
  - rewrite has_option_value, Hu. simpl.
    rewrite (cp_get_value _ _ _ Hu). simpl.
    by destruct (String.eqb (strip raw) "").
  - rewrite has_option_value.
    destruct (option_value p "max-line-length") as [raw|] eqn:Hh; simpl.
    + rewrite (cp_get_value _ _ _ Hh). simpl.
      by destruct (String.eqb (strip raw) "").
    + done.
Qed.

(** The result before the line length is looked at. *)
Lemma load_lists (p : ConfigParser) :
  ∃ result,
    load_options p ∅ options
    = load_option p result ("max_line_length", "pep8_max_line_length", IntOption)
    ∧ config_lists p result ∧ result !! "pep8_max_line_length" = None.
Proof.
  unfold options. cbn [load_options].
  rewrite load_list_option by reflexivity. cbn [rbind].
  rewrite load_list_option by reflexivity. cbn [rbind].
  rewrite load_list_option by reflexivity. cbn [rbind].
  match goal with
  | |- context [load_option p ?r ("max_line_length", _, _)] => exists r
  end.
  split.
  { by destruct (load_option p _ _). }
  unfold config_lists.
  destruct (list_setting p "ignore"), (list_setting p "select"),
    (list_setting p "exclude");
    repeat split; try (intros k H1 H2 H3 H4); by simplify_map_eq.
Qed.

(** Three configurations with a [flake8] section.  An option that is
    present with a blank value leaves its key out of the result, instead
    of giving a list.  An option that the section does not hold, but
    [DEFAULT] does, gives its key all the same.  A line length that is no
    number gives no mapping at all: the loader raises. *)
Lemma load_flake8_config_counterexample :
  (has_section blank_parser "flake8" = true
   ∧ has_option blank_parser "flake8" "ignore" = true
   ∧ cp_get blank_parser "flake8" "ignore" = Ok ""
   ∧ split_on "," "" = [""]
   ∧ load_flake8_config blank_parser = Ok ∅
   ∧ (∅ : gmap string PyVal) !! "ignore" = None)
  ∧ (cp_sections inherited_parser !! "flake8" = Some ∅
     ∧ load_flake8_config inherited_parser = Ok {[ "ignore" := PList ["E501"] ]})
  ∧ (has_section wordy_parser "flake8" = true
     ∧ cp_get wordy_parser "flake8" "max_line_length" = Ok "abc"
     ∧ load_flake8_config wordy_parser = Raise ValueError).
Proof. repeat split; reflexivity. Qed.

(** C4, amended.  Without a [flake8] section the result is empty.  With
    one: each of [ignore], [select] and [exclude] whose value (the
    section's, else the one inherited from [DEFAULT]) is not blank gives
    the comma-split list of the stripped value, under [ignore], [select]
    and [ignore_files]; [max_line_length], or [max-line-length] when the
    former is absent, gives the integer its non-blank value converts to,
    under [pep8_max_line_length], and the loader raises when the value
    does not convert; an option that is absent or blank leaves its key
    absent, and there are no other keys.  The configuration [[flake8]],
    [ignore = E501,E302] gives [ignore] as [['E501', 'E302']]. *)
Theorem load_flake8_config_options (parser : ConfigParser) :
  (has_section parser "flake8" = false → load_flake8_config parser = Ok ∅)
  ∧ (has_section parser "flake8" = true →
     match max_line_length_raw parser with
     | None =>
         ∃ result, load_flake8_config parser = Ok result
                   ∧ config_lists parser result
                   ∧ result !! "pep8_max_line_length" = None
     | Some raw =>
         match int_of_str raw with
         | Ok n =>
             ∃ result, load_flake8_config parser = Ok result
                       ∧ config_lists parser result
                       ∧ result !! "pep8_max_line_length" = Some (PInt n)
         | Raise e => load_flake8_config parser = Raise e
         end
     end)
  ∧ ∃ result, load_flake8_config demo_parser = Ok result
              ∧ result !! "ignore" = Some (PList ["E501"; "E302"])
              ∧ result !! "select" = None
              ∧ result !! "ignore_files" = None
              ∧ result !! "pep8_max_line_length" = None.
Proof.
  split; [|split].
  - intros Hs. unfold load_flake8_config. by rewrite Hs.
  - intros Hs. unfold load_flake8_config. rewrite Hs.
    destruct (load_lists parser) as (lists & -> & Hlists & Hnone).
    rewrite load_int_option.
    destruct (max_line_length_raw parser) as [raw|].
    + destruct (int_of_str raw) as [n|e]; simpl; [|done].
      eexists. split; [done|]. split; [|by simplify_map_eq].
      destruct Hlists as (H1 & H2 & H3 & H4).
      repeat split; try (intros k K1 K2 K3 K4); simplify_map_eq; auto.
    + by exists lists.
  - eexists. repeat split; reflexivity.
Qed.

(** * Further properties *)

(** ** Sorting in general *)

Lemma rmapM_ok {A B : Type} (f : A → Result B) (l : list A) (l' : list B) :
  rmapM f l = Ok l' → Forall2 (λ a b, f a = Ok b) l l'.
Proof.
  revert l'. induction l as [|a l IH]; intros l'; simpl.
  - intros [= <-]. constructor.
  - destruct (f a) as [b|e] eqn:Hb; simpl; [|done].
    destruct (rmapM f l) as [bs|e]; simpl; [|done].
    intros [= <-]. constructor; [done|by apply IH].
Qed.

Lemma rmapM_raise {A B : Type} (f : A → Result B) (l : list A) (e : Exc) :
  rmapM f l = Raise e → Exists (λ a, f a = Raise e) l.
Proof.
  induction l as [|a l IH]; simpl; [done|].
  destruct (f a) as [b|e'] eqn:Hb; simpl.
  - destruct (rmapM f l) as [bs|e'']; simpl; [done|].
    intros [= <-]. apply Exists_cons_tl. by apply IH.
  - intros [= <-]. by apply Exists_cons_hd.
Qed.

Lemma rmapM_total {A B : Type} (f : A → Result B) (l : list A) :
  Forall (λ a, ∃ b, f a = Ok b) l → ∃ l', rmapM f l = Ok l'.
Proof.
  induction 1 as [|a l [b Hb] Hl [l' IH]]; simpl; [by eexists|].
  rewrite Hb, IH. simpl. by eexists.
Qed.

(** The keyed list [sorted] builds: each item with its key. *)
Lemma keyed_items {A K : Type} (key : A → Result K) (l : list A) (keyed : list (K * A)) :
  rmapM (λ a, rbind (key a) (λ k, Ok (k, a))) l = Ok keyed →
  snd <$> keyed = l ∧ Forall (λ p, key p.2 = Ok p.1) keyed.
Proof.
  intros H%rmapM_ok. induction H as [|a p l keyed Hp Hl [IH1 IH2]]; simpl; [done|].
  destruct (key a) as [k|e] eqn:Hk; simpl in Hp; [|done].
  injection Hp as <-. split.
  - change (a :: (snd <$> keyed) = a :: l). by rewrite IH1.
  - by constructor.
Qed.

Section Stability.
Context {A K : Type} `{EqDecision K} (lt : K → K → bool).
Hypothesis lt_irrefl : ∀ k, lt k k = false.

Lemma insert_keyed_filter (k : K) (x : K * A) (l : list (K * A)) :
  filter (λ p, p.1 = k) (insert_keyed lt x l) = filter (λ p, p.1 = k) (x :: l).
Proof.
  induction l as [|y l IH]; simpl; [done|].
  destruct (lt y.1 x.1) eqn:Hlt; [|done].
  rewrite (filter_cons _ y), IH, !(filter_cons _ x), (filter_cons _ y).
  destruct (decide (y.1 = k)) as [Hy|Hy], (decide (x.1 = k)) as [Hx|Hx]; try done.
  rewrite Hy, Hx, lt_irrefl in Hlt. done.
Qed.

(** A sort with [lt] keeps the items of equal key in their order. *)
Lemma sort_keyed_filter (k : K) (l : list (K * A)) :
  filter (λ p, p.1 = k) (sort_keyed lt l) = filter (λ p, p.1 = k) l.
Proof.
  induction l as [|x l IH]; simpl; [done|].
  by rewrite insert_keyed_filter, !(filter_cons _ x), IH.
Qed.
End Stability.

Lemma ltb_irrefl (s : string) : String.ltb s s = false.
Proof.
  unfold String.ltb. destruct (String.compare s s) eqn:H; try done.
  pose proof (String.compare_antisym s s) as Ha. rewrite H in Ha. done.
Qed.

Lemma format_09d_formattable (v : PyVal) :
  (∃ s, format_09d v = Ok s) ↔ formattable v = true.
Proof.
  destruct v as [| |n| | |]; simpl; split; try done; try (by intros [? ?]);
    try (by eexists); unfold str_of_int;
    destruct (too_many_digits _); simpl; try done; [by intros [? ?]|by eexists].
Qed.

Lemma format_09d_raises (v : PyVal) (e : Exc) :
  format_09d v = Raise e → e = TypeError ∨ e = ValueError.
Proof.
  destruct v as [| |n| | |]; simpl; try done; try (intros [= <-]; auto).
  unfold str_of_int. destruct (too_many_digits _); simpl; [|done]. intros [= <-]. auto.
Qed.

Lemma sort_key_well_positioned (d : Diag) :
  (∃ k, sort_key d = Ok k) ↔ well_positioned d.
Proof.
  unfold sort_key, well_positioned.
  rewrite <- !format_09d_formattable. split.
  - intros [k Hk]. destruct (format_09d (diag_line d)) as [l|]; [|done].
    destruct (format_09d (diag_col d)) as [c|]; [|done]. split; by eexists.
  - intros [[l ->] [c ->]]. by eexists.
Qed.

Lemma sort_key_raises (d : Diag) (e : Exc) :
  sort_key d = Raise e → e = TypeError ∨ e = ValueError.
Proof.
  unfold sort_key. destruct (format_09d (diag_line d)) as [l|e1] eqn:Hl; simpl.
  - destruct (format_09d (diag_col d)) as [c|e2] eqn:Hc; simpl; [done|].
    intros [= <-]. by eapply format_09d_raises.
  - intros [= <-]. by eapply format_09d_raises.
Qed.

(** The [return] statement of [lint], whatever the diagnostics. *)
Lemma sort_warnings_cases (warnings : list Diag) :
  (Forall well_positioned warnings
   ∧ ∃ sorted, sort_warnings warnings = Ok sorted ∧ sorted ≡ₚ warnings)
  ∨ (Exists (λ d, ¬ well_positioned d) warnings
     ∧ ∃ e, sort_warnings warnings = Raise e ∧ (e = TypeError ∨ e = ValueError)).
Proof.
  unfold sort_warnings, py_sorted.
  destruct (rmapM (λ a, rbind (sort_key a) (λ k, Ok (k, a))) warnings)
    as [keyed|e] eqn:Hm; simpl.
  - left. destruct (keyed_items _ _ _ Hm) as [Hsnd Hkeys]. split.
    + rewrite <- Hsnd. apply Forall_fmap. eapply Forall_impl; [exact Hkeys|].
      intros p Hp. apply (proj1 (sort_key_well_positioned _)). by exists p.1.
    + eexists. split; [done|]. by rewrite sort_keyed_perm, Hsnd.
  - right. apply rmapM_raise in Hm. split.
    + eapply Exists_impl; [exact Hm|]. intros d Hd Hw.
      apply sort_key_well_positioned in Hw as [k Hk].
      simpl in Hd. rewrite Hk in Hd. done.
    + exists e. split; [done|].
      apply Exists_exists in Hm as (d & _ & Hd).
      destruct (sort_key d) as [k|e'] eqn:Hk; simpl in Hd; [done|].
      injection Hd as <-. by eapply sort_key_raises.
Qed.

(** ** What [lint] returns and when it raises *)

(** X1.  Once the diagnostics are collected, [lint] returns exactly when
    every line and column is an integer that can be formatted, or a
    boolean: the result is then a permutation of the collected list; as
    soon as one position is [None], a float, text or a list, [lint]
    raises [TypeError] or [ValueError] from its [return] statement and no
    diagnostic is returned. *)
Theorem lint_returns_iff_well_positioned {Tree : Type} (L : Libs Tree) (lines : string)
    (settings : gmap string PyVal) (g g' : Globals) (warnings : list Diag) :
  collect L lines settings g = (g', Ok warnings) →
  (Forall well_positioned warnings
   ∧ ∃ sorted, lint L lines settings g = (g', Ok sorted) ∧ sorted ≡ₚ warnings)
  ∨ (Exists (λ d, ¬ well_positioned d) warnings
     ∧ ∃ e, lint L lines settings g = (g', Raise e) ∧ (e = TypeError ∨ e = ValueError)).
Proof.
  intros Hc. unfold lint, bind, lift. rewrite Hc.
  destruct (sort_warnings_cases warnings) as [[Hw (sorted & Hs & Hp)]|[Hw (e & Hs & He)]].
  - left. split; [done|]. exists sorted. by rewrite Hs.
  - right. split; [done|]. exists e. by rewrite Hs.
Qed.

Lemma lint_returns_iff_well_positioned_witness :
  (Forall well_positioned
     [(PInt 2, PInt 79, "E501 line too long (80 > 79 characters)");
      (PInt 1, PInt 0, "F821 undefined name 'spam'");
      (PNone, PNone, "T002 trace found: set_trace used")]
   ∧ ∃ sorted,
       lint lineless_libs "spam" ∅ fresh
       = ((collect lineless_libs "spam" ∅ fresh).1, Ok sorted)
       ∧ sorted ≡ₚ [(PInt 2, PInt 79, "E501 line too long (80 > 79 characters)");
                    (PInt 1, PInt 0, "F821 undefined name 'spam'");
                    (PNone, PNone, "T002 trace found: set_trace used")])
  ∨ (Exists (λ d, ¬ well_positioned d)
       [(PInt 2, PInt 79, "E501 line too long (80 > 79 characters)");
        (PInt 1, PInt 0, "F821 undefined name 'spam'");
        (PNone, PNone, "T002 trace found: set_trace used")]
     ∧ ∃ e, lint lineless_libs "spam" ∅ fresh
            = ((collect lineless_libs "spam" ∅ fresh).1, Raise e)
            ∧ (e = TypeError ∨ e = ValueError)).
Proof.
  apply (lint_returns_iff_well_positioned lineless_libs "spam" ∅ fresh).
  reflexivity.
Defined.

Lemma filter_ext_Forall {A : Type} (P Q : A → Prop) `{∀ x, Decision (P x)}
    `{∀ x, Decision (Q x)} (l : list A) :
  Forall (λ x, P x ↔ Q x) l → filter P l = filter Q l.
Proof.
  induction 1 as [|x l Hx Hl IH]; [done|].
  rewrite !filter_cons, IH.
  destruct (decide (P x)), (decide (Q x)); naive_solver.
Qed.

Lemma filter_fmap {A B : Type} (f : A → B) (P : B → Prop) `{∀ y, Decision (P y)}
    (l : list A) :
  filter P (f <$> l) = f <$> filter (P ∘ f) l.
Proof.
  induction l as [|x l IH]; [done|].
  rewrite fmap_cons, !filter_cons, IH. simpl.
  by destruct (decide (P (f x))).
Qed.

Lemma filter_False {A : Type} (l : list A) : filter (λ _, False) l = [].
Proof.
  induction l as [|x l IH]; [done|].
  rewrite filter_cons_False by tauto. exact IH.
Qed.

Lemma sort_key_at_position (l c : PyVal) (d : Diag) :
  at_position l c d → sort_key d = sort_key (l, c, "").
Proof. intros [Hl Hc]. unfold sort_key. simpl. by rewrite Hl, Hc. Qed.

(** Diagnostics at one position keep their order through the sort. *)
Lemma sort_warnings_stable (warnings sorted : list Diag) (l c : PyVal) :
  sort_warnings warnings = Ok sorted →
  filter (at_position l c) sorted = filter (at_position l c) warnings.
Proof.
  unfold sort_warnings, py_sorted.
  destruct (rmapM (λ a, rbind (sort_key a) (λ k, Ok (k, a))) warnings)
    as [keyed|e] eqn:Hm; simpl; [|done].
  intros [= <-]. destruct (keyed_items _ _ _ Hm) as [Hsnd Hkeys].
  rewrite <- Hsnd, !filter_fmap. f_equal.
  set (P' := λ p : string * Diag, at_position l c p.2 ∧ sort_key p.2 = Ok p.1).
  set (Q := λ p : string * Diag, sort_key (l, c, "") = Ok p.1).
  assert (∀ X : list (string * Diag),
            Forall (λ p, sort_key p.2 = Ok p.1) X →
            filter (at_position l c ∘ snd) X = filter P' (filter Q X)) as Hnarrow.
  { intros X HX. rewrite list_filter_filter_l.
    - apply filter_ext_Forall. eapply Forall_impl; [exact HX|].
      intros p Hp. unfold P'. simpl. naive_solver.
    - intros p [Hpos Hk]. unfold Q. by rewrite <- (sort_key_at_position l c p.2 Hpos). }
  rewrite (Hnarrow keyed Hkeys).
  rewrite (Hnarrow (sort_keyed String.ltb keyed))
    by (by rewrite (sort_keyed_perm String.ltb keyed)).
  f_equal. unfold Q.
  destruct (sort_key (l, c, "")) as [k0|e].
  - rewrite (list_filter_iff _ (λ p, p.1 = k0) (sort_keyed String.ltb keyed))
      by (intros p; split; [by intros [= ->]|by intros ->]).
    rewrite (list_filter_iff _ (λ p, p.1 = k0) keyed)
      by (intros p; split; [by intros [= ->]|by intros ->]).
    apply sort_keyed_filter, ltb_irrefl.
  - rewrite (list_filter_iff _ (λ _, False) (sort_keyed String.ltb keyed)) by done.
    rewrite (list_filter_iff _ (λ _, False) keyed) by done.
    by rewrite !filter_False.
Qed.

(** X2.  The sort of [lint] is stable: the diagnostics that share a line
    and a column come out in the order in which they were collected, that
    is, in the order in which the checkers ran. *)
Theorem lint_keeps_order_at_a_position {Tree : Type} (L : Libs Tree) (lines : string)
    (settings : gmap string PyVal) (g g' g'' : Globals) (warnings sorted : list Diag)
    (l c : PyVal) :
  collect L lines settings g = (g', Ok warnings) →
  lint L lines settings g = (g'', Ok sorted) →
  filter (at_position l c) sorted = filter (at_position l c) warnings.
Proof.
  intros Hc. unfold lint, bind, lift. rewrite Hc.
  destruct (sort_warnings warnings) as [s|e] eqn:Hs; [|done].
  intros [= _ <-]. by apply sort_warnings_stable.
Qed.

Lemma lint_keeps_order_at_a_position_witness :
  filter (at_position (PInt 1) (PInt 0))
    [(PInt 1, PInt 0, "F821 undefined name 'spam'");
     (PInt 1, PInt 0, "C901 'f' is too complex (2)");
     (PInt 2, PInt 79, "E501 line too long (80 > 79 characters)")]
  = filter (at_position (PInt 1) (PInt 0))
      [(PInt 2, PInt 79, "E501 line too long (80 > 79 characters)");
       (PInt 1, PInt 0, "F821 undefined name 'spam'");
       (PInt 1, PInt 0, "C901 'f' is too complex (2)")].
Proof.
  apply (lint_keeps_order_at_a_position demo_libs "spam" {[ "complexity" := PInt 1 ]}
           fresh
           (collect demo_libs "spam" {[ "complexity" := PInt 1 ]} fresh).1
           (lint demo_libs "spam" {[ "complexity" := PInt 1 ]} fresh).1).
  - reflexivity.
  - reflexivity.
Defined.

(** ** What [lint] calls and what it leaves alone *)

Lemma extra_builtins_pyflakes_off (settings : gmap string PyVal) :
  enabled settings "pyflakes" true = false → extra_builtins settings = Ok [].
Proof. intros H. unfold extra_builtins. by rewrite H. Qed.

Lemma globals_eta (g : Globals) :
  {| builtIns := builtIns g; max_complexity := max_complexity g; calls := calls g |} = g.
Proof. by destruct g. Qed.

(** X3.  With every checker turned off and no complexity threshold,
    [lint] calls no library and changes nothing: on a source that compiles
    it returns the empty list, but on a source that does not compile it
    still reports the syntax error, as the only diagnostic. *)
Theorem lint_all_disabled {Tree : Type} (L : Libs Tree) (lines : string)
    (settings : gmap string PyVal) (g : Globals) :
  all_disabled settings →
  match py_compile L lines with
  | inl _ => lint L lines settings g = (g, Ok [])
  | inr exc =>
      collect L lines settings g = (g, Ok [syntax_error_diag exc])
      ∧ (well_positioned (syntax_error_diag exc) →
         lint L lines settings g = (g, Ok [syntax_error_diag exc]))
  end.
Proof.
  intros (Hpep8 & Hdoc & Hflakes & Hnaming & Hdebugger & Horder & Hcx).
  assert (text_calls settings = []) as Htc.
  { unfold text_calls. by rewrite Hpep8, Hdoc. }
  assert (text_warnings L lines settings = []) as Htw.
  { unfold text_warnings. by rewrite Hpep8, Hdoc. }
  destruct Hcx as (n & Hn & Hle).
  assert ((complexity_value settings >? -1)%Z = false) as Hgt.
  { destruct (complexity_threshold_value settings) as [Hv | (Hv & _)];
      rewrite Hv in Hn; [|done]. injection Hn as <-. lia. }
  destruct (py_compile L lines) as [tree|exc] eqn:Hc.
  - unfold lint, bind. rewrite collect_run, Hc, Htc, Htw, add_calls_nil.
    rewrite (lint_tree_run L lines settings tree [] g []
               (extra_builtins_pyflakes_off settings Hflakes)).
    rewrite Hn. cbn [rbind].
    unfold tree_calls, tree_warnings.
    rewrite Hflakes, Hnaming, Hdebugger, Horder, Hgt. simpl.
    rewrite (right_id_L ∅ (∪) (builtIns g)), app_nil_r. by rewrite globals_eta.
  - assert (collect L lines settings g = (g, Ok [syntax_error_diag exc])) as Hrun.
    { by rewrite collect_run, Hc, Htc, Htw, add_calls_nil. }
    split; [done|].
    intros Hw%sort_key_well_positioned. destruct Hw as [k Hk].
    unfold lint, bind, lift. rewrite Hrun.
    unfold sort_warnings, py_sorted. simpl. by rewrite Hk.
Qed.

Lemma lint_all_disabled_witness :
  collect demo_libs "("
    {[ "pep8" := PBool false; "pyflakes" := PBool false; "naming" := PBool false;
       "debugger" := PBool false ]} fresh
  = (fresh, Ok [(PInt 1, PInt 1, "E901 SyntaxError: unexpected EOF while parsing")])
  ∧ (well_positioned (PInt 1, PInt 1, "E901 SyntaxError: unexpected EOF while parsing") →
     lint demo_libs "("
       {[ "pep8" := PBool false; "pyflakes" := PBool false; "naming" := PBool false;
          "debugger" := PBool false ]} fresh
     = (fresh, Ok [(PInt 1, PInt 1, "E901 SyntaxError: unexpected EOF while parsing")])).
Proof.
  apply (lint_all_disabled demo_libs "("
           {[ "pep8" := PBool false; "pyflakes" := PBool false; "naming" := PBool false;
              "debugger" := PBool false ]} fresh).
  repeat split; try reflexivity. exists (-1)%Z. split; [reflexivity|lia].
Defined.

Lemma flag_sublist {A : Type} (c : bool) (l : list A) : flag c l `sublist_of` l.
Proof. destruct c; simpl; [done|apply sublist_nil_l]. Qed.

(** X4.  In one call, [lint] calls each library at most once and always
    in the same order: style, docstrings, bug finder, naming, debug
    statements, import order, complexity; the style checker gets the
    configured line length, the import-order checker the configured
    style, the complexity checker the converted threshold. *)
Theorem lint_calls_in_order {Tree : Type} (L : Libs Tree) (lines : string)
    (settings : gmap string PyVal) (g : Globals) :
  new_calls g (lint L lines settings g).1 `sublist_of` call_sequence L lines settings g.
Proof.
  rewrite lint_new_calls. unfold lint_calls, call_sequence, text_calls, tree_calls.
  change [EvPep8 ["DIRTY-HACK"] (settings_get settings "pep8_max_line_length" PNone);
          EvPydocstyle;
          EvPyflakes (builtIns_after L lines settings g);
          EvNaming; EvDebugger;
          EvImportOrder (settings_get settings "import_order_style" PNone);
          EvMccabe (complexity_value settings)]
    with (([EvPep8 ["DIRTY-HACK"] (settings_get settings "pep8_max_line_length" PNone)]
           ++ [EvPydocstyle])
          ++ ([EvPyflakes (builtIns_after L lines settings g)]
              ++ [EvNaming] ++ [EvDebugger]
              ++ [EvImportOrder (settings_get settings "import_order_style" PNone)]
              ++ [EvMccabe (complexity_value settings)])).
  apply sublist_app; [apply sublist_app; apply flag_sublist|].
  destruct (py_compile L lines), (extra_builtins settings);
    try apply sublist_nil_l.
  repeat (apply sublist_app; [apply flag_sublist|]). apply flag_sublist.
Qed.

Section LintFrame.
Context {Tree : Type} (L : Libs Tree).

Lemma collect_max_complexity (lines : string) (settings : gmap string PyVal)
    (g : Globals) :
  max_complexity (collect L lines settings g).1
  = match py_compile L lines, extra_builtins settings with
    | inl _, Ok _ =>
        if (complexity_value settings >? -1)%Z then complexity_value settings
        else max_complexity g
    | _, _ => max_complexity g
    end.
Proof.
  rewrite collect_run.
  destruct (py_compile L lines) as [tree|exc]; simpl; [|done].
  destruct (extra_builtins settings) as [names|e] eqn:Hx.
  - by rewrite (lint_tree_run L lines settings tree _ _ names Hx).
  - by rewrite (lint_tree_raise L lines settings tree _ _ e Hx).
Qed.
End LintFrame.

(** X5.  Of the state shared between calls, [lint] changes the built-in
    names only if the bug finder is enabled and the [builtins] setting is
    true, and it changes [max_complexity] only by running the complexity
    checker, whose threshold it then holds. *)
Theorem lint_frame {Tree : Type} (L : Libs Tree) (lines : string)
    (settings : gmap string PyVal) (g : Globals) :
  let g' := (lint L lines settings g).1 in
  (builtIns g' ≠ builtIns g →
   enabled settings "pyflakes" true = true
   ∧ truthy (settings_get settings "builtins" PNone) = true)
  ∧ (max_complexity g' ≠ max_complexity g →
     EvMccabe (max_complexity g') ∈ new_calls g g').
Proof.
  intros g'. split.
  - unfold g'. rewrite lint_builtIns. unfold builtIns_after, extra_builtins.
    destruct (py_compile L lines); [|done].
    destruct (enabled settings "pyflakes" true); simpl;
      [|by rewrite (right_id_L ∅ (∪) (builtIns g))].
    destruct (truthy (settings_get settings "builtins" PNone)); simpl;
      [|by rewrite (right_id_L ∅ (∪) (builtIns g))].
    done.
  - unfold g'. rewrite lint_new_calls, lint_state, collect_max_complexity.
    unfold lint_calls.
    destruct (py_compile L lines); [|done].
    destruct (extra_builtins settings); [|done].
    destruct (complexity_value settings >? -1)%Z eqn:Hgt; [|done].
    intros _. unfold tree_calls. rewrite Hgt.
    rewrite !elem_of_app, !elem_of_flag1. naive_solver.
Qed.

Lemma lint_frame_witness :
  builtIns (lint demo_libs "eggs" {[ "builtins" := PList ["spam"]; "complexity" := PInt 3 ]}
              fresh).1 ≠ builtIns fresh
  ∧ enabled {[ "builtins" := PList ["spam"]; "complexity" := PInt 3 ]} "pyflakes" true = true
  ∧ EvMccabe 3
      ∈ new_calls fresh
          (lint demo_libs "eggs" {[ "builtins" := PList ["spam"]; "complexity" := PInt 3 ]}
             fresh).1.
Proof.
  pose proof (lint_frame demo_libs "eggs"
                {[ "builtins" := PList ["spam"]; "complexity" := PInt 3 ]} fresh)
    as [Hb Hm].
  assert (builtIns (lint demo_libs "eggs"
                      {[ "builtins" := PList ["spam"]; "complexity" := PInt 3 ]} fresh).1
          ≠ builtIns fresh) as Hne.
  { intros Heq. assert ("spam" ∈ builtIns fresh) as Hin.
    { rewrite <- Heq. vm_compute. reflexivity. }
    change (builtIns fresh) with ({["print"]} : gset string) in Hin.
    apply elem_of_singleton in Hin. discriminate Hin. }
  split; [exact Hne|]. split; [exact (proj1 (Hb Hne))|].
  apply Hm. intros Heq. discriminate Heq.
Defined.

(** ** Every line of the child is accounted for *)

Lemma parse_line_printed (text msg : string) :
  parse_line text = Printed msg → msg = "Flake8Lint ERROR: " +:+ text.
Proof.
  unfold parse_line.
  destruct (split_max ":" 2 text) as [|w0 [|w1 [|w2 [|w3 ws]]]]; try (by intros [= <-]).
  destruct (int_of_str w0), (int_of_str w1); try done; by intros [= <-].
Qed.

Lemma parse_output_valid (output : list string) :
  ∀ (warnings : list Diag) (console : list string),
    Forall (λ line, utf8_valid line = true) output →
    parse_output output warnings console
    = (console ++ omap (λ line, line_printed (strip line)) output,
       Ok (warnings ++ omap (λ line, line_warning (strip line)) output)).
Proof.
  induction output as [|line rest IH]; intros warnings console Hv; simpl.
  - by rewrite !app_nil_r.
  - apply Forall_cons in Hv as [Hline Hrest].
    unfold decode_utf8. rewrite Hline. unfold line_printed, line_warning.
    destruct (parse_line (strip line)) as [d|msg]; rewrite IH by done;
      by rewrite <- !app_assoc.
Qed.

Lemma parsed_or_printed (output : list string) :
  length (omap (λ line, line_warning (strip line)) output)
  + length (omap (λ line, line_printed (strip line)) output)
  = length output.
Proof.
  induction output as [|line rest IH]; [done|].
  cbn [omap list_omap length].
  unfold line_warning at 1, line_printed at 1.
  destruct (parse_line (strip line)); cbn [length]; lia.
Qed.

(** X6.  When the command line can be built and the child's output is
    UTF-8, [lint_external] does not raise and accounts for every output
    line exactly once: a line either gives a diagnostic in the returned
    list or is printed, behind the prefix [Flake8Lint ERROR: ] and without
    its surrounding whitespace; both keep the order of the output. *)
Theorem lint_external_accounts_for_every_line
    (run_child : list string → string → string) (lines : string)
    (settings : gmap string PyVal) (interpreter linter : string)
    (arguments : list string) :
  build_arguments settings interpreter linter = Ok arguments →
  Forall (λ line, utf8_valid line = true) (splitlines (run_child arguments lines)) →
  let output := splitlines (run_child arguments lines) in
  ∃ (warnings : list Diag) (console : list string),
    lint_external run_child lines settings interpreter linter = (console, Ok warnings)
    ∧ warnings = omap (λ line, line_warning (strip line)) output
    ∧ console = omap (λ line, line_printed (strip line)) output
    ∧ length warnings + length console = length output
    ∧ Forall (λ msg, ∃ line, line ∈ output ∧ msg = "Flake8Lint ERROR: " +:+ strip line)
             console.
Proof.
  intros Hargs Hvalid output. unfold lint_external. rewrite Hargs.
  fold output in Hvalid |- *.
  rewrite (parse_output_valid output [] [] Hvalid). simpl.
  eexists _, _. split; [done|]. split; [done|]. split; [done|].
  split; [apply parsed_or_printed|].
  apply Forall_forall. intros msg Hmsg.
  apply list_elem_of_omap in Hmsg as (line & Hin & Hline).
  exists line. split; [done|].
  unfold line_printed in Hline.
  destruct (parse_line (strip line)) as [d|m] eqn:Hp; [done|].
  injection Hline as <-. by apply parse_line_printed.
Qed.

Lemma lint_external_accounts_for_every_line_witness :
  ∃ (warnings : list Diag) (console : list string),
    lint_external (λ _ _, "Traceback (most recent call last):" +:+ String LF "1:4:E225 x")
      "" ∅ "python" "lint.py" = (console, Ok warnings)
    ∧ warnings
      = omap (λ line, line_warning (strip line))
          (splitlines ("Traceback (most recent call last):" +:+ String LF "1:4:E225 x"))
    ∧ console
      = omap (λ line, line_printed (strip line))
          (splitlines ("Traceback (most recent call last):" +:+ String LF "1:4:E225 x"))
    ∧ length warnings + length console
      = length (splitlines ("Traceback (most recent call last):" +:+ String LF "1:4:E225 x"))
    ∧ Forall (λ msg, ∃ line,
                line ∈ splitlines ("Traceback (most recent call last):"
                                   +:+ String LF "1:4:E225 x")
                ∧ msg = "Flake8Lint ERROR: " +:+ strip line)
             console.
Proof.
  apply (lint_external_accounts_for_every_line
           (λ _ _, "Traceback (most recent call last):" +:+ String LF "1:4:E225 x")
           "" ∅ "python" "lint.py"
           ["python"; "lint.py"; "--pyflakes"; "--pep8"; "--pep8-max-line-length"; "79";
            "--naming"; "--debugger"; "--import-order-style"; "cryptography";
            "--complexity"; "-1"]).
  - reflexivity.
  - repeat constructor.
Defined.

(** ** Text lemmas for the wire format *)

Lemma rev_app_app (s t acc : string) :
  String.rev_app (s +:+ t) acc = String.rev_app t (String.rev_app s acc).
Proof.
  revert acc. induction s as [|c s IH]; intros acc; [done|].
  rewrite append_cons. simpl. apply IH.
Qed.

Lemma rev_app_rev_app (s acc : string) :
  String.rev_app (String.rev_app s acc) "" = String.rev_app acc s.
Proof.
  revert acc. induction s as [|c s IH]; intros acc; simpl; [done|].
  by rewrite IH.
Qed.

Lemma string_rev_involutive (s : string) : String.rev (String.rev s) = s.
Proof. unfold String.rev. by rewrite rev_app_rev_app. Qed.

Lemma byte_in_spec (lo hi : N) (c : ascii) :
  byte_in lo hi c = true ↔ (lo ≤ N_of_ascii c ≤ hi)%N.
Proof. unfold byte_in. rewrite andb_true_iff, !N.leb_le. done. Qed.

Lemma drop_first_prefix_high (ps : list string) (c : ascii) (s : string) :
  Forall high_start ps → byte_in 0 127 c = true →
  drop_first_prefix ps (String c s) = None.
Proof.
  intros Hps Hc. induction Hps as [|p ps Hp Hps IH]; simpl; [done|].
  destruct p as [|a p']; [done|]. simpl in Hp |- *.
  destruct (Ascii.eqb_spec a c) as [->|_]; [|exact IH].
  apply byte_in_spec in Hp. apply byte_in_spec in Hc. lia.
Qed.

Lemma wide_spaces_high : Forall high_start wide_spaces.
Proof. repeat (constructor; [reflexivity|]). constructor. Qed.

Lemma wide_spaces_rev_high : Forall high_start (String.rev <$> wide_spaces).
Proof. repeat (constructor; [reflexivity|]). constructor. Qed.

(** A byte that starts or ends a text without being stripped: ASCII and
    not whitespace. *)
Lemma drop_space_plain (wide : list string) (c : ascii) (s : string) :
  Forall high_start wide → byte_in 0 127 c = true → is_space_byte c = false →
  drop_space wide (String c s) = None.
Proof.
  intros Hw Hc Hs. unfold drop_space. rewrite Hs.
  by apply drop_first_prefix_high.
Qed.

Lemma lstrip_plain (c : ascii) (s : string) :
  byte_in 0 127 c = true → is_space_byte c = false →
  lstrip (String c s) = String c s.
Proof.
  intros Hc Hs. unfold lstrip. simpl String.length. cbn [lstrip_with].
  by rewrite (drop_space_plain _ _ _ wide_spaces_high Hc Hs).
Qed.

Lemma last_byte_split (s : string) (c : ascii) :
  last_byte s = Some c → ∃ u, s = u +:+ String c "".
Proof.
  induction s as [|a s IH]; simpl; [done|].
  destruct (last_byte s) as [c'|] eqn:Hl.
  - intros [= ->]. destruct (IH eq_refl) as [u ->]. by exists (String a u).
  - intros [= ->]. destruct s; [|simpl in Hl; by destruct (last_byte s)].
    by exists "".
Qed.

Lemma last_byte_app (s t : string) :
  last_byte (s +:+ t) = match last_byte t with
                        | Some c => Some c
                        | None => last_byte s
                        end.
Proof.
  induction s as [|a s IH].
  - change ("" +:+ t) with t. by destruct (last_byte t).
  - rewrite append_cons. simpl. rewrite IH. by destruct (last_byte t), (last_byte s).
Qed.

Lemma rstrip_plain (s : string) (c : ascii) :
  last_byte s = Some c → byte_in 0 127 c = true → is_space_byte c = false →
  rstrip s = s.
Proof.
  intros Hl Hc Hs. destruct (last_byte_split s c Hl) as [u ->].
  unfold rstrip.
  assert (String.rev (u +:+ String c "") = String c (String.rev u)) as Hrev.
  { unfold String.rev. by rewrite rev_app_app. }
  rewrite Hrev. simpl String.length. cbn [lstrip_with].
  rewrite (drop_space_plain _ _ _ wide_spaces_rev_high Hc Hs).
  by rewrite <- Hrev, string_rev_involutive.
Qed.

Lemma visible_not_space (c : ascii) :
  byte_in 33 126 c = true → byte_in 0 127 c = true ∧ is_space_byte c = false.
Proof.
  intros H%byte_in_spec. split.
  - apply byte_in_spec. lia.
  - unfold is_space_byte. apply orb_false_iff.
    split; apply not_true_iff_false; intros H'%byte_in_spec; lia.
Qed.

Lemma contains_char_app (x : ascii) (s t : string) :
  contains_char x (s +:+ t) = contains_char x s || contains_char x t.
Proof.
  induction s as [|a s IH]; [done|].
  rewrite append_cons. simpl. by rewrite IH, orb_assoc.
Qed.

Lemma all_bytes_contains (P : ascii → bool) (x : ascii) (s : string) :
  all_bytes P s = true → P x = false → contains_char x s = false.
Proof.
  intros Hall Hx. induction s as [|a s IH]; simpl in *; [done|].
  apply andb_true_iff in Hall as [Ha Hs]. rewrite (IH Hs), orb_false_r.
  destruct (Ascii.eqb_spec a x) as [->|]; [|done]. by rewrite Ha in Hx.
Qed.

Lemma all_bytes_last (P : ascii → bool) (s : string) (c : ascii) :
  all_bytes P s = true → last_byte s = Some c → P c = true.
Proof.
  induction s as [|a s IH]; simpl; [done|].
  intros [Ha Hs]%andb_true_iff. destruct (last_byte s) as [c'|].
  - intros [= ->]. by apply IH.
  - by intros [= ->].
Qed.

Lemma all_bytes_app (P : ascii → bool) (s t : string) :
  all_bytes P (s +:+ t) = all_bytes P s && all_bytes P t.
Proof.
  induction s as [|a s IH]; [done|].
  rewrite append_cons. simpl. by rewrite IH, andb_assoc.
Qed.

Lemma all_bytes_impl (P Q : ascii → bool) (s : string) :
  (∀ c, P c = true → Q c = true) → all_bytes P s = true → all_bytes Q s = true.
Proof.
  intros HPQ. induction s as [|a s IH]; simpl; [done|].
  intros [Ha Hs]%andb_true_iff. by rewrite (HPQ a Ha), IH.
Qed.

Lemma utf8_valid_ascii_app (s t : string) :
  all_bytes (byte_in 0 127) s = true → utf8_valid (s +:+ t) = utf8_valid t.
Proof.
  induction s as [|a s IH]; [done|].
  rewrite append_cons. cbn [all_bytes utf8_valid].
  intros [Ha Hs]%andb_true_iff. rewrite Ha. by apply IH.
Qed.

(** ** Decimal text read back *)

Lemma is_digit_digit_char (d : N) : (d < 10)%N → is_digit (digit_char d) = true.
Proof.
  intros Hd. unfold is_digit. apply byte_in_spec. rewrite N_of_digit_char by done. lia.
Qed.

Lemma dec_digits_all_digits (f : nat) :
  ∀ (m : N) (acc : string),
    all_bytes is_digit acc = true → all_bytes is_digit (dec_digits f m acc) = true.
Proof.
  induction f as [|f IH]; intros m acc Hacc; simpl; [done|].
  assert (all_bytes is_digit (String (digit_char (m mod 10)) acc) = true) as Hacc'.
  { simpl. rewrite Hacc, is_digit_digit_char; [done|]. apply N.mod_lt. lia. }
  destruct (m / 10 =? 0)%N; [done|]. by apply IH.
Qed.

Lemma dec_digits_start (f : nat) :
  ∀ (m : N) (acc : string),
    ∃ c r, dec_digits (S f) m acc = String c r ∧ is_digit c = true.
Proof.
  induction f as [|f IH]; intros m acc.
  - simpl. exists (digit_char (m mod 10)), acc.
    split; [by destruct (m / 10 =? 0)%N|].
    apply is_digit_digit_char, N.mod_lt. lia.
  - change (dec_digits (S (S f)) m acc)
      with (if (m / 10 =? 0)%N then String (digit_char (m mod 10)) acc
            else dec_digits (S f) (m / 10) (String (digit_char (m mod 10)) acc)).
    destruct (m / 10 =? 0)%N; [|apply IH].
    eexists _, _. split; [done|]. apply is_digit_digit_char, N.mod_lt. lia.
Qed.

(** Reading the digits [str] wrote gives the number back. *)
Lemma digits_value_dec_digits (f : nat) :
  ∀ (m : N) (acc : string),
    (1 ≤ f)%nat → (m < 10 ^ N.of_nat f)%N →
    digits_value (dec_digits f m acc) 0 false = digits_value acc m true.
Proof.
  induction f as [|f IH]; intros m acc Hf Hm; [lia|]. simpl.
  assert (digits_value (String (digit_char (m mod 10)) acc) (m / 10) true
          = digits_value acc m true) as Hstep.
  { simpl. rewrite is_digit_digit_char by (apply N.mod_lt; lia).
    rewrite N_of_digit_char by (apply N.mod_lt; lia). f_equal.
    pose proof (N.div_mod m 10%N ltac:(lia)) as Hdm.
    set (q := (m / 10)%N) in *. set (r := (m mod 10)%N) in *. clearbody q r. lia. }
  destruct (N.eqb_spec (m / 10) 0%N) as [Hz|Hz].
  - rewrite <- Hstep, Hz. simpl.
    rewrite is_digit_digit_char by (apply N.mod_lt; lia). done.
  - assert (10 ≤ m)%N as Hm10.
    { destruct (N.lt_ge_cases m 10%N) as [Hlt|]; [|done].
      by apply N.div_small in Hlt. }
    assert (1 ≤ f)%nat as Hf1.
    { destruct f; [|lia]. simpl in Hm. lia. }
    rewrite IH; [exact Hstep|done|by apply div10_lt].
Qed.

Lemma digits_value_str_of_N (m : N) : digits_value (str_of_N m) 0 false = Some m.
Proof.
  unfold str_of_N. rewrite digits_value_dec_digits; [done|lia|apply str_of_N_fuel].
Qed.

Lemma str_of_N_digits (m : N) :
  all_bytes is_digit (str_of_N m) = true
  ∧ ∃ c r, str_of_N m = String c r ∧ is_digit c = true.
Proof.
  split; [by apply dec_digits_all_digits|apply dec_digits_start].
Qed.

Lemma is_digit_plain (c : ascii) :
  is_digit c = true → byte_in 0 127 c = true ∧ is_space_byte c = false.
Proof.
  intros H%byte_in_spec. apply visible_not_space, byte_in_spec. lia.
Qed.

Lemma sign_of_digits (c : ascii) (r : string) :
  is_digit c = true →
  match String c r with
  | String "-" t => (true, t)
  | String "+" t => (false, t)
  | _ => (false, String c r)
  end = (false, String c r).
Proof.
  destruct c as [[] [] [] [] [] [] [] []]; intros H; try discriminate H; reflexivity.
Qed.

(** An ASCII character is a code point of its own, and [int] keeps it. *)
Lemma code_points_low (b : ascii) (s : string) :
  byte_in 0 127 b = true → code_points (String b s) = N_of_ascii b :: code_points s.
Proof.
  intros Hb.
  assert (byte_in 192 223 b = false ∧ byte_in 224 239 b = false
          ∧ byte_in 240 247 b = false) as (H1 & H2 & H3).
  { apply byte_in_spec in Hb.
    repeat split; apply not_true_iff_false; intros H%byte_in_spec; lia. }
  destruct s as [|b1 [|b2 [|b3 s4]]]; cbn [code_points]; rewrite ?H1, ?H2, ?H3;
    reflexivity.
Qed.

Lemma int_text_ascii (s : string) :
  all_bytes (byte_in 0 126) s = true → int_text s = s.
Proof.
  induction s as [|a s IH]; [done|].
  cbn [all_bytes]. intros [Ha Hs]%andb_true_iff. apply byte_in_spec in Ha.
  unfold int_text in *. rewrite code_points_low by (apply byte_in_spec; lia).
  cbn [foldr]. rewrite (IH Hs). f_equal. unfold int_char.
  replace (N_of_ascii a <? 127)%N with true by (symmetry; apply N.ltb_lt; lia).
  apply ascii_N_embedding.
Qed.

Lemma lstrip_c_spaces_plain (c : ascii) (s : string) :
  is_c_space c = false → lstrip_c_spaces (String c s) = String c s.
Proof. intros H. simpl. by rewrite H. Qed.

(** Text that starts and ends with characters that are not whitespace
    is its own [strip_c_spaces]. *)
Lemma strip_c_spaces_plain (c : ascii) (s : string) (z : ascii) :
  is_c_space c = false → last_byte (String c s) = Some z → is_c_space z = false →
  strip_c_spaces (String c s) = String c s.
Proof.
  intros Hc Hl Hz. unfold strip_c_spaces. rewrite (lstrip_c_spaces_plain c s Hc).
  destruct (last_byte_split _ z Hl) as [u Hu]. rewrite Hu.
  assert (String.rev (u +:+ String z "") = String z (String.rev u)) as Hrev.
  { unfold String.rev. by rewrite rev_app_app. }
  rewrite Hrev, (lstrip_c_spaces_plain z _ Hz).
  by rewrite <- Hrev, string_rev_involutive.
Qed.

Lemma sign_or_digit_plain (c : ascii) :
  is_digit c || Ascii.eqb c "-" = true →
  byte_in 0 126 c = true ∧ is_c_space c = false.
Proof.
  intros [H|H]%orb_true_iff.
  - apply byte_in_spec in H. split; [apply byte_in_spec; lia|].
    unfold is_c_space. apply orb_false_iff. split.
    + apply not_true_iff_false. intros H'%byte_in_spec. lia.
    + apply Ascii.eqb_neq. intros ->. simpl in H. lia.
  - apply Ascii.eqb_eq in H as ->. by split.
Qed.

(** The text of an integer is read by [int] as it stands. *)
Lemma int_body_str_of_Z (s : string) :
  all_bytes (λ c, is_digit c || Ascii.eqb c "-") s = true → s ≠ "" →
  strip_c_spaces (int_text s) = s.
Proof.
  intros Hall Hne.
  rewrite int_text_ascii
    by (eapply all_bytes_impl; [|exact Hall]; intros c Hc; by apply sign_or_digit_plain).
  destruct s as [|c r]; [done|].
  destruct (last_byte (String c r)) as [z|] eqn:Hz;
    [|by simpl in Hz; destruct (last_byte r)].
  pose proof (all_bytes_last _ _ _ Hall Hz) as Hzd.
  cbn [all_bytes] in Hall. apply andb_true_iff in Hall as [Hc _].
  apply (strip_c_spaces_plain c r z); [by apply sign_or_digit_plain|done|].
  by apply sign_or_digit_plain.
Qed.

Lemma digits_sign_or_digit (s : string) :
  all_bytes is_digit s = true → all_bytes (λ c, is_digit c || Ascii.eqb c "-") s = true.
Proof. apply all_bytes_impl. by intros c ->. Qed.

Lemma count_digits_all (s : string) :
  all_bytes is_digit s = true → count_digits s = String.length s.
Proof.
  induction s as [|c s IH]; simpl; [done|].
  intros [-> Hs]%andb_true_iff. by rewrite (IH Hs).
Qed.

Lemma int_of_str_str_of_N (m : N) :
  too_many_digits (String.length (str_of_N m)) = false →
  int_of_str (str_of_N m) = Ok (Z.of_N m).
Proof.
  intros Hshort. destruct (str_of_N_digits m) as [Hall (c & r & Heq & Hc)].
  unfold int_of_str.
  rewrite int_body_str_of_Z by (by apply digits_sign_or_digit || by rewrite Heq).
  pose proof (digits_value_str_of_N m) as Hv.
  pose proof (count_digits_all _ Hall) as Hcount. rewrite <- Hcount in Hshort.
  rewrite Heq in Hv, Hshort |- *.
  rewrite (sign_of_digits c r Hc). by rewrite Hv, Hshort.
Qed.

(** [int(str(n))] is [n]. *)
Lemma int_of_str_str_of_Z (n : Z) : formattable (PInt n) = true → int_of_str (str_of_Z n) = Ok n.
Proof.
  cbn [formattable]. intros Hshort%negb_true_iff.
  unfold str_of_Z. destruct (Z.ltb_spec n 0) as [Hneg|Hpos].
  - destruct (str_of_N_digits (Z.abs_N n)) as [Hall (c & r & Heq & Hc)].
    unfold int_of_str. rewrite int_body_str_of_Z.
    + rewrite digits_value_str_of_N, (count_digits_all _ Hall), Hshort. f_equal. lia.
    + cbn [all_bytes]. by rewrite (digits_sign_or_digit _ Hall).
    + done.
  - rewrite int_of_str_str_of_N by done. f_equal. lia.
Qed.

Lemma str_of_Z_bytes (n : Z) :
  all_bytes (λ c, is_digit c || Ascii.eqb c "-") (str_of_Z n) = true
  ∧ ∃ c r, str_of_Z n = String c r
           ∧ byte_in 0 127 c = true ∧ is_space_byte c = false.
Proof.
  destruct (str_of_N_digits (Z.abs_N n)) as [Hall (c & r & Heq & Hc)].
  assert (all_bytes (λ c, is_digit c || Ascii.eqb c "-") (str_of_N (Z.abs_N n)) = true)
    as Hall'.
  { clear -Hall. induction (str_of_N (Z.abs_N n)) as [|a s IH]; simpl in *; [done|].
    apply andb_true_iff in Hall as [-> Hs]. simpl. by apply IH. }
  unfold str_of_Z. destruct (n <? 0)%Z.
  - split; [by simpl|]. by eexists _, _.
  - split; [done|]. exists c, r. split; [done|]. by apply is_digit_plain.
Qed.

(** ** From the child's standard output back to diagnostics *)

Lemma sign_or_digit_ascii (c : ascii) :
  is_digit c || Ascii.eqb c "-" = true → byte_in 0 127 c = true.
Proof.
  intros [H|H]%orb_true_iff.
  - by apply is_digit_plain.
  - apply Ascii.eqb_eq in H as ->. reflexivity.
Qed.

Lemma wire_line_prefix (l c : Z) (msg : string) :
  wire_line l c msg = (str_of_Z l +:+ ":" +:+ str_of_Z c +:+ ":") +:+ msg
  ∧ all_bytes (byte_in 0 127) (str_of_Z l +:+ ":" +:+ str_of_Z c +:+ ":") = true
  ∧ contains_char LF (str_of_Z l +:+ ":" +:+ str_of_Z c +:+ ":") = false
  ∧ contains_char CR (str_of_Z l +:+ ":" +:+ str_of_Z c +:+ ":") = false.
Proof.
  destruct (str_of_Z_bytes l) as [Hl _]. destruct (str_of_Z_bytes c) as [Hc _].
  split; [|split; [|split]].
  - unfold wire_line. by rewrite !string_app_assoc.
  - rewrite !all_bytes_app.
    rewrite (all_bytes_impl _ _ _ sign_or_digit_ascii Hl).
    by rewrite (all_bytes_impl _ _ _ sign_or_digit_ascii Hc).
  - rewrite !contains_char_app.
    rewrite (all_bytes_contains _ LF _ Hl) by reflexivity.
    by rewrite (all_bytes_contains _ LF _ Hc) by reflexivity.
  - rewrite !contains_char_app.
    rewrite (all_bytes_contains _ CR _ Hl) by reflexivity.
    by rewrite (all_bytes_contains _ CR _ Hc) by reflexivity.
Qed.

(** *** Whitespace at the end of a line

    What [strip] removes at the end of a text depends on the end of the
    text only, as long as what comes before is ASCII: no whitespace
    character of several bytes can start there. *)

Lemma rev_app_append (t acc : string) : String.rev_app t acc = String.rev t +:+ acc.
Proof.
  revert acc. induction t as [|c t IH]; intros acc; [done|].
  unfold String.rev. simpl. rewrite (IH (String c acc)), (IH (String c "")).
  by rewrite string_app_assoc.
Qed.

Lemma string_rev_app (s t : string) :
  String.rev (s +:+ t) = String.rev t +:+ String.rev s.
Proof. unfold String.rev at 1. rewrite rev_app_app. apply rev_app_append. Qed.

Lemma all_bytes_rev (P : ascii → bool) (s : string) :
  all_bytes P (String.rev s) = all_bytes P s.
Proof.
  induction s as [|c s IH]; [done|].
  change (String c s) with (String c "" +:+ s).
  rewrite string_rev_app, !all_bytes_app, IH. simpl. by rewrite andb_comm.
Qed.

Lemma wide_spaces_rev_all_high :
  Forall (λ p, all_bytes (byte_in 128 255) p = true) (String.rev <$> wide_spaces).
Proof. repeat (constructor; [reflexivity|]). constructor. Qed.

Lemma drop_prefix_length (p : string) :
  ∀ s r, drop_prefix p s = Some r →
         String.length s = (String.length p + String.length r)%nat.
Proof.
  induction p as [|a p IH]; intros s r; simpl.
  - by intros [= ->].
  - destruct s as [|b s]; [done|]. destruct (Ascii.eqb a b); [|done].
    intros H. simpl. by rewrite (IH _ _ H).
Qed.

Lemma drop_space_shorter (wide : list string) (s r : string) :
  Forall high_start wide → drop_space wide s = Some r →
  (String.length r < String.length s)%nat.
Proof.
  intros Hw. unfold drop_space. destruct s as [|c s]; [done|].
  destruct (is_space_byte c); [intros [= <-]; simpl; lia|].
  generalize (String c s). intros t.
  induction Hw as [|p ps Hp Hps IH]; simpl; [done|].
  destruct (drop_prefix p t) as [r'|] eqn:Hd; [|exact IH].
  intros [= ->]. apply drop_prefix_length in Hd. destruct p; [done|]. simpl in Hd. lia.
Qed.

Lemma lstrip_with_length (wide : list string) (fuel : nat) :
  Forall high_start wide →
  ∀ s, (String.length (lstrip_with wide fuel s) ≤ String.length s)%nat.
Proof.
  intros Hw. induction fuel as [|fuel IH]; intros s; simpl; [done|].
  destruct (drop_space wide s) as [r|] eqn:Hd; [|done].
  pose proof (drop_space_shorter _ _ _ Hw Hd). specialize (IH r). lia.
Qed.

Lemma lstrip_with_fixed (wide : list string) (fuel : nat) (s : string) :
  Forall high_start wide → lstrip_with wide (S fuel) s = s → drop_space wide s = None.
Proof.
  intros Hw. simpl. destruct (drop_space wide s) as [r|] eqn:Hd; [|done].
  intros Heq. pose proof (drop_space_shorter _ _ _ Hw Hd).
  pose proof (lstrip_with_length wide fuel Hw r) as Hlen. rewrite Heq in Hlen. lia.
Qed.

Lemma drop_prefix_app_low (p : string) :
  ∀ r t, all_bytes (byte_in 128 255) p = true → all_bytes (byte_in 0 127) t = true →
         drop_prefix p r = None → drop_prefix p (r +:+ t) = None.
Proof.
  induction p as [|a p IH]; intros r t Hp Ht; [done|].
  cbn [all_bytes] in Hp. apply andb_true_iff in Hp as [Ha Hp].
  destruct r as [|c r].
  - intros _. change ("" +:+ t) with t. destruct t as [|b t]; [done|]. simpl.
    cbn [all_bytes] in Ht. apply andb_true_iff in Ht as [Hb _].
    destruct (Ascii.eqb_spec a b) as [->|]; [|done].
    apply byte_in_spec in Ha. apply byte_in_spec in Hb. lia.
  - rewrite append_cons. simpl. destruct (Ascii.eqb a c); [by apply IH|done].
Qed.

Lemma drop_first_prefix_app_low (ps : list string) (r t : string) :
  Forall (λ p, all_bytes (byte_in 128 255) p = true) ps →
  all_bytes (byte_in 0 127) t = true →
  drop_first_prefix ps r = None → drop_first_prefix ps (r +:+ t) = None.
Proof.
  intros Hps Ht. induction Hps as [|p ps Hp Hps IH]; simpl; [done|].
  destruct (drop_prefix p r) as [x|] eqn:Hd; [done|].
  intros Hrest. rewrite (drop_prefix_app_low p r t Hp Ht Hd). by apply IH.
Qed.

Lemma rstrip_app_ascii (a m : string) :
  all_bytes (byte_in 0 127) a = true → m ≠ "" → rstrip m = m →
  rstrip (a +:+ m) = a +:+ m.
Proof.
  intros Ha Hm Hfix. unfold rstrip in *. cbv zeta in *.
  assert (lstrip_with (String.rev <$> wide_spaces) (String.length (String.rev m))
            (String.rev m) = String.rev m) as Hl.
  { rewrite <- Hfix at 3. by rewrite string_rev_involutive. }
  destruct (String.rev m) as [|c r] eqn:Hrev.
  { exfalso. apply Hm. rewrite <- (string_rev_involutive m). by rewrite Hrev. }
  apply lstrip_with_fixed in Hl; [|apply wide_spaces_rev_high].
  assert (drop_space (String.rev <$> wide_spaces) (String c r +:+ String.rev a) = None)
    as Hnone.
  { rewrite append_cons. unfold drop_space in Hl |- *.
    destruct (is_space_byte c); [done|].
    rewrite <- append_cons. apply drop_first_prefix_app_low; [|by rewrite all_bytes_rev|done].
    apply wide_spaces_rev_all_high. }
  rewrite append_cons in Hnone.
  assert (String.rev (a +:+ m) = String c (r +:+ String.rev a)) as Hx.
  { by rewrite string_rev_app, Hrev, append_cons. }
  rewrite Hx. simpl String.length. cbn [lstrip_with]. rewrite Hnone, <- Hx.
  apply string_rev_involutive.
Qed.

Lemma strip_wire_line (l c : Z) (msg : string) :
  rstrip msg = msg → strip (wire_line l c msg) = wire_line l c msg.
Proof.
  intros Hends.
  destruct (str_of_Z_bytes l) as [_ (a & r & Heq & Ha1 & Ha2)].
  destruct (wire_line_prefix l c msg) as (Hline & Hascii & _).
  assert (lstrip (wire_line l c msg) = wire_line l c msg) as Hleft.
  { unfold wire_line. rewrite Heq, append_cons. by apply lstrip_plain. }
  unfold strip. rewrite Hleft.
  destruct (decide (msg = "")) as [->|Hne].
  - apply (rstrip_plain _ ":"%char); [|done..].
    unfold wire_line. by rewrite !last_byte_app.
  - rewrite Hline. by apply rstrip_app_ascii.
Qed.

(** A printed line, read by the loop of [lint_external], gives the
    diagnostic back. *)
Lemma parse_line_wire (l c : Z) (msg : string) :
  formattable (PInt l) = true → formattable (PInt c) = true →
  parse_line (wire_line l c msg) = Warning (PInt l, PInt c, msg).
Proof.
  intros Hfl Hfc.
  destruct (str_of_Z_bytes l) as [Hl _]. destruct (str_of_Z_bytes c) as [Hc _].
  unfold parse_line, wire_line.
  rewrite split_max_fields by (by eapply all_bytes_contains).
  by rewrite !int_of_str_str_of_Z.
Qed.

Lemma splitlines_from_line (line : string) :
  ∀ (cur rest : string),
    contains_char LF line = false → contains_char CR line = false →
    splitlines_from cur (line +:+ String LF rest)
    = String.rev (String.rev_app line cur) :: splitlines_from "" rest
    ∧ splitlines_from cur (line +:+ String CR (String LF rest))
      = String.rev (String.rev_app line cur) :: splitlines_from "" rest.
Proof.
  induction line as [|a line IH]; intros cur rest Hlf Hcr.
  - split; reflexivity.
  - simpl in Hlf, Hcr.
    apply orb_false_iff in Hlf as [Ha1 Hlf]. apply orb_false_iff in Hcr as [Ha2 Hcr].
    rewrite !append_cons. simpl. rewrite Ha1, Ha2.
    apply IH; done.
Qed.

Lemma splitlines_stdout_bytes (eol : string) (printed : list string) :
  eol = String LF "" ∨ eol = String CR (String LF "") →
  Forall (λ line, contains_char LF line = false ∧ contains_char CR line = false) printed →
  splitlines (stdout_bytes eol printed) = printed.
Proof.
  intros Heol Hp. induction Hp as [|line rest [Hlf Hcr] Hrest IH]; [done|].
  unfold splitlines in *. cbn [stdout_bytes].
  destruct (splitlines_from_line line "" (stdout_bytes eol rest) Hlf Hcr) as [H1 H2].
  destruct Heol as [-> | ->].
  - change (String LF "" +:+ stdout_bytes (String LF "") rest)
      with (String LF (stdout_bytes (String LF "") rest)).
    rewrite H1, IH by auto. f_equal. apply string_rev_involutive.
  - change (String CR (String LF "") +:+ stdout_bytes (String CR (String LF "")) rest)
      with (String CR (String LF (stdout_bytes (String CR (String LF "")) rest))).
    rewrite H2, IH by auto. f_equal. apply string_rev_involutive.
Qed.

Lemma wire_safe_text (d : Diag) :
  wire_safe d →
  ∃ l c : Z, d = (PInt l, PInt c, diag_msg d) ∧ wire_text d = wire_line l c (diag_msg d)
             ∧ formattable (PInt l) = true ∧ formattable (PInt c) = true
             ∧ contains_char LF (wire_text d) = false
             ∧ contains_char CR (wire_text d) = false.
Proof.
  destruct d as [[dl dc] msg]. intros (l & c & Hl & Hc & [Hfl Hfc] & Hu & Hlf & Hcr & He).
  unfold diag_line, diag_col, diag_msg in *. simpl in Hl, Hc, Hfl, Hfc, Hu, Hlf, Hcr, He |- *.
  subst dl dc.
  exists l, c. split; [done|]. split; [done|]. split; [done|]. split; [done|].
  unfold wire_text. simpl.
  destruct (wire_line_prefix l c msg) as (Heq & Hascii & Hplf & Hpcr).
  rewrite Heq, (contains_char_app LF _ msg), (contains_char_app CR _ msg), Hplf, Hpcr.
  by rewrite Hlf, Hcr.
Qed.

Lemma wire_safe_lines (ws : list Diag) :
  Forall wire_safe ws →
  Forall (λ line, contains_char LF line = false ∧ contains_char CR line = false)
         (wire_text <$> ws)
  ∧ Forall (λ line, utf8_valid line = true) (wire_text <$> ws)
  ∧ omap (λ line, line_warning (strip line)) (wire_text <$> ws) = ws
  ∧ omap (λ line, line_printed (strip line)) (wire_text <$> ws) = [].
Proof.
  induction 1 as [|d ws Hd Hws (IH1 & IH2 & IH3 & IH4)].
  - repeat split; constructor.
  - destruct (wire_safe_text d Hd) as (l & c & Hshape & Htext & Hfl & Hfc & Hlf & Hcr).
    destruct Hd as (_ & _ & _ & _ & _ & Hu & _ & _ & He).
    rewrite fmap_cons.
    destruct (wire_line_prefix l c (diag_msg d)) as (Heq & Hascii & _).
    split; [|split; [|split]].
    + by constructor.
    + constructor; [|done]. by rewrite Htext, Heq, utf8_valid_ascii_app.
    + cbn [omap list_omap]. unfold line_warning at 1.
      rewrite Htext, (strip_wire_line l c _ He), parse_line_wire by done.
      rewrite <- Hshape. f_equal. exact IH3.
    + cbn [omap list_omap]. unfold line_printed at 1.
      rewrite Htext, (strip_wire_line l c _ He), parse_line_wire by done. exact IH4.
Qed.

(** *** Printing to a standard output in UTF-8 *)

Lemma append_nil_r (s : string) : s +:+ "" = s.
Proof. induction s as [|c s IH]; [done|]. by rewrite append_cons, IH. Qed.

Lemma utf8_stream_line (eol text : string) :
  contains_char LF text = false → utf8_stream eol text = text.
Proof.
  induction text as [|c text IH]; simpl; [done|].
  intros [Hc Ht]%orb_false_iff. by rewrite Hc, (IH Ht).
Qed.

Lemma print_utf8 (eol text written : string) :
  contains_char LF text = false →
  print (utf8_stdout eol) text written = (written +:+ text +:+ eol, Ok tt).
Proof.
  intros Hlf. unfold print, utf8_stdout. rewrite (utf8_stream_line _ _ Hlf).
  simpl. by rewrite append_nil_r.
Qed.

Lemma str_of_int_formattable (n : Z) :
  formattable (PInt n) = true → str_of_int n = Ok (str_of_Z n).
Proof. cbn [formattable]. intros H%negb_true_iff. unfold str_of_int. by rewrite H. Qed.

Lemma percent_format_int (l c : Z) (msg : string) :
  formattable (PInt l) = true → formattable (PInt c) = true →
  percent_format (PInt l, PInt c, msg) = Ok (wire_line l c msg).
Proof.
  intros Hl Hc. unfold percent_format, percent_d. cbn [diag_line diag_col diag_msg fst snd].
  by rewrite !str_of_int_formattable.
Qed.

Lemma print_warnings_utf8 (eol : string) (ws : list Diag) :
  Forall wire_safe ws →
  ∀ written,
    print_warnings (utf8_stdout eol) ws written
    = (written +:+ stdout_bytes eol (wire_text <$> ws), Ok tt).
Proof.
  induction 1 as [|d ws Hd Hws IH]; intros written.
  - simpl. by rewrite append_nil_r.
  - destruct (wire_safe_text d Hd) as (l & c & Hshape & Htext & Hfl & Hfc & Hlf & _).
    cbn [print_warnings fmap list_fmap stdout_bytes]. unfold print_warning.
    rewrite Hshape at 1. rewrite percent_format_int, <- Htext by done.
    rewrite (print_utf8 eol _ written Hlf), IH.
    by rewrite !string_app_assoc.
Qed.

(** X7.  What the child prints, the parent reads back: when the child's
    output is what the printing loop of the program writes, to a
    standard output in UTF-8 whose lines end in LF or in CR LF, for the
    diagnostics [warnings], and these have integer positions and messages
    in UTF-8 that hold no line break and do not end in whitespace,
    [lint_external] returns exactly [warnings], in the same order, and
    prints nothing. *)
Theorem lint_external_reads_back_printed_diagnostics
    (run_child : list string → string → string) (lines : string)
    (settings : gmap string PyVal) (interpreter linter : string)
    (arguments : list string) (warnings : list Diag) (eol : string) :
  build_arguments settings interpreter linter = Ok arguments →
  eol = String LF "" ∨ eol = String CR (String LF "") →
  run_child arguments lines = (print_warnings (utf8_stdout eol) warnings "").1 →
  Forall wire_safe warnings →
  lint_external run_child lines settings interpreter linter = ([], Ok warnings).
Proof.
  intros Hargs Heol Hout Hsafe.
  destruct (wire_safe_lines warnings Hsafe) as (Hbreaks & Hvalid & Hback & Hnone).
  rewrite (print_warnings_utf8 eol warnings Hsafe "") in Hout. cbn [fst] in Hout.
  change ("" +:+ ?x) with x in Hout.
  unfold lint_external. rewrite Hargs, Hout.
  rewrite (splitlines_stdout_bytes eol _ Heol Hbreaks).
  rewrite (parse_output_valid _ [] [] Hvalid). by rewrite Hback, Hnone.
Qed.

Lemma lint_external_reads_back_printed_diagnostics_witness :
  lint_external
    (λ _ _, (print_warnings (utf8_stdout (String CR (String LF "")))
               [(PInt 3, PInt 5, "E111 indentation: 4");
                (PInt (-1), PInt 0, "caf" +:+ bytes_of [195; 169]%N);
                (PInt 7, PInt 0, "")] "").1)
    "" ∅ "python" "lint.py"
  = ([], Ok [(PInt 3, PInt 5, "E111 indentation: 4");
             (PInt (-1), PInt 0, "caf" +:+ bytes_of [195; 169]%N);
             (PInt 7, PInt 0, "")]).
Proof.
  apply (lint_external_reads_back_printed_diagnostics _ "" ∅ "python" "lint.py"
           ["python"; "lint.py"; "--pyflakes"; "--pep8"; "--pep8-max-line-length"; "79";
            "--naming"; "--debugger"; "--import-order-style"; "cryptography";
            "--complexity"; "-1"]
           _ (String CR (String LF ""))).
  - reflexivity.
  - right. reflexivity.
  - reflexivity.
  - repeat constructor.
    + exists 3%Z, 5%Z. repeat split; reflexivity.
    + exists (-1)%Z, 0%Z. repeat split; reflexivity.
    + exists 7%Z, 0%Z. repeat split; reflexivity.
Defined.

(** ** The worker run as a program *)

Lemma lint_result_well_positioned {Tree : Type} (L : Libs Tree) (lines : string)
    (settings : gmap string PyVal) (g g' : Globals) (sorted : list Diag) :
  lint L lines settings g = (g', Ok sorted) → Forall well_positioned sorted.
Proof.
  unfold lint, bind, lift.
  destruct (collect L lines settings g) as [g1 [warnings|e]]; [|done].
  destruct (sort_warnings_cases warnings) as [[Hw (s & Hs & Hp)]|[_ (e & Hs & _)]];
    rewrite Hs; [|done].
  intros [= _ <-]. by rewrite Hp.
Qed.

Lemma percent_d_formattable (v : PyVal) :
  formattable v = true →
  ∃ n, int_value v = Some n ∧ percent_d v = Ok (str_of_Z n).
Proof.
  destruct v as [|[]|n| | |]; try done; try (intros _; by eexists).
  intros Hn. exists n. split; [done|]. by apply str_of_int_formattable.
Qed.

Lemma percent_format_well_positioned (w : Diag) :
  well_positioned w →
  ∃ l c : Z,
    int_value (diag_line w) = Some l ∧ int_value (diag_col w) = Some c
    ∧ percent_format w = Ok (wire_line l c (diag_msg w)).
Proof.
  intros [Hl Hc].
  destruct (percent_d_formattable _ Hl) as (l & Hil & Hpl).
  destruct (percent_d_formattable _ Hc) as (c & Hic & Hpc).
  exists l, c. split; [done|]. split; [done|].
  unfold percent_format, wire_line. by rewrite Hpl, Hpc.
Qed.

(** The loop when every formatted line is taken by the stream. *)
Lemma print_warnings_taken (stdout_write : string → Result string) (newline : string)
    (ws : list Diag) (lines encoded : list string) :
  stdout_write (String LF "") = Ok newline →
  Forall2 (λ w line, percent_format w = Ok line) ws lines →
  Forall2 (λ line bytes, stdout_write line = Ok bytes) lines encoded →
  ∀ written,
    print_warnings stdout_write ws written
    = (written +:+ stdout_bytes newline encoded, Ok tt).
Proof.
  intros Hnl Hlines. revert encoded.
  induction Hlines as [|w line ws lines Hw Hws IH]; intros encoded Henc written.
  - apply Forall2_nil_inv_l in Henc as ->. simpl. by rewrite append_nil_r.
  - apply Forall2_cons_inv_l in Henc as (bytes & encoded' & Hb & Henc & ->).
    cbn [print_warnings stdout_bytes]. unfold print_warning, print.
    rewrite Hw, Hb, Hnl. rewrite (IH _ Henc). by rewrite !string_app_assoc.
Qed.

(** X8.  The program formats every diagnostic [lint] returns as
    [line:column:message], the positions in decimal: [lint] has already
    formatted both positions as integers, so the formatting never raises
    and the fallback that prints the tuple is taken only when the
    printing of the formatted line itself raises.  When the standard
    output takes every line, the program writes one line per diagnostic,
    in the order of [lint], and ends normally. *)
Theorem main_prints_one_line_per_diagnostic {Tree : Type}
    (stdout_write : string → Result string) (L : Libs Tree)
    (ns : Namespace) (stdin_lines : string) (g g' : Globals) (warnings : list Diag) :
  lint L stdin_lines (main_settings ns) g = (g', Ok warnings) →
  ∃ lines,
    Forall2 (λ w line, ∃ l c : Z,
               int_value (diag_line w) = Some l ∧ int_value (diag_col w) = Some c
               ∧ line = wire_line l c (diag_msg w)
               ∧ ∀ written,
                   print_warning stdout_write w written
                   = match print stdout_write line written with
                     | (written', Ok _) => (written', Ok tt)
                     | (written', Raise _) => print_tuple stdout_write w written'
                     end)
            warnings lines
    ∧ ∀ newline encoded,
        stdout_write (String LF "") = Ok newline →
        Forall2 (λ line bytes, stdout_write line = Ok bytes) lines encoded →
        main stdout_write L ns stdin_lines g = (g', (stdout_bytes newline encoded, Ok tt)).
Proof.
  intros Hlint. pose proof (lint_result_well_positioned _ _ _ _ _ _ Hlint) as Hpos.
  exists (wire_text <$> warnings).
  assert (∀ w, well_positioned w →
               ∃ l c : Z,
                 int_value (diag_line w) = Some l ∧ int_value (diag_col w) = Some c
                 ∧ wire_text w = wire_line l c (diag_msg w)
                 ∧ percent_format w = Ok (wire_text w)) as Hone.
  { intros w Hw.
    destruct (percent_format_well_positioned w Hw) as (l & c & Hl & Hc & Hf).
    exists l, c. unfold wire_text. by rewrite Hl, Hc. }
  split.
  - apply Forall2_fmap_r, Forall_Forall2_diag.
    eapply Forall_impl; [exact Hpos|]. intros w Hw.
    destruct (Hone w Hw) as (l & c & Hl & Hc & Ht & Hf).
    exists l, c. split; [done|]. split; [done|]. split; [done|].
    intros written. unfold print_warning. by rewrite Hf.
  - intros newline encoded Hnl Henc. unfold main. rewrite Hlint.
    rewrite (print_warnings_taken _ newline _ (wire_text <$> warnings) encoded Hnl);
      [done| |done].
    apply Forall2_fmap_r, Forall_Forall2_diag.
    eapply Forall_impl; [exact Hpos|]. intros w Hw.
    by destruct (Hone w Hw) as (l & c & _ & _ & _ & Hf).
Qed.

Lemma main_prints_one_line_per_diagnostic_witness :
  main (utf8_stdout (String LF "")) demo_libs
    {| ns_pyflakes := true; ns_builtins := Some "eggs,ham"; ns_pep8 := true;
       ns_pydocstyle := false; ns_naming := false; ns_debugger := false;
       ns_import_order := false; ns_import_order_style := None;
       ns_complexity := Some 1%Z; ns_pep8_max_line_length := 79 |}
    "spam" fresh
  = ({| builtIns := {["print"]} ∪ list_to_set ["eggs"; "ham"]; max_complexity := 1;
        calls := [EvPep8 ["DIRTY-HACK"] (PInt 79);
                  EvPyflakes ({["print"]} ∪ list_to_set ["eggs"; "ham"]);
                  EvMccabe 1] |},
     (stdout_bytes (String LF "")
        ["1:0:F821 undefined name 'spam'"; "1:0:C901 'f' is too complex (2)";
         "2:79:E501 line too long (80 > 79 characters)"],
      Ok tt)).
Proof.
  destruct (main_prints_one_line_per_diagnostic (utf8_stdout (String LF "")) demo_libs
              {| ns_pyflakes := true; ns_builtins := Some "eggs,ham"; ns_pep8 := true;
                 ns_pydocstyle := false; ns_naming := false; ns_debugger := false;
                 ns_import_order := false; ns_import_order_style := None;
                 ns_complexity := Some 1%Z; ns_pep8_max_line_length := 79 |}
              "spam" fresh
              {| builtIns := {["print"]} ∪ list_to_set ["eggs"; "ham"]; max_complexity := 1;
                 calls := [EvPep8 ["DIRTY-HACK"] (PInt 79);
                           EvPyflakes ({["print"]} ∪ list_to_set ["eggs"; "ham"]);
                           EvMccabe 1] |}
              [(PInt 1, PInt 0, "F821 undefined name 'spam'");
               (PInt 1, PInt 0, "C901 'f' is too complex (2)");
               (PInt 2, PInt 79, "E501 line too long (80 > 79 characters)")]
              eq_refl) as (lines & Hlines & Hmain).
  apply (Hmain (String LF "")); [reflexivity|].
  apply Forall2_cons_inv_l in Hlines as (l1 & r1 & (? & ? & [= <-] & [= <-] & -> & _) & Hlines & ->).
  apply Forall2_cons_inv_l in Hlines as (l2 & r2 & (? & ? & [= <-] & [= <-] & -> & _) & Hlines & ->).
  apply Forall2_cons_inv_l in Hlines as (l3 & r3 & (? & ? & [= <-] & [= <-] & -> & _) & Hlines & ->).
  apply Forall2_nil_inv_l in Hlines as ->.
  repeat constructor.
Defined.

Lemma collect_all_disabled {Tree : Type} (L : Libs Tree) (lines : string)
    (settings : gmap string PyVal) (g : Globals) :
  all_disabled settings →
  collect L lines settings g
  = (g, Ok match py_compile L lines with
           | inl _ => []
           | inr exc => [syntax_error_diag exc]
           end).
Proof.
  intros (Hpep8 & Hdoc & Hflakes & Hnaming & Hdebugger & Horder & n & Hn & Hle).
  assert ((complexity_value settings >? -1)%Z = false) as Hgt.
  { destruct (complexity_threshold_value settings) as [Hv | (Hv & _)];
      rewrite Hv in Hn; [|done]. injection Hn as <-. lia. }
  rewrite collect_run. unfold text_calls, text_warnings. rewrite Hpep8, Hdoc. simpl.
  rewrite add_calls_nil.
  destruct (py_compile L lines) as [tree|exc]; [|done].
  rewrite (lint_tree_run L lines settings tree [] g []
             (extra_builtins_pyflakes_off settings Hflakes)).
  rewrite Hn. cbn [rbind].
  unfold tree_calls, tree_warnings.
  rewrite Hflakes, Hnaming, Hdebugger, Horder, Hgt. simpl.
  rewrite (right_id_L ∅ (∪) (builtIns g)), app_nil_r. by rewrite globals_eta.
Qed.

Lemma main_settings_all_disabled (ns : Namespace) :
  ns_pyflakes ns = false → ns_pep8 ns = false → ns_pydocstyle ns = false →
  ns_naming ns = false → ns_debugger ns = false → ns_import_order ns = false →
  (∀ n, ns_complexity ns = Some n → (n < 0)%Z) →
  all_disabled (main_settings ns).
Proof.
  destruct ns as [pyflakes builtins pep8 pydocstyle naming debugger import_order
                    style complexity width]. simpl.
  intros -> -> -> -> -> -> Hcx.
  assert (∀ s : gmap string PyVal,
            s !! "complexity" = Some (from_option PInt PNone complexity) →
            ∃ n, complexity_threshold s = Ok n ∧ (n ≤ -1)%Z) as Hvalue.
  { intros s Hs. unfold complexity_threshold, settings_get. rewrite Hs.
    destruct complexity as [n|]; simpl.
    - exists n. split; [done|]. specialize (Hcx n eq_refl). lia.
    - by exists (-1)%Z. }
  unfold main_settings.
  destruct (truthy (settings_get _ "builtins" PNone)); [destruct builtins as [s|]|];
    simpl; repeat split; try reflexivity; by apply Hvalue.
Qed.

(** X9.  Run with no option that enables a checker (and no non-negative
    complexity), the program checks nothing but that the source compiles:
    every option is then a key holding a false value, so that none of the
    defaults of [lint] applies; it writes nothing for a source that
    compiles and, for one that does not, what the printing of the syntax
    error gives, and that alone. *)
Theorem main_without_options {Tree : Type} (stdout_write : string → Result string)
    (L : Libs Tree) (ns : Namespace) (stdin_lines : string) (g : Globals) :
  ns_pyflakes ns = false → ns_pep8 ns = false → ns_pydocstyle ns = false →
  ns_naming ns = false → ns_debugger ns = false → ns_import_order ns = false →
  (∀ n, ns_complexity ns = Some n → (n < 0)%Z) →
  match py_compile L stdin_lines with
  | inl _ => main stdout_write L ns stdin_lines g = (g, ("", Ok tt))
  | inr exc =>
      well_positioned (syntax_error_diag exc) →
      main stdout_write L ns stdin_lines g
      = (g, print_warning stdout_write (syntax_error_diag exc) "")
  end.
Proof.
  intros H1 H2 H3 H4 H5 H6 H7.
  pose proof (collect_all_disabled L stdin_lines (main_settings ns) g
                (main_settings_all_disabled ns H1 H2 H3 H4 H5 H6 H7)) as Hrun.
  unfold main, lint, bind, lift, ret. rewrite Hrun.
  destruct (py_compile L stdin_lines) as [tree|exc]; [done|].
  intros [k Hk]%sort_key_well_positioned.
  unfold sort_warnings, py_sorted. simpl. rewrite Hk. simpl.
  by destruct (print_warning stdout_write (syntax_error_diag exc) "") as [w [[]|e]].
Qed.

Lemma main_without_options_witness :
  main (utf8_stdout (String LF "")) demo_libs no_options "(" fresh
  = (fresh, ("1:1:E901 SyntaxError: unexpected EOF while parsing" +:+ String LF "", Ok tt)).
Proof.
  apply (main_without_options (utf8_stdout (String LF "")) demo_libs no_options "(" fresh);
    try reflexivity.
  - intros n H. discriminate H.
  - split; reflexivity.
Defined.

(** ** Extra built-in names on the command line *)

Lemma split_on_no_sep (sep : ascii) (s : string) :
  contains_char sep s = false → split_on sep s = [s].
Proof.
  induction s as [|a s IH]; simpl; [done|].
  intros [Ha Hs]%orb_false_iff. by rewrite Ha, (IH Hs).
Qed.

Lemma split_on_app (sep : ascii) (s rest : string) :
  contains_char sep s = false →
  split_on sep (s +:+ String sep rest) = s :: split_on sep rest.
Proof.
  induction s as [|a s IH]; intros Hs.
  - change ("" +:+ String sep rest) with (String sep rest). simpl.
    by rewrite Ascii.eqb_refl.
  - rewrite append_cons. simpl in Hs |- *.
    apply orb_false_iff in Hs as [Ha Hs]. by rewrite Ha, (IH Hs).
Qed.

(** Splitting at commas undoes joining with commas. *)
Lemma split_on_join (names : list string) :
  names ≠ [] → Forall (λ n, contains_char "," n = false) names →
  split_on "," (join "," names) = names.
Proof.
  intros Hne Hall. induction Hall as [|x l Hx Hl IH]; [done|].
  destruct l as [|y l].
  - simpl. by apply split_on_no_sep.
  - change (join "," (x :: y :: l)) with (x +:+ String "," (join "," (y :: l))).
    rewrite (split_on_app _ _ _ Hx). f_equal. by apply IH.
Qed.

(** No piece of a split holds the separator. *)
Lemma split_on_pieces (sep : ascii) (s : string) :
  Forall (λ n, contains_char sep n = false) (split_on sep s).
Proof.
  induction s as [|a s IH]; simpl; [by repeat constructor|].
  destruct (Ascii.eqb a sep) eqn:Ha; [by constructor|].
  destruct (split_on sep s) as [|h t]; [by repeat constructor; simpl; rewrite Ha|].
  apply Forall_cons in IH as [Hh Ht]. constructor; [|done]. simpl. by rewrite Ha, Hh.
Qed.

Lemma join_not_empty (names : list string) :
  names ≠ [] → names ≠ [""] → join "," names ≠ "".
Proof.
  intros Hne Hne'. destruct names as [|x [|y l]]; [done| |].
  - simpl. intros ->. done.
  - change (join "," (x :: y :: l)) with (x +:+ String "," (join "," (y :: l))).
    by destruct x.
Qed.

(** X10.  The extra built-in names on their way to the child:
    [lint_external] puts the names, joined by commas, after
    [--builtins]; the program splits the value of that option at commas.
    Given that text as the value of the option, the split restores the
    list exactly when no name holds a comma and the list is not the
    single empty name.  (How [argparse] comes by the value is not part of
    the model.) *)
Theorem builtins_joined_then_split (names : list string) :
  names ≠ [] →
  (∀ (settings : gmap string PyVal) (interpreter linter : string)
     (arguments : list string),
     enabled settings "pyflakes" true = true →
     settings !! "builtins" = Some (PList names) →
     build_arguments settings interpreter linter = Ok arguments →
     ∃ after,
       arguments
       = [interpreter; linter; "--pyflakes"; "--builtins"; join "," names] ++ after)
  ∧ (∀ ns : Namespace,
       ns_builtins ns = Some (join "," names) →
       main_settings ns !! "builtins" = Some (PList names)
       ↔ names ≠ [""] ∧ Forall (λ n, contains_char "," n = false) names).
Proof.
  intros Hne. split.
  - intros settings interpreter linter arguments Hflakes Hb.
    assert (settings_get settings "builtins" PNone = PList names) as Hget.
    { unfold settings_get. by rewrite Hb. }
    assert (truthy (PList names) = true) as Htrue by (by destruct names).
    unfold build_arguments. unfold enabled in Hflakes.
    rewrite Hflakes, Hget, Htrue. cbn [iter_strs rbind].
    remember (join "," names) as joined eqn:Hjoined. clear Hjoined.
    destruct (py_str (settings_get settings "complexity" (PInt (-1)))) as [cx|];
      [|by destruct (truthy (settings_get settings "pep8" (PBool true)));
          [destruct (py_str _)|]].
    destruct (truthy (settings_get settings "pep8" (PBool true)));
      [destruct (py_str (settings_get settings "pep8_max_line_length" (PInt 79)))
         as [width|]; [|done]|];
      destruct (truthy (settings_get settings "pydocstyle" (PBool false))),
        (truthy (settings_get settings "naming" (PBool true))),
        (truthy (settings_get settings "debugger" (PBool true))),
        (truthy (settings_get settings "import_order" (PBool false)));
      destruct (settings_get settings "import_order_style" PNone) as [| | | |style|];
      try destruct (String.eqb style "cryptography" || String.eqb style "google");
      simpl; intros [= <-]; by eexists.
  - intros ns Hns. unfold main_settings.
    assert (settings_get (namespace_dict ns) "builtins" PNone = PStr (join "," names))
      as Hget.
    { unfold settings_get, namespace_dict. rewrite Hns. reflexivity. }
    assert (namespace_dict ns !! "builtins" = Some (PStr (join "," names))) as Hraw.
    { unfold namespace_dict. rewrite Hns. reflexivity. }
    rewrite Hget. simpl.
    destruct (String.eqb_spec (join "," names) "") as [Hempty|Hfull]; simpl.
    + rewrite Hraw. split; [done|]. intros [Hne' _].
      by apply (join_not_empty names) in Hempty.
    + rewrite lookup_insert_eq. split.
      * intros [= Hsplit]. split.
        -- intros ->. by apply Hfull.
        -- rewrite <- Hsplit. apply split_on_pieces.
      * intros [_ Hcommas]. by rewrite split_on_join.
Qed.

Lemma builtins_joined_then_split_witness :
  (∀ (settings : gmap string PyVal) (interpreter linter : string)
     (arguments : list string),
     enabled settings "pyflakes" true = true →
     settings !! "builtins" = Some (PList ["_"; "unicode"]) →
     build_arguments settings interpreter linter = Ok arguments →
     ∃ after,
       arguments
       = [interpreter; linter; "--pyflakes"; "--builtins"; join "," ["_"; "unicode"]]
           ++ after)
  ∧ (∀ ns : Namespace,
       ns_builtins ns = Some (join "," ["_"; "unicode"]) →
       main_settings ns !! "builtins" = Some (PList ["_"; "unicode"])
       ↔ ["_"; "unicode"] ≠ [""]
         ∧ Forall (λ n, contains_char "," n = false) ["_"; "unicode"]).
Proof.
  apply (builtins_joined_then_split ["_"; "unicode"]). discriminate.
Defined.

(** ** The search for configuration files *)

Lemma split_last_slash_length (p head tail : string) :
  split_last_slash p = Some (head, tail) →
  String.length p = (String.length head + String.length tail)%nat.
Proof.
  revert head tail. induction p as [|c p IH]; intros head tail; simpl; [done|].
  destruct (split_last_slash p) as [[h t]|].
  - intros [= <- <-]. simpl. by rewrite (IH h t).
  - destruct (Ascii.eqb c "/"); [|done]. by intros [= <- <-].
Qed.

Lemma rstrip_slashes_length (s : string) :
  (String.length (rstrip_slashes s) ≤ String.length s)%nat.
Proof.
  induction s as [|c s IH]; simpl; [done|].
  destruct (String.eqb (rstrip_slashes s) "" && Ascii.eqb c "/"); simpl; lia.
Qed.

Lemma path_split_length (p head tail : string) :
  path_split p = (head, tail) →
  (String.length head + String.length tail ≤ String.length p)%nat.
Proof.
  unfold path_split.
  destruct (split_last_slash p) as [[h t]|] eqn:Hs.
  - apply split_last_slash_length in Hs.
    pose proof (rstrip_slashes_length h).
    destruct (String.eqb (rstrip_slashes h) ""); intros [= <- <-]; lia.
  - intros [= <- <-]. simpl. lia.
Qed.

Lemma length_zero_empty (s : string) : String.length s = 0%nat → s = "".
Proof. by destruct s. Qed.

Lemma search_config_round (env : ConfigEnv) (fuel : nat) (parser : ConfigParser)
    (parent tail : string) :
  search_config env (S fuel) parser parent tail
  = if String.eqb tail "" then Found parser
    else
      match read_files env parser (path_join parent <$> CONFIG_FILES) with
      | None => ReadError
      | Some (parser', read_ok) =>
          match read_ok with
          | _ :: _ => Found parser'
          | [] => search_config env fuel parser' (path_split parent).1 (path_split parent).2
          end
      end.
Proof.
  cbn [search_config]. destruct (String.eqb tail ""); [done|].
  destruct (read_files env parser _) as [[parser' [|f ok]]|]; try done.
  by destruct (path_split parent).
Qed.

(** Enough fuel for the loop in the state [(parent, tail)]. *)
Lemma search_config_terminates (env : ConfigEnv) (fuel : nat) :
  ∀ (parser : ConfigParser) (parent tail : string),
    (1 ≤ fuel)%nat → (tail ≠ "" → (String.length parent + 2 ≤ fuel)%nat) →
    search_config env fuel parser parent tail ≠ OutOfFuel.
Proof.
  induction fuel as [|fuel IH]; intros parser parent tail Hone Hfuel; [lia|].
  rewrite search_config_round.
  destruct (String.eqb_spec tail "") as [->|Htail]; [done|].
  specialize (Hfuel Htail).
  destruct (read_files env parser _) as [[parser' [|f ok]]|]; try done.
  destruct (path_split parent) as [parent' tail'] eqn:Hsplit.
  apply path_split_length in Hsplit. simpl.
  apply IH; [lia|]. intros Htail'.
  assert (String.length tail' ≠ 0%nat) by (by intros ?%length_zero_empty). lia.
Qed.

Lemma search_config_more_fuel (env : ConfigEnv) (fuel : nat) :
  ∀ (parser : ConfigParser) (parent tail : string) (extra : nat),
    search_config env fuel parser parent tail ≠ OutOfFuel →
    search_config env (fuel + extra)%nat parser parent tail
    = search_config env fuel parser parent tail.
Proof.
  induction fuel as [|fuel IH]; intros parser parent tail extra; [done|].
  change (S fuel + extra)%nat with (S (fuel + extra)).
  rewrite !search_config_round. destruct (String.eqb tail ""); [done|].
  destruct (read_files env parser _) as [[parser' [|f ok]]|]; try done.
  apply IH.
Qed.

(** X11.  The walk towards the root always ends: each round that goes on
    shortens the directory, so that no bound on the number of rounds is
    ever felt, and the loader always comes back with a result or with the
    parser's error. *)
Theorem config_search_terminates (env : ConfigEnv) (filename : string)
    (global_config project_config : bool) (parser : ConfigParser) (extra : nat) :
  load_flake8_config_files env filename global_config project_config ≠ ConfigOutOfFuel
  ∧ search_config env (String.length (env_abspath env filename) + 2 + extra)%nat parser
      (env_abspath env filename) (env_abspath env filename)
    = search_config env (String.length (env_abspath env filename) + 2)%nat parser
        (env_abspath env filename) (env_abspath env filename)
  ∧ search_config env (String.length (env_abspath env filename) + 2)%nat parser
      (env_abspath env filename) (env_abspath env filename) ≠ OutOfFuel.
Proof.
  assert (∀ p, search_config env (String.length (env_abspath env filename) + 2)%nat p
                 (env_abspath env filename) (env_abspath env filename) ≠ OutOfFuel)
    as Hends.
  { intros p. apply search_config_terminates; lia. }
  split; [|split; [|apply Hends]].
  - unfold load_flake8_config_files.
    destruct (if global_config && env_isfile env (DEFAULT_CONFIG_FILE env)
              then _ else _) as [[p ok]|]; [|done].
    destruct project_config; [|done].
    specialize (Hends p).
    by destruct (search_config env _ p _ _).
  - by apply search_config_more_fuel.
Qed.

Lemma climb_iter (k : nat) (start : string) :
  climb k start = Nat.iter k (λ pt, path_split pt.1) (start, start).
Proof. induction k as [|k IH]; simpl; [done|]. by rewrite IH. Qed.

Lemma search_config_first_hit (env : ConfigEnv) (parser parser' : ConfigParser)
    (read_ok : list string) (k : nat) :
  ∀ (fuel : nat) (parent tail : string),
    (String.length parent + 2 ≤ fuel)%nat →
    (∀ j, (j < k)%nat →
       (Nat.iter j (λ pt, path_split pt.1) (parent, tail)).2 ≠ ""
       ∧ read_files env parser
           (path_join (Nat.iter j (λ pt, path_split pt.1) (parent, tail)).1
              <$> CONFIG_FILES)
         = Some (parser, [])) →
    (Nat.iter k (λ pt, path_split pt.1) (parent, tail)).2 ≠ "" →
    read_files env parser
      (path_join (Nat.iter k (λ pt, path_split pt.1) (parent, tail)).1 <$> CONFIG_FILES)
    = Some (parser', read_ok) →
    read_ok ≠ [] →
    search_config env fuel parser parent tail = Found parser'.
Proof.
  induction k as [|k IH]; intros fuel parent tail Hfuel Hbelow Htail Hread Hok.
  - destruct fuel as [|fuel]; [lia|]. cbn [Nat.iter nat_rect fst snd] in Htail, Hread.
    rewrite search_config_round.
    apply String.eqb_neq in Htail. rewrite Htail, Hread. by destruct read_ok.
  - destruct fuel as [|fuel]; [lia|].
    destruct (Hbelow 0%nat ltac:(lia)) as [Htail0 Hread0].
    cbn [Nat.iter nat_rect fst snd] in Htail0, Hread0.
    rewrite search_config_round. apply String.eqb_neq in Htail0.
    rewrite Htail0, Hread0.
    destruct (path_split parent) as [parent' tail'] eqn:Hsplit.
    rewrite Nat.iter_succ_r in Htail, Hread. cbn [fst snd] in Htail, Hread.
    rewrite Hsplit in Htail, Hread. cbn [fst snd].
    apply IH; try done.
    + pose proof (path_split_length _ _ _ Hsplit) as Hlen.
      destruct (decide (tail' = "")) as [->|Hne].
      * exfalso. destruct k as [|k].
        -- by cbn [Nat.iter nat_rect snd] in Htail.
        -- destruct (Hbelow 1%nat ltac:(lia)) as [H1 _].
           cbn [Nat.iter nat_rect fst snd] in H1. by rewrite Hsplit in H1.
      * assert (String.length tail' ≠ 0%nat) by (by intros ?%length_zero_empty). lia.
    + intros j Hj. specialize (Hbelow (S j) ltac:(lia)).
      rewrite Nat.iter_succ_r in Hbelow. cbn [fst snd] in Hbelow.
      by rewrite Hsplit in Hbelow.
Qed.

(** X12.  The nearest configuration wins: when the rounds below find no
    file to read and round [k] reads at least one, the search ends there
    with the parser that round leaves; the directories further up are not
    read, whatever they hold. *)
Theorem config_search_stops_at_nearest (env : ConfigEnv) (parser parser' : ConfigParser)
    (read_ok : list string) (start : string) (k : nat) :
  (∀ j, (j < k)%nat →
     (climb j start).2 ≠ ""
     ∧ read_files env parser (path_join (climb j start).1 <$> CONFIG_FILES)
       = Some (parser, [])) →
  (climb k start).2 ≠ "" →
  read_files env parser (path_join (climb k start).1 <$> CONFIG_FILES)
  = Some (parser', read_ok) →
  read_ok ≠ [] →
  search_config env (String.length start + 2)%nat parser start start = Found parser'.
Proof.
  intros Hbelow Htail Hread Hok.
  apply (search_config_first_hit env parser parser' read_ok k); try done.
  - intros j Hj. rewrite <- climb_iter. by apply Hbelow.
  - by rewrite <- climb_iter.
  - by rewrite <- climb_iter.
Qed.

Lemma config_search_stops_at_nearest_witness :
  search_config demo_env (String.length "/work/proj/src/a.py" + 2)%nat
    {| cp_defaults := ∅; cp_sections := ∅ |} "/work/proj/src/a.py" "/work/proj/src/a.py"
  = Found {| cp_defaults := ∅ ∪ ∅;
             cp_sections :=
               union_with (λ new old, Some (new ∪ old))
                 {[ "flake8" := {[ "max-line-length" := "100" ]} ]} ∅ |}.
Proof.
  apply (config_search_stops_at_nearest demo_env _ _ ["/work/proj/tox.ini"]
           "/work/proj/src/a.py" 2).
  - intros j Hj. destruct j as [|[|j]]; [split; [discriminate|reflexivity]..|lia].
  - discriminate.
  - reflexivity.
  - discriminate.
Defined.

Lemma section_option_merge (parser content : ConfigParser) (s n : string) :
  section_option (merge_config parser content) s n
  = match section_option content s n with
    | Some v => Some v
    | None => section_option parser s n
    end.
Proof.
  unfold section_option, merge_config. cbn [cp_sections].
  rewrite lookup_union_with.
  destruct (cp_sections content !! s) as [new|], (cp_sections parser !! s) as [old|];
    cbn; try done.
  - rewrite lookup_union. by destruct (new !! n), (old !! n).
  - by destruct (new !! n).
Qed.

Lemma section_option_get (parser : ConfigParser) (s n v : string) :
  section_option parser s n = Some v → cp_get parser s n = Ok v.
Proof.
  unfold section_option, cp_get. destruct (cp_sections parser !! s) as [opts|]; [|done].
  cbn. by intros ->.
Qed.

Lemma read_files_leave (env : ConfigEnv) (s n : string) (files : list string) :
  ∀ (parser parser' : ConfigParser) (read_ok : list string),
    read_files env parser files = Some (parser', read_ok) →
    Forall (leaves_option env s n) files →
    section_option parser' s n = section_option parser s n.
Proof.
  induction files as [|f files IH]; intros parser parser' read_ok; cbn [read_files].
  - by intros [= <- <-].
  - intros Hread [Hf Hrest]%Forall_cons. unfold leaves_option in Hf.
    destruct (env_file env f) as [| |content]; [by eapply IH|done|].
    destruct (read_files env (merge_config parser content) files) as [[p ok]|] eqn:Hr;
      [|done].
    injection Hread as <- <-. rewrite (IH _ _ _ Hr Hrest), section_option_merge.
    by rewrite (Hf content eq_refl).
Qed.

Lemma read_files_wins (env : ConfigEnv) (s n v : string) (content : ConfigParser)
    (f : string) (after : list string) (before : list string) :
  ∀ (parser parser' : ConfigParser) (read_ok : list string),
    read_files env parser (before ++ f :: after) = Some (parser', read_ok) →
    env_file env f = Holds content →
    section_option content s n = Some v →
    Forall (leaves_option env s n) after →
    section_option parser' s n = Some v ∧ read_ok ≠ [].
Proof.
  induction before as [|g before IH]; intros parser parser' read_ok; cbn [app read_files].
  - intros Hread Hf Hv Hafter. rewrite Hf in Hread.
    destruct (read_files env (merge_config parser content) after) as [[p ok]|] eqn:Hr;
      [|done].
    injection Hread as <- <-. split; [|done].
    by rewrite (read_files_leave _ _ _ _ _ _ _ Hr Hafter), section_option_merge, Hv.
  - intros Hread Hf Hv Hafter.
    destruct (env_file env g) as [| |c]; [by eapply IH|done|].
    destruct (read_files env (merge_config parser c) _) as [[p ok]|] eqn:Hr; [|done].
    injection Hread as <- <-. split; [|done]. by eapply IH.
Qed.

Lemma read_files_readable (env : ConfigEnv) (files : list string) :
  Forall (λ f, env_file env f ≠ Broken) files →
  ∀ parser, is_Some (read_files env parser files).
Proof.
  induction 1 as [|f files Hf _ IH]; intros parser; cbn [read_files]; [done|].
  destruct (env_file env f) as [| |c]; [apply IH|done|].
  by destruct (IH (merge_config parser c)) as [[p ok] ->].
Qed.

(** X13.  The project's configuration overrides what the parser held
    before the search (the global configuration, when it was read): an
    option set by one of the files of the directory where the search
    stops, and by none of the files read after it there, has the value of
    that file in the parser the search leaves. *)
Theorem project_option_overrides (env : ConfigEnv) (parser content : ConfigParser)
    (start : string) (k : nat) (before after : list string) (fn s n v : string) :
  (∀ j, (j < k)%nat →
     (climb j start).2 ≠ ""
     ∧ read_files env parser (path_join (climb j start).1 <$> CONFIG_FILES)
       = Some (parser, [])) →
  (climb k start).2 ≠ "" →
  CONFIG_FILES = before ++ fn :: after →
  Forall (λ g, env_file env (path_join (climb k start).1 g) ≠ Broken) CONFIG_FILES →
  env_file env (path_join (climb k start).1 fn) = Holds content →
  section_option content s n = Some v →
  Forall (λ g, leaves_option env s n (path_join (climb k start).1 g)) after →
  ∃ parser',
    search_config env (String.length start + 2)%nat parser start start = Found parser'
    ∧ cp_get parser' s n = Ok v.
Proof.
  intros Hbelow Htail Hfiles Hreadable Hfn Hv Hafter.
  destruct (read_files_readable env (path_join (climb k start).1 <$> CONFIG_FILES)
              ltac:(by apply Forall_fmap) parser) as [[parser' read_ok] Hread].
  assert (section_option parser' s n = Some v ∧ read_ok ≠ []) as [Hopt Hok].
  { rewrite Hfiles, fmap_app, fmap_cons in Hread.
    eapply read_files_wins; try done. by apply Forall_fmap. }
  exists parser'. split; [|by apply section_option_get].
  apply (search_config_first_hit env parser parser' read_ok k); try done.
  - intros j Hj. rewrite <- climb_iter. by apply Hbelow.
  - by rewrite <- climb_iter.
  - by rewrite <- climb_iter.
Qed.

Lemma project_option_overrides_witness :
  cp_get demo_global "flake8" "max-line-length" = Ok "120"
  ∧ ∃ parser',
      search_config demo_env (String.length "/work/proj/src/a.py" + 2)%nat demo_global
        "/work/proj/src/a.py" "/work/proj/src/a.py" = Found parser'
      ∧ cp_get parser' "flake8" "max-line-length" = Ok "100".
Proof.
  split; [reflexivity|].
  apply (project_option_overrides demo_env demo_global
           {| cp_defaults := ∅;
              cp_sections := {[ "flake8" := {[ "max-line-length" := "100" ]} ]} |}
           "/work/proj/src/a.py" 2 ["setup.cfg"] [".pep8"] "tox.ini").
  - intros j Hj. destruct j as [|[|j]]; [split; [discriminate|reflexivity]..|lia].
  - discriminate.
  - reflexivity.
  - repeat constructor; discriminate.
  - reflexivity.
  - reflexivity.
  - repeat constructor. intros c. discriminate.
Defined.

Lemma search_config_keeps (env : ConfigEnv) (s n : string) (fuel : nat) :
  ∀ (parser parser' : ConfigParser) (parent tail : string),
    search_config env fuel parser parent tail = Found parser' →
    (∀ j fn, fn ∈ CONFIG_FILES →
       leaves_option env s n
         (path_join (Nat.iter j (λ pt, path_split pt.1) (parent, tail)).1 fn)) →
    section_option parser' s n = section_option parser s n.
Proof.
  induction fuel as [|fuel IH]; intros parser parser' parent tail; [done|].
  rewrite search_config_round. destruct (String.eqb tail ""); [by intros [= <-]|].
  destruct (read_files env parser _) as [[p ok]|] eqn:Hread; [|done].
  intros Hfound Hleave.
  assert (section_option p s n = section_option parser s n) as Hround.
  { apply (read_files_leave _ _ _ _ _ _ _ Hread), Forall_fmap, Forall_forall.
    intros fn Hfn. apply (Hleave 0%nat fn Hfn). }
  destruct ok as [|f ok]; [|by injection Hfound as <-].
  rewrite <- Hround. apply (IH _ _ _ _ Hfound).
  intros j fn Hfn. specialize (Hleave (S j) fn Hfn).
  rewrite Nat.iter_succ_r in Hleave. cbn [fst snd] in Hleave.
  by destruct (path_split parent).
Qed.

(** X14.  The search only adds what the files it reads hold: an option
    that none of the candidate files on the way up sets is, after the
    search, what it was before (so an option of the global configuration
    alone stays in force). *)
Theorem search_keeps_unset_options (env : ConfigEnv) (parser parser' : ConfigParser)
    (start s n : string) (fuel : nat) :
  search_config env fuel parser start start = Found parser' →
  (∀ j fn, fn ∈ CONFIG_FILES → leaves_option env s n (path_join (climb j start).1 fn)) →
  section_option parser' s n = section_option parser s n.
Proof.
  intros Hfound Hleave. apply (search_config_keeps env s n fuel _ _ _ _ Hfound).
  intros j fn Hfn. rewrite <- climb_iter. by apply Hleave.
Qed.

Lemma search_keeps_unset_options_witness :
  search_config demo_env (String.length "/work/proj/src/a.py" + 2)%nat demo_global
    "/work/proj/src/a.py" "/work/proj/src/a.py"
  = Found (merge_config demo_global
             {| cp_defaults := ∅;
                cp_sections := {[ "flake8" := {[ "max-line-length" := "100" ]} ]} |})
  ∧ section_option
      (merge_config demo_global
         {| cp_defaults := ∅;
            cp_sections := {[ "flake8" := {[ "max-line-length" := "100" ]} ]} |})
      "flake8" "select"
    = section_option demo_global "flake8" "select".
Proof.
  split; [reflexivity|].
  apply (search_keeps_unset_options demo_env _ _ "/work/proj/src/a.py" _ _
           (String.length "/work/proj/src/a.py" + 2)%nat); [reflexivity|].
  assert (∀ j, (climb (4 + j) "/work/proj/src/a.py").1 = "/") as Hroot.
  { induction j as [|j IH]; [reflexivity|].
    rewrite Nat.add_succ_r. cbn [climb]. by rewrite IH. }
  intros j fn Hfn.
  assert (fn = "setup.cfg" ∨ fn = "tox.ini" ∨ fn = ".pep8") as Hcases.
  { unfold CONFIG_FILES in Hfn. set_solver. }
  destruct j as [|[|[|[|j]]]];
    [idtac..|change (S (S (S (S j)))) with (4 + j)%nat; rewrite Hroot];
    destruct Hcases as [-> | [-> | ->]]; intros c; vm_compute; intros [= <-]; reflexivity.
Defined.
